(** * NovaSonicDemo backend: the session stream manager and its tools

    A shallow embedding of [backend/nova_s2s_backend.py] and of the tool
    handlers under [backend/lib/], followed by the properties the
    specification states about them.

    Conventions of the embedding.
    - Python values that travel through the manager are JSON values
      ([json]); [None] and JSON [null] are the same object, [JNull].
    - A coroutine is a function in the monad [M]: it reads and writes the
      [World] (the manager object, the effects so far) and either returns
      or raises.  A function of [M] runs without interleaving, as a
      coroutine does between two suspension points of the single-threaded
      event loop; a coroutine that waits for another party is given in
      segments, one per wait.
    - What the outside answers to a wait (the upstream stream, the remote
      agent, the client's screenshot) is an argument of the function that
      resumes after it; library functions whose text output is not at
      stake ([json.loads], [json.dumps], [repr] of containers,
      [uuid.uuid4]) and the services called in passing are the fields of
      an [Env] record.
    - A call of the logger is recorded by its level and a short form of
      its message. *)

From stdpp Require Import gmap strings list fin_maps pretty.
From Stdlib Require Import ZArith Ascii String.

Set Warnings "-register-all".

Open Scope Z_scope.
Open Scope string_scope.

(* ===================================================================== *)
(** ** JSON values and Python's view of them *)
(* ===================================================================== *)

(** The values [json.loads] produces.  A float is carried by its [repr]
    text (shortest round-trip form, e.g. [3.5], [1e+16], [inf], [nan]);
    an object is an association list whose first binding of a key is the
    one the dict holds. *)
Inductive json : Type :=
  | JNull
  | JBool (b : bool)
  | JInt (n : Z)
  | JFloat (repr : string)
  | JStr (s : string)
  | JArr (items : list json)
  | JObj (fields : list (string * json)).

(** The classes of [Exception] the code raises or catches by name;
    [OtherException] is any other class. *)
Inductive exn_class : Type :=
  | JSONDecodeError | UnicodeDecodeError | ValueError | OverflowError
  | TypeError | KeyError | IndexError | AttributeError | UnboundLocalError
  | StopAsyncIteration | ConnectionError | TimeoutError | ConnectionClosed
  | OtherException.

(** What a [raise] carries.  [Exn] is an instance of [Exception] with its
    [str(e)]; [CancelledError] derives from [BaseException] only, so no
    [except Exception] clause catches it. *)
Inductive exn : Type :=
  | Exn (cls : exn_class) (msg : string)
  | CancelledError.

Inductive res (A : Type) : Type :=
  | Ret (a : A)
  | Raise (e : exn).
Arguments Ret {A} a.
Arguments Raise {A} e.

#[global] Instance exn_class_eq_dec : EqDecision exn_class.
Proof. solve_decision. Defined.

(** [isinstance(e, json.JSONDecodeError)]; the class derives from
    [ValueError] and has no subclass here. *)
Definition is_json_decode_error (e : exn) : bool :=
  match e with Exn JSONDecodeError _ => true | _ => false end.

(** [isinstance(e, ValueError)]. *)
Definition is_value_error (e : exn) : bool :=
  match e with
  | Exn (ValueError | JSONDecodeError | UnicodeDecodeError) _ => true
  | _ => false
  end.

(** Python's name of the type of a value, as error messages print it. *)
Definition type_name (v : json) : string :=
  match v with
  | JNull => "NoneType" | JBool _ => "bool" | JInt _ => "int"
  | JFloat _ => "float" | JStr _ => "str" | JArr _ => "list"
  | JObj _ => "dict"
  end.

(** [bool(v)]. *)
Definition truthy (v : json) : bool :=
  match v with
  | JNull => false
  | JBool b => b
  | JInt n => negb (Z.eqb n 0)
  | JFloat r => negb (String.eqb r "0.0" || String.eqb r "-0.0")
  | JStr s => negb (String.eqb s "")
  | JArr l => match l with [] => false | _ => true end
  | JObj l => match l with [] => false | _ => true end
  end.

(** The dict's value at a key. *)
Fixpoint assoc (k : string) (kv : list (string * json)) : option json :=
  match kv with
  | [] => None
  | (k', v) :: rest => if String.eqb k k' then Some v else assoc k rest
  end.

(** [needle in hay] on two [str]. *)
Definition str_contains (needle hay : string) : bool :=
  match String.index 0 needle hay with Some _ => true | None => false end.

Definition json_is_str (v : json) (s : string) : bool :=
  match v with JStr s' => String.eqb s' s | _ => false end.

(** [k in v] for a [str] key: key membership on a dict, element
    membership on a list, substring on a [str], [TypeError] otherwise. *)
Definition py_in (k : string) (v : json) : res bool :=
  match v with
  | JObj kv => Ret (bool_decide (is_Some (assoc k kv)))
  | JArr l => Ret (existsb (fun x => json_is_str x k) l)
  | JStr s => Ret (str_contains k s)
  | _ => Raise (Exn TypeError
                  ("argument of type '" ++ type_name v ++ "' is not iterable"))
  end.

(** [v[k]] for a [str] key. *)
Definition py_getitem (v : json) (k : string) : res json :=
  match v with
  | JObj kv =>
      match assoc k kv with
      | Some x => Ret x
      | None => Raise (Exn KeyError ("'" ++ k ++ "'"))
      end
  | JArr _ => Raise (Exn TypeError "list indices must be integers or slices, not str")
  | JStr _ => Raise (Exn TypeError "string indices must be integers, not 'str'")
  | _ => Raise (Exn TypeError ("'" ++ type_name v ++ "' object is not subscriptable"))
  end.

(** [v.get(k, default)]; only a dict has [get]. *)
Definition py_get (v : json) (k : string) (dflt : json) : res json :=
  match v with
  | JObj kv => Ret (default dflt (assoc k kv))
  | _ => Raise (Exn AttributeError
                  ("'" ++ type_name v ++ "' object has no attribute 'get'"))
  end.

(** [s.lower()] on the ASCII letters.  (No character outside ASCII
    lowers to a letter of a registered tool name: the only such case of
    Unicode, the Kelvin sign, gives a [k].) *)
Definition lower_ascii (c : ascii) : ascii :=
  let n := nat_of_ascii c in
  if ((65 <=? n) && (n <=? 90))%nat then ascii_of_nat (n + 32) else c.

Fixpoint lower (s : string) : string :=
  match s with
  | EmptyString => EmptyString
  | String c rest => String (lower_ascii c) (lower rest)
  end.

(** [v.lower()]: only a [str] has the method. *)
Definition py_lower (v : json) : res string :=
  match v with
  | JStr s => Ret (lower s)
  | _ => Raise (Exn AttributeError
                  ("'" ++ type_name v ++ "' object has no attribute 'lower'"))
  end.

(** Keys of the manager's id-indexed dicts: the hashable JSON values.
    [True] and [1] are one key, as in Python; a float key is kept by its
    text (Python also takes an integral float for the integer, which is
    not modelled). *)
Inductive pykey : Type :=
  | KNone
  | KInt (n : Z)
  | KFloat (repr : string)
  | KStr (s : string).

#[global] Instance pykey_eq_dec : EqDecision pykey.
Proof. solve_decision. Defined.

#[global] Program Instance pykey_countable : Countable pykey :=
  inj_countable'
    (fun k => match k with
              | KNone => inl (inl (inl ()))
              | KInt n => inl (inl (inr n))
              | KFloat r => inl (inr r)
              | KStr s => inr s
              end)
    (fun x => match x with
              | inl (inl (inl _)) => KNone
              | inl (inl (inr n)) => KInt n
              | inl (inr r) => KFloat r
              | inr s => KStr s
              end) _.
Next Obligation. by intros []. Qed.

(** [hash(v)] succeeds on scalars; a list or a dict is unhashable.
    The keys are exact on texts, which is what the ids of the code are
    (annotated [str]).  Among numbers Python takes [1], [1.0] and
    [True] for one key; the float case here keeps a float apart. *)
Definition to_key (v : json) : res pykey :=
  match v with
  | JNull => Ret KNone
  | JBool b => Ret (KInt (if b then 1 else 0))
  | JInt n => Ret (KInt n)
  | JFloat r => Ret (KFloat r)
  | JStr s => Ret (KStr s)
  | JArr _ => Raise (Exn TypeError "unhashable type: 'list'")
  | JObj _ => Raise (Exn TypeError "unhashable type: 'dict'")
  end.

(** What the definitions are parametric in: library functions whose
    text output is not at stake, and the answers of the services the
    backend talks to.  An answer is indexed by the number of earlier
    calls of the same service, read off the trace. *)
Record Env : Type := {
  (** [json.loads] on a text; [None] when it raises. *)
  json_loads : string -> option json;
  (** [json.dumps]. *)
  json_dumps : json -> string;
  (** [repr] of a list or of a dict. *)
  py_repr : json -> string;
  (** [str(uuid.uuid4())]. *)
  uuid4 : nat -> string;
  (** [await self.stream_response.input_stream.send(event)]. *)
  upstream_send : nat -> res unit;
  (** [weather_agent(prompt).message]. *)
  weather_agent : nat -> string -> res json;
  (** [await websocket.send(text)]. *)
  websocket_send : nat -> res unit;
  (** What [json.loads] raises on a text it gives no value for: [None]
      stands for a [JSONDecodeError]; the other exceptions of the
      decoder are a [RecursionError] on deep nesting and a [ValueError]
      on an integer of more digits than [int] accepts. *)
  json_loads_error : string -> option (exn_class * string);
  (** [int(s)] for a text that has a character outside ASCII or more
      than 4300 characters, where the tables of Unicode and the digit
      limit of the running Python decide; [None] stands for the
      [ValueError]. *)
  int_of_other_text : string -> option Z;
  (** How [time.sleep] ends for a length above [longest_sure_sleep],
      where the system call of the platform decides: [None] when it
      sleeps, or the exception it raises (an [OSError], or an
      [OverflowError]). *)
  os_sleep : Z -> option (exn_class * string);
}.

(* ===================================================================== *)
(** ** The manager object and the world around it *)
(* ===================================================================== *)

Inductive level : Type := DEBUG | INFO | WARNING | ERROR.

(** The coroutine a background task runs: what the factory passed to
    [launch_background_tool_task] closes over. *)
Inductive work : Type :=
  | AgentSearchWork (query tool_use_id : json)
  | ImageAnalysisWork (image_analysis_id : string) (query_context : json).

(** An entry of [active_background_tasks]: the [asyncio.Task] running
    [task_wrapper] for these arguments. *)
Record BackgroundTask : Type := {
  bt_tool_use_id : json;
  bt_tool_name : string;
  bt_work : work;
}.

(** The data attributes of [BedrockStreamManager], as [__init__] lists
    them.  [stream_response] records whether the attribute is set;
    [pending_screenshot_events] maps an operation id to whether its
    [asyncio.Event] is set.  The table [tool_handlers] of handler
    functions is an argument of the functions that consult it. *)
Record Manager : Type := {
  model_id : string;
  region : string;
  last_credential_refresh : Z;
  audio_input_queue : list json;
  output_queue : list json;
  stream_response : bool;
  is_active : bool;
  prompt_name : json;
  content_name : json;
  audio_content_name : json;
  toolUseContent : json;
  toolUseId : json;
  toolName : json;
  speech_detected : bool;
  pending_tool_results : gmap pykey json;
  active_background_tasks : gmap pykey BackgroundTask;
  completed_async_tool_results : gmap string json;
  pending_screenshot_events : gmap pykey bool;
  received_screenshot_data : gmap pykey json;
}.

(** What the manager does to the outside. *)
Inductive effect : Type :=
  | ELog (lvl : level) (msg : string)
  | ESleep (seconds : Z)
  | EUpstreamSend (event_json : string)
  | EWeatherAgent (prompt : string)
  | ECreateTask (t : BackgroundTask)
  | EWebsocketSend (text : string).

(** The manager, the effects so far (latest first), and the number of
    identifiers drawn from [uuid.uuid4]. *)
Record World : Type := {
  mgr : Manager;
  trace : list effect;
  uuid_calls : nat;
}.

(** A coroutine or function body: runs on a world, returns or raises. *)
Definition M (A : Type) : Type := World -> res A * World.

#[global] Instance M_ret : MRet M := fun A a w => (Ret a, w).

#[global] Instance M_bind : MBind M := fun A B f c w =>
  match c w with
  | (Ret a, w') => f a w'
  | (Raise e, w') => (Raise e, w')
  end.

Definition raise {A} (e : exn) : M A := fun w => (Raise e, w).

Definition lift {A} (r : res A) : M A := fun w => (r, w).

(** [try: body  except BaseException as e: handler e]. *)
Definition try_catch {A} (body : M A) (handler : exn -> M A) : M A :=
  fun w =>
    match body w with
    | (Ret a, w') => (Ret a, w')
    | (Raise e, w') => handler e w'
    end.

(** [try: body  finally: fin]. *)
Definition try_finally {A} (body : M A) (fin : M unit) : M A :=
  fun w =>
    let '(r, w') := body w in
    match fin w' with
    | (Ret _, w'') => (r, w'')
    | (Raise e, w'') => (Raise e, w'')
    end.

(** Run [c] and hand back how it ended, raising nothing. *)
Definition observe {A} (c : M A) : M (res A) :=
  fun w => let '(r, w') := c w in (Ret r, w').

Definition get_mgr : M Manager := fun w => (Ret (mgr w), w).

Definition modify_mgr (f : Manager -> Manager) : M unit :=
  fun w => (Ret (), {| mgr := f (mgr w); trace := trace w;
                       uuid_calls := uuid_calls w |}).

Definition emit (e : effect) : M unit :=
  fun w => (Ret (), {| mgr := mgr w; trace := e :: trace w;
                       uuid_calls := uuid_calls w |}).

(** The world after the further effects [es], given in the order they
    happen. *)
Definition with_trace (w : World) (es : list effect) : World :=
  {| mgr := mgr w; trace := List.rev_append es (trace w);
     uuid_calls := uuid_calls w |}.

(** The world with another manager state. *)
Definition with_mgr (w : World) (m : Manager) : World :=
  {| mgr := m; trace := trace w; uuid_calls := uuid_calls w |}.

(** A call of [logger.<lvl>] or [logging.<lvl>]; the record keeps a
    short form of the message, without the interpolated values. *)
Definition log (lvl : level) (msg : string) : M unit := emit (ELog lvl msg).

(** Field updates of the manager. *)
Definition set_is_active (b : bool) (m : Manager) : Manager :=
  {| model_id := model_id m;
     region := region m;
     last_credential_refresh := last_credential_refresh m;
     audio_input_queue := audio_input_queue m;
     output_queue := output_queue m;
     stream_response := stream_response m;
     is_active := b;
     prompt_name := prompt_name m;
     content_name := content_name m;
     audio_content_name := audio_content_name m;
     toolUseContent := toolUseContent m;
     toolUseId := toolUseId m;
     toolName := toolName m;
     speech_detected := speech_detected m;
     pending_tool_results := pending_tool_results m;
     active_background_tasks := active_background_tasks m;
     completed_async_tool_results := completed_async_tool_results m;
     pending_screenshot_events := pending_screenshot_events m;
     received_screenshot_data := received_screenshot_data m |}.

Definition set_output_queue (q : list json) (m : Manager) : Manager :=
  {| model_id := model_id m;
     region := region m;
     last_credential_refresh := last_credential_refresh m;
     audio_input_queue := audio_input_queue m;
     output_queue := q;
     stream_response := stream_response m;
     is_active := is_active m;
     prompt_name := prompt_name m;
     content_name := content_name m;
     audio_content_name := audio_content_name m;
     toolUseContent := toolUseContent m;
     toolUseId := toolUseId m;
     toolName := toolName m;
     speech_detected := speech_detected m;
     pending_tool_results := pending_tool_results m;
     active_background_tasks := active_background_tasks m;
     completed_async_tool_results := completed_async_tool_results m;
     pending_screenshot_events := pending_screenshot_events m;
     received_screenshot_data := received_screenshot_data m |}.

Definition set_toolUseContent (v : json) (m : Manager) : Manager :=
  {| model_id := model_id m;
     region := region m;
     last_credential_refresh := last_credential_refresh m;
     audio_input_queue := audio_input_queue m;
     output_queue := output_queue m;
     stream_response := stream_response m;
     is_active := is_active m;
     prompt_name := prompt_name m;
     content_name := content_name m;
     audio_content_name := audio_content_name m;
     toolUseContent := v;
     toolUseId := toolUseId m;
     toolName := toolName m;
     speech_detected := speech_detected m;
     pending_tool_results := pending_tool_results m;
     active_background_tasks := active_background_tasks m;
     completed_async_tool_results := completed_async_tool_results m;
     pending_screenshot_events := pending_screenshot_events m;
     received_screenshot_data := received_screenshot_data m |}.

Definition set_toolName (v : json) (m : Manager) : Manager :=
  {| model_id := model_id m;
     region := region m;
     last_credential_refresh := last_credential_refresh m;
     audio_input_queue := audio_input_queue m;
     output_queue := output_queue m;
     stream_response := stream_response m;
     is_active := is_active m;
     prompt_name := prompt_name m;
     content_name := content_name m;
     audio_content_name := audio_content_name m;
     toolUseContent := toolUseContent m;
     toolUseId := toolUseId m;
     toolName := v;
     speech_detected := speech_detected m;
     pending_tool_results := pending_tool_results m;
     active_background_tasks := active_background_tasks m;
     completed_async_tool_results := completed_async_tool_results m;
     pending_screenshot_events := pending_screenshot_events m;
     received_screenshot_data := received_screenshot_data m |}.

Definition set_toolUseId (v : json) (m : Manager) : Manager :=
  {| model_id := model_id m;
     region := region m;
     last_credential_refresh := last_credential_refresh m;
     audio_input_queue := audio_input_queue m;
     output_queue := output_queue m;
     stream_response := stream_response m;
     is_active := is_active m;
     prompt_name := prompt_name m;
     content_name := content_name m;
     audio_content_name := audio_content_name m;
     toolUseContent := toolUseContent m;
     toolUseId := v;
     toolName := toolName m;
     speech_detected := speech_detected m;
     pending_tool_results := pending_tool_results m;
     active_background_tasks := active_background_tasks m;
     completed_async_tool_results := completed_async_tool_results m;
     pending_screenshot_events := pending_screenshot_events m;
     received_screenshot_data := received_screenshot_data m |}.

Definition set_active_background_tasks (t : gmap pykey BackgroundTask) (m : Manager) : Manager :=
  {| model_id := model_id m;
     region := region m;
     last_credential_refresh := last_credential_refresh m;
     audio_input_queue := audio_input_queue m;
     output_queue := output_queue m;
     stream_response := stream_response m;
     is_active := is_active m;
     prompt_name := prompt_name m;
     content_name := content_name m;
     audio_content_name := audio_content_name m;
     toolUseContent := toolUseContent m;
     toolUseId := toolUseId m;
     toolName := toolName m;
     speech_detected := speech_detected m;
     pending_tool_results := pending_tool_results m;
     active_background_tasks := t;
     completed_async_tool_results := completed_async_tool_results m;
     pending_screenshot_events := pending_screenshot_events m;
     received_screenshot_data := received_screenshot_data m |}.

Definition set_completed_async_tool_results (c : gmap string json) (m : Manager) : Manager :=
  {| model_id := model_id m;
     region := region m;
     last_credential_refresh := last_credential_refresh m;
     audio_input_queue := audio_input_queue m;
     output_queue := output_queue m;
     stream_response := stream_response m;
     is_active := is_active m;
     prompt_name := prompt_name m;
     content_name := content_name m;
     audio_content_name := audio_content_name m;
     toolUseContent := toolUseContent m;
     toolUseId := toolUseId m;
     toolName := toolName m;
     speech_detected := speech_detected m;
     pending_tool_results := pending_tool_results m;
     active_background_tasks := active_background_tasks m;
     completed_async_tool_results := c;
     pending_screenshot_events := pending_screenshot_events m;
     received_screenshot_data := received_screenshot_data m |}.

Definition set_pending_screenshot_events (p : gmap pykey bool) (m : Manager) : Manager :=
  {| model_id := model_id m;
     region := region m;
     last_credential_refresh := last_credential_refresh m;
     audio_input_queue := audio_input_queue m;
     output_queue := output_queue m;
     stream_response := stream_response m;
     is_active := is_active m;
     prompt_name := prompt_name m;
     content_name := content_name m;
     audio_content_name := audio_content_name m;
     toolUseContent := toolUseContent m;
     toolUseId := toolUseId m;
     toolName := toolName m;
     speech_detected := speech_detected m;
     pending_tool_results := pending_tool_results m;
     active_background_tasks := active_background_tasks m;
     completed_async_tool_results := completed_async_tool_results m;
     pending_screenshot_events := p;
     received_screenshot_data := received_screenshot_data m |}.

Definition set_received_screenshot_data (r : gmap pykey json) (m : Manager) : Manager :=
  {| model_id := model_id m;
     region := region m;
     last_credential_refresh := last_credential_refresh m;
     audio_input_queue := audio_input_queue m;
     output_queue := output_queue m;
     stream_response := stream_response m;
     is_active := is_active m;
     prompt_name := prompt_name m;
     content_name := content_name m;
     audio_content_name := audio_content_name m;
     toolUseContent := toolUseContent m;
     toolUseId := toolUseId m;
     toolName := toolName m;
     speech_detected := speech_detected m;
     pending_tool_results := pending_tool_results m;
     active_background_tasks := active_background_tasks m;
     completed_async_tool_results := completed_async_tool_results m;
     pending_screenshot_events := pending_screenshot_events m;
     received_screenshot_data := r |}.

(** [await self.output_queue.put(item)]: the queue is unbounded, so the
    call neither waits nor fails. *)
Definition queue_put (item : json) : M unit :=
  modify_mgr (fun m => set_output_queue (output_queue m ++ [item]) m).

(** The object [BedrockStreamManager.__init__] builds, with the default
    arguments. *)
Definition init_manager : Manager :=
  {| model_id := "amazon.nova-sonic-v1:0";
     region := "us-east-1";
     last_credential_refresh := 0;
     audio_input_queue := [];
     output_queue := [];
     stream_response := false;
     is_active := false;
     prompt_name := JNull;
     content_name := JNull;
     audio_content_name := JNull;
     toolUseContent := JStr "";
     toolUseId := JStr "";
     toolName := JStr "";
     speech_detected := false;
     pending_tool_results := ∅;
     active_background_tasks := ∅;
     completed_async_tool_results := ∅;
     pending_screenshot_events := ∅;
     received_screenshot_data := ∅ |}.

(** [self.stream_response = ...; self.is_active = True], as
    [initialize_stream] does once the stream is open. *)
Definition set_stream_open (m : Manager) : Manager :=
  {| model_id := model_id m;
     region := region m;
     last_credential_refresh := last_credential_refresh m;
     audio_input_queue := audio_input_queue m;
     output_queue := output_queue m;
     stream_response := true;
     is_active := true;
     prompt_name := prompt_name m;
     content_name := content_name m;
     audio_content_name := audio_content_name m;
     toolUseContent := toolUseContent m;
     toolUseId := toolUseId m;
     toolName := toolName m;
     speech_detected := speech_detected m;
     pending_tool_results := pending_tool_results m;
     active_background_tasks := active_background_tasks m;
     completed_async_tool_results := completed_async_tool_results m;
     pending_screenshot_events := pending_screenshot_events m;
     received_screenshot_data := received_screenshot_data m |}.

(** A result dict [{"result": text, "status": status}]. *)
Definition result_dict (text status : string) : json :=
  JObj [("result", JStr text); ("status", JStr status)].

(* ===================================================================== *)
(** ** Python's [int] on text *)
(* ===================================================================== *)

(** The blanks [int] skips at both ends of an ASCII text: tab, line
    feed, vertical tab, form feed, carriage return and space.  (The
    separators 28 to 31, which [str.strip] removes, are not among
    them.) *)
Definition is_py_space (c : ascii) : bool :=
  let n := nat_of_ascii c in
  (((9 <=? n) && (n <=? 13)) || (n =? 32))%nat.

Definition digit_of (c : ascii) : option Z :=
  let n := nat_of_ascii c in
  if ((48 <=? n) && (n <=? 57))%nat then Some (Z.of_nat n - 48) else None.

Fixpoint lstrip (s : string) : string :=
  match s with
  | String c rest => if is_py_space c then lstrip rest else s
  | EmptyString => EmptyString
  end.

Definition strip (s : string) : string :=
  String.rev (lstrip (String.rev (lstrip s))).

(** Decimal digits, a single underscore allowed between two digits.
    [after_digit] tells whether the character before was a digit. *)
Fixpoint digits_value (s : string) (acc : Z) (after_digit : bool) : option Z :=
  match s with
  | EmptyString => if after_digit then Some acc else None
  | String c rest =>
      match digit_of c with
      | Some d => digits_value rest (10 * acc + d) true
      | None =>
          if (Ascii.eqb c "_" && after_digit)%bool
          then digits_value rest acc false
          else None
      end
  end.

(** [int(s)] for a [str] of ASCII characters, short enough for the
    digit limit not to matter: [None] stands for the [ValueError]. *)
Definition int_of_str (s : string) : option Z :=
  match strip s with
  | String "+" rest => digits_value rest 0 false
  | String "-" rest => Z.opp <$> digits_value rest 0 false
  | t => digits_value t 0 false
  end.

(** A text of ASCII characters only. *)
Fixpoint is_ascii_text (s : string) : bool :=
  match s with
  | EmptyString => true
  | String c rest => (nat_of_ascii c <? 128)%nat && is_ascii_text rest
  end.

(** The digit limit of [int] on its default setting (Python 3.11 and
    later; earlier versions have none).  A text of no more than this
    many characters is read by its characters alone. *)
Definition int_max_str_digits : nat := 4300.

(** The longest sleep, in seconds, that every build of CPython since
    3.10 carries out: [2^32 - 1] milliseconds.  (Above it the Windows
    build of 3.10 raises [OverflowError]; [select] on macOS refuses
    more than [10^8] seconds; [clock_nanosleep] on Linux refuses a
    deadline of more than about [2^63] nanoseconds since boot.) *)
Definition longest_sure_sleep : Z := 4294967.

Section Backend.

Context (env : Env).

(** [str(v)], which an f-string applies to an interpolated value. *)
Definition py_str (v : json) : string :=
  match v with
  | JNull => "None"
  | JBool true => "True"
  | JBool false => "False"
  | JInt n => pretty n
  | JFloat r => r
  | JStr s => s
  | JArr _ | JObj _ => py_repr env v
  end.

(** [json.loads(v)]: a [TypeError] unless [v] is a text; the text [{}]
    is the empty object.  On a text without a value the decoder raises
    [JSONDecodeError], or what [json_loads_error] says. *)
Definition py_json_loads (v : json) : res json :=
  match v with
  | JStr s =>
      if String.eqb s "{}" then Ret (JObj [])
      else match json_loads env s with
           | Some j => Ret j
           | None =>
               match json_loads_error env s with
               | Some (cls, msg) => Raise (Exn cls msg)
               | None => Raise (Exn JSONDecodeError "Expecting value")
               end
           end
  | _ => Raise (Exn TypeError
                  ("the JSON object must be str, bytes or bytearray, not "
                   ++ type_name v))
  end.

(** [except Exception as e: handler] after a try body: every [Exn] is
    handled, [CancelledError] passes through. *)
Definition except_Exception {A} (body : M A)
    (handler : exn_class -> string -> M A) : M A :=
  try_catch body (fun e =>
    match e with
    | Exn c msg => handler c msg
    | CancelledError => raise CancelledError
    end).

(* ===================================================================== *)
(** ** [lib/number_race_tool.py] *)
(* ===================================================================== *)

(** [int(s)] for a text. *)
Definition py_int_of_str (s : string) : option Z :=
  if (is_ascii_text s && (String.length s <=? int_max_str_digits)%nat)%bool
  then int_of_str s
  else int_of_other_text env s.

(** [is_integer(value)] for the text the handler passes: [int(value)]
    either returns or raises [ValueError]. *)
Definition is_integer (value : string) : bool :=
  bool_decide (is_Some (py_int_of_str value)).

(** [int(number)] on a JSON value.  The float case is not reached with
    the [repr] of a float, which is never an integer literal. *)
Definition py_int (number : json) : res Z :=
  match number with
  | JInt n => Ret n
  | JBool b => Ret (if b then 1 else 0)
  | JStr s =>
      match py_int_of_str s with
      | Some n => Ret n
      | None => Raise (Exn ValueError
                         ("invalid literal for int() with base 10: '" ++ s ++ "'"))
      end
  | JFloat r => Raise (Exn ValueError ("cannot convert float " ++ r))
  | _ => Raise (Exn TypeError
                  ("int() argument must be a string, a bytes-like object or a real number, not '"
                   ++ type_name number ++ "'"))
  end.

(** The exception of [time.sleep(secs)] for an [int], if any: a length
    that does not fit the signed 64-bit nanosecond clock is an
    [OverflowError], a negative one a [ValueError]; a length of up to
    [longest_sure_sleep] is slept, and for a longer one the platform
    decides. *)
Definition sleep_error (secs : Z) : option (exn_class * string) :=
  if ((secs * 1000000000 <? - 2 ^ 63)%Z || (2 ^ 63 - 1 <? secs * 1000000000)%Z)%bool
  then Some (OverflowError, "timestamp too large to convert to C _PyTime_t")
  else if (secs <? 0)%Z then Some (ValueError, "sleep length must be non-negative")
  else if (secs <=? longest_sure_sleep)%Z then None
  else os_sleep env secs.

(** [time.sleep(secs)] for an [int]: blocks for [secs] seconds, or
    raises at once. *)
Definition time_sleep (secs : Z) : M unit :=
  match sleep_error secs with
  | Some (cls, msg) => raise (Exn cls msg)
  | None => emit (ESleep secs)
  end.

Definition handle_number_race (tool_use_content : json) : M json :=
  try_catch
    (tool_input_str ← lift (py_get tool_use_content "content" (JStr "{}"));
     parsed_tool_input ← lift (py_json_loads tool_input_str);
     number ← lift (py_get parsed_tool_input "number" JNull);
     log INFO "[Tool:numberRace] Called with input";;
     match number with
     | JNull =>
         log WARNING "[Tool:numberRace] 'number' not provided in input.";;
         mret (result_dict "No number was provided for the race." "error")
     | _ =>
         if is_integer (py_str number) then
           num_val ← lift (py_int number);
           log INFO "[Tool:numberRace] Starting sleep";;
           time_sleep num_val;;
           log INFO "[Tool:numberRace] Finished waiting";;
           mret (result_dict
                   ("I am done waiting for " ++ pretty num_val ++ " seconds.")
                   "success")
         else
           log WARNING "[Tool:numberRace] Invalid number provided";;
           mret (result_dict
                   ("The input '" ++ py_str number
                    ++ "' is not a valid integer for the number race.")
                   "error")
     end)
    (fun e =>
       if is_json_decode_error e then
         log ERROR "[Tool:numberRace] Invalid JSON in tool_use_content.content";;
         mret (result_dict "Error: Invalid input format for numberRace tool." "error")
       else match e with
            | Exn _ _ =>
                log ERROR "[Tool:numberRace] Error processing";;
                mret (result_dict
                        "An unexpected error occurred in the numberRace tool." "error")
            | CancelledError => raise CancelledError
            end).



(* ===================================================================== *)
(** ** [lib/weather_tool.py] *)
(* ===================================================================== *)

Fixpoint strip_prefix (p s : string) : option string :=
  match p, s with
  | EmptyString, _ => Some s
  | String a p', String b s' => if Ascii.eqb a b then strip_prefix p' s' else None
  | String _ _, EmptyString => None
  end.

(** The text after the nearest [</thinking>], if no line break comes
    before it. *)
Fixpoint after_closing_tag (s : string) : option string :=
  match strip_prefix "</thinking>" s with
  | Some rest => Some rest
  | None =>
      match s with
      | EmptyString => None
      | String c rest =>
          if Ascii.eqb c "010" then None else after_closing_tag rest
      end
  end.

(** [re.sub(r"<thinking>.*?</thinking>", "", s)]. *)
Fixpoint remove_thinking (fuel : nat) (s : string) : string :=
  match fuel with
  | O => s
  | S fuel' =>
      match s with
      | EmptyString => EmptyString
      | String c rest =>
          match strip_prefix "<thinking>" s ≫= after_closing_tag with
          | Some tail => remove_thinking fuel' tail
          | None => String c (remove_thinking fuel' rest)
          end
      end
  end.

Definition re_sub_thinking (v : json) : res string :=
  match v with
  | JStr s => Ret (remove_thinking (String.length s) s)
  | _ => Raise (Exn TypeError
                  ("expected string or bytes-like object, got '"
                   ++ type_name v ++ "'"))
  end.

(** [v[0]]. *)
Definition py_first (v : json) : res json :=
  match v with
  | JArr (x :: _) => Ret x
  | JArr [] => Raise (Exn IndexError "list index out of range")
  | JStr (String c _) => Ret (JStr (String c EmptyString))
  | JStr EmptyString => Raise (Exn IndexError "string index out of range")
  | JObj _ => Raise (Exn KeyError "0")
  | _ => Raise (Exn TypeError ("'" ++ type_name v ++ "' object is not subscriptable"))
  end.

(** The number of earlier calls of the weather agent. *)
Definition weather_calls (t : list effect) : nat :=
  List.length
    (List.filter (fun e => match e with EWeatherAgent _ => true | _ => false end) t).

Definition call_weather_agent (prompt : string) : M json :=
  fun w =>
    let n := weather_calls (trace w) in
    (weather_agent env n prompt,
     {| mgr := mgr w; trace := EWeatherAgent prompt :: trace w;
        uuid_calls := uuid_calls w |}).

Definition handle_get_weather (tool_use_content : json) : M json :=
  try_catch
    (tool_input_str ← lift (py_get tool_use_content "content" (JStr "{}"));
     parsed_tool_input ← lift (py_json_loads tool_input_str);
     location ← lift (py_get parsed_tool_input "location" (JStr "an unknown place"));
     log INFO "[Tool:getWeather] Called for location";;
     message ← call_weather_agent ("Get on the current weather for " ++ py_str location);
     log INFO "response.message";;
     log INFO "response.metrics";;
     content ← lift (py_getitem message "content");
     result ← lift (py_first content);
     text ← lift (py_getitem result "text");
     output_text ← lift (re_sub_thinking text);
     mret (result_dict output_text "success"))
    (fun e =>
       if is_json_decode_error e then
         log ERROR "[Tool:getWeather] Invalid JSON in tool_use_content.content";;
         mret (result_dict "Error: Invalid input format for getWeather tool." "error")
       else match e with
            | Exn _ _ =>
                log ERROR "[Tool:getWeather] Error processing tool_use_content";;
                (* a bare [except:] swallows whatever the second parse raises *)
                let location_for_error :=
                  match py_get tool_use_content "content" (JStr "{}") with
                  | Ret tool_input_str_err =>
                      match py_json_loads tool_input_str_err with
                      | Ret parsed_tool_input_err =>
                          match py_get parsed_tool_input_err "location"
                                  (JStr "the specified location") with
                          | Ret l => l
                          | Raise _ => JStr "the specified location"
                          end
                      | Raise _ => JStr "the specified location"
                      end
                  | Raise _ => JStr "the specified location"
                  end in
                mret (result_dict
                        ("Error getting weather for " ++ py_str location_for_error ++ ".")
                        "error")
            | CancelledError => raise CancelledError
            end).

(* ===================================================================== *)
(** ** Background tasks of the manager *)
(* ===================================================================== *)

(** [async def launch_background_tool_task(self, tool_use_id, tool_name,
    actual_tool_coroutine_factory)].  [asyncio.create_task] only
    schedules [task_wrapper]; it runs at a later suspension point. *)
Definition launch_background_tool_task
    (tool_use_id : json) (tool_name : string) (factory : work) : M unit :=
  k ← lift (to_key tool_use_id);
  m ← get_mgr;
  match active_background_tasks m !! k with
  | Some _ =>
      log WARNING "Background task is already running. Ignoring new request."
  | None =>
      let background_task :=
        {| bt_tool_use_id := tool_use_id; bt_tool_name := tool_name;
           bt_work := factory |} in
      emit (ECreateTask background_task);;
      modify_mgr (fun m =>
        set_active_background_tasks
          (<[k := background_task]> (active_background_tasks m)) m);;
      log INFO "Scheduled background task"
  end.

(** The out-of-band message [task_wrapper] queues for the client. *)
Definition custom_notification_to_frontend
    (tool_name : string) (tool_use_id : json) (status message : string) : json :=
  JObj [("customEvent", JStr "toolCompletionNotification");
        ("payload",
         JObj [("toolName", JStr tool_name);
               ("toolUseId", tool_use_id);
               ("status", JStr status);
               ("message", JStr message)])].

(** [task_wrapper] from the point where [await actual_task_coro] returns
    or raises [outcome], to its end. *)
Definition task_wrapper_resume (t : BackgroundTask) (outcome : res json) : M unit :=
  let tool_name := bt_tool_name t in
  let tool_use_id := bt_tool_use_id t in
  notification ←
    try_finally
      (match outcome with
       | Ret result_payload_for_cache =>
           let cache_key := lower tool_name in
           modify_mgr (fun m =>
             set_completed_async_tool_results
               (<[cache_key := result_payload_for_cache]>
                  (completed_async_tool_results m)) m);;
           log INFO "Background task completed. Result cached.";;
           log INFO "Current state of 'completed_async_tool_results'";;
           mret (Some ("success",
                       "The " ++ tool_name ++ " operation (ID: "
                       ++ py_str tool_use_id
                       ++ ") has completed. You can now ask for the results."))
       | Raise CancelledError =>
           log INFO "Background task was cancelled.";;
           mret None
       | Raise (Exn _ msg) =>
           log ERROR "Error in background task";;
           mret (Some ("error",
                       "An error occurred in the background while processing "
                       ++ tool_name ++ " (ID: " ++ py_str tool_use_id ++ "): "
                       ++ msg))
       end)
      (k ← lift (to_key tool_use_id);
       modify_mgr (fun m =>
         set_active_background_tasks (delete k (active_background_tasks m)) m));
  match notification with
  | None => mret ()
  | Some (notification_status, notification_message_content) =>
      queue_put (custom_notification_to_frontend tool_name tool_use_id
                   notification_status notification_message_content);;
      log INFO "Queued toolCompletionNotification"
  end.

(** [task_wrapper] with the coroutine of the factory run without
    interleaving. *)
Definition task_wrapper (t : BackgroundTask) (actual_task_coro : M json) : M unit :=
  log INFO "Background task started";;
  outcome ← observe actual_task_coro;
  task_wrapper_resume t outcome.

(** [self.received_screenshot_data[k] = data]. *)
Definition store_received (k : pykey) (data : json) : M unit :=
  modify_mgr (fun m =>
    set_received_screenshot_data (<[k := data]> (received_screenshot_data m)) m).

(** [async def deliver_screenshot_data(self, analysis_id, image_data_url,
    error_message=None)]. *)
Definition deliver_screenshot_data
    (analysis_id image_data_url error_message : json) : M unit :=
  k ← lift (to_key analysis_id);
  m ← get_mgr;
  match pending_screenshot_events m !! k with
  | Some _ =>
      (if truthy error_message then
         store_received k (JObj [("error", error_message)]);;
         log INFO "MANAGER: Screenshot capture error delivered"
       else if truthy image_data_url then
         store_received k (JObj [("imageDataUrl", image_data_url)]);;
         log INFO "MANAGER: Screenshot data delivered and event will be set."
       else
         store_received k
           (JObj [("error", JStr "No image data and no error message provided.")]);;
         log WARNING "MANAGER: deliver_screenshot_data called with no data and no error.");;
      (* event_to_set.set() *)
      modify_mgr (fun m =>
        set_pending_screenshot_events
          (<[k := true]> (pending_screenshot_events m)) m)
  | None =>
      log WARNING
        "MANAGER: Received screenshot data/error for unknown or already processed analysis ID"
  end.

(* ===================================================================== *)
(** ** [lib/agent_search/agent_search_tool.py] *)
(* ===================================================================== *)

(** [d[k] = v] on a dict: the binding is replaced in place, or added at
    the end. *)
Fixpoint dict_set (k : string) (v : json) (kv : list (string * json))
    : list (string * json) :=
  match kv with
  | [] => [(k, v)]
  | (k', v') :: rest =>
      if String.eqb k k' then (k, v) :: rest else (k', v') :: dict_set k v rest
  end.

(** [async def _execute_agent_search_remotely(query, tool_use_id)].
    [client] is how [await get_initialized_a2a_client()] ends, [sent] how
    [await a2a_client.send_task(...)] ends. *)
Definition _execute_agent_search_remotely
    (query tool_use_id : json) (client : res unit) (sent : res string) : M json :=
  log INFO "[AgentSearchTool] Preparing to send query using A2A client.";;
  let results_for_cache :=
    [("error", JStr "A2A client operation failed.");
     ("originalQuery", query);
     ("searchId", tool_use_id);
     ("details", JNull)] in
  try_catch
    (lift client;;
     log INFO "[AgentSearchTool] Sending task to A2A server";;
     final_text_from_a2a ← lift sent;
     log INFO "[AgentSearchTool] Successfully received response from A2A server";;
     mret (JObj [("summary",
                  JStr ("Agent search completed for: '" ++ py_str query ++ "'."));
                 ("details", JStr final_text_from_a2a);
                 ("originalQuery", query);
                 ("searchId", tool_use_id)]))
    (fun e =>
       match e with
       | Exn ConnectionError ce =>
           log ERROR "[AgentSearchTool] ConnectionError";;
           mret (JObj (dict_set "error"
                         (JStr ("Could not connect to or initialize the search agent: "
                                ++ ce))
                         results_for_cache))
       | Exn _ msg =>
           log ERROR "[AgentSearchTool] Error during A2A client task";;
           mret (JObj (dict_set "error"
                         (JStr ("An error occurred during the agent search: " ++ msg))
                         results_for_cache))
       | CancelledError => raise CancelledError
       end).

(** [self.completed_async_tool_results.pop(key)] for a key that is
    present. *)
Definition cache_pop (key : string) : M unit :=
  modify_mgr (fun m =>
    set_completed_async_tool_results
      (delete key (completed_async_tool_results m)) m).

(** The two placeholders of the handler. *)
Definition agent_search_still_working (raw_tool_name : string) (query : json) : string :=
  "I am still working on the " ++ raw_tool_name ++ " for '" ++ py_str query
  ++ "'. I will notify you.".

Definition agent_search_starting (raw_tool_name : string) (query : json) : string :=
  "Okay, I'm starting the " ++ raw_tool_name ++ " for '" ++ py_str query
  ++ "'. This may take a moment. I'll notify you in the chat when it's complete.".

(** [async def handle_agent_search(manager_instance, tool_use_content)]. *)
Definition handle_agent_search (tool_use_content : json) : M json :=
  raw_name ← lift (py_get tool_use_content "toolName" (JStr "agentSearch_fallback"));
  cache_key_to_check ← lift (py_lower raw_name);
  (* [lower] succeeded: the name is a text *)
  let raw_tool_name_from_event := py_str raw_name in
  tool_use_id ← lift (py_get tool_use_content "toolUseId" JNull);
  if negb (truthy tool_use_id) then
    log ERROR "[Tool] Critical: toolUseId missing.";;
    mret (result_dict
            ("Error: Missing toolUseId for " ++ raw_tool_name_from_event ++ ".")
            "error")
  else
  try_catch
    (tool_input_str ← lift (py_get tool_use_content "content" (JStr "{}"));
     parsed_tool_input ← lift (py_json_loads tool_input_str);
     query ← lift (py_get parsed_tool_input "query" (JStr ""));
     if negb (truthy query) then
       log WARNING "[Tool] Empty query.";;
       mret (result_dict
               ("Please provide a query for " ++ raw_tool_name_from_event ++ ".")
               "error")
     else
     log INFO "[Tool] Invoked for query";;
     log INFO "[Tool] Attempting cache lookup";;
     log INFO "[Tool] Available cache keys in 'completed_async_tool_results'";;
     m ← get_mgr;
     match completed_async_tool_results m !! cache_key_to_check with
     | Some cached_result_data =>
         log INFO "[Tool] Cache HIT. Popping.";;
         cache_pop cache_key_to_check;;
         mret (result_dict (json_dumps env cached_result_data) "success")
     | None =>
         log INFO "[Tool] Cache MISS.";;
         k ← lift (to_key tool_use_id);
         match active_background_tasks m !! k with
         | Some _ =>
             log INFO "[Tool] Background task for this toolUseId already active. Returning placeholder.";;
             mret (result_dict
                     (agent_search_still_working raw_tool_name_from_event query)
                     "success")
         | None =>
             log INFO "[Tool] Initiating new background search.";;
             log INFO "Launching Background Tool Task";;
             launch_background_tool_task tool_use_id raw_tool_name_from_event
               (AgentSearchWork query tool_use_id);;
             log INFO "Returned from launching Background Tool Task";;
             log INFO "[Tool] Returning placeholder to Nova Sonic";;
             mret (result_dict
                     (agent_search_starting raw_tool_name_from_event query)
                     "success")
         end
     end)
    (fun e =>
       match e with
       | Exn JSONDecodeError _ =>
           log ERROR "[Tool] Invalid JSON in input";;
           mret (result_dict
                   ("Error: Invalid input format for " ++ raw_tool_name_from_event
                    ++ " tool.")
                   "error")
       | Exn ConnectionError ce =>
           log ERROR "[Tool] Could not initialize connection for search";;
           mret (result_dict
                   ("The search agent is currently unavailable: " ++ ce) "error")
       | Exn _ _ =>
           log ERROR "[Tool] Error in handler";;
           mret (result_dict
                   ("An unexpected error occurred while initiating "
                    ++ raw_tool_name_from_event ++ ".")
                   "error")
       | CancelledError => raise CancelledError
       end).

(* ===================================================================== *)
(** ** [lib/image_analyzer/image_analyzer_tool.py] *)
(* ===================================================================== *)

(** [_execute_image_analysis_remotely] binds [result_for_cache] and
    later reads [results_for_cache], a local that is only assigned once
    the description has arrived: every earlier use raises. *)
Definition unbound_results_for_cache : exn :=
  Exn UnboundLocalError
    "cannot access local variable 'results_for_cache' where it is not associated with a value".

Definition request_payload_to_frontend (image_analysis_id : string) : json :=
  JObj [("customEvent", JStr "requestScreenshotForAnalysis");
        ("payload", JObj [("imageAnalysisId", JStr image_analysis_id)])].

(** [_execute_image_analysis_remotely], from its start to the
    suspension in [asyncio.wait_for(image_event.wait(), timeout=30.0)]. *)
Definition image_analysis_request (image_analysis_id : string) : M unit :=
  log INFO "[ImageAnalyzerTool] Background analysis started.";;
  modify_mgr (fun m =>
    set_pending_screenshot_events
      (<[KStr image_analysis_id := false]> (pending_screenshot_events m)) m);;
  log INFO "[ImageAnalyzerTool] Registered event wait for screenshot.";;
  queue_put (request_payload_to_frontend image_analysis_id);;
  log INFO "[ImageAnalyzerTool] Queued 'requestScreenshotForAnalysis' to frontend.";;
  log INFO "[ImageAnalyzerTool] Waiting for screenshot data from frontend...".

(** The same coroutine from the point where the wait ends ([Ret] when
    the event was set, [TimeoutError] after 30 seconds) through the
    [finally] clause: the image data URL, or an exception.
    [image_data_url is None] in the [finally] clause exactly when the
    [try] block did not return a URL. *)
Definition image_analysis_after_wait
    (image_analysis_id : string) (wait : res unit) : M json :=
  let k := KStr image_analysis_id in
  fun w =>
    let '(r, w1) :=
      match wait with
      | Ret _ =>
          (m ← get_mgr;
           let received_data_dict := default JNull (received_screenshot_data m !! k) in
           modify_mgr (fun m =>
             set_received_screenshot_data (delete k (received_screenshot_data m)) m);;
           if truthy received_data_dict then
             url ← lift (py_get received_data_dict "imageDataUrl" JNull);
             if truthy url then
               image_data_url ← lift (py_getitem received_data_dict "imageDataUrl");
               log INFO "[ImageAnalyzerTool] Screenshot event received, data URL acquired.";;
               mret image_data_url
             else
               err ← lift (py_get received_data_dict "error" JNull);
               if truthy err then
                 log ERROR "[ImageAnalyzerTool] Frontend reported error during screenshot";;
                 raise unbound_results_for_cache
               else
                 log ERROR "[ImageAnalyzerTool] Screenshot data not found or malformed after event signal.";;
                 raise unbound_results_for_cache
           else
             log ERROR "[ImageAnalyzerTool] Screenshot data not found or malformed after event signal.";;
             raise unbound_results_for_cache) w
      | Raise (Exn TimeoutError _) =>
          (log ERROR "[ImageAnalyzerTool] Timeout waiting for screenshot from frontend.";;
           raise unbound_results_for_cache) w
      | Raise e => (Raise e, w)
      end in
    let cleanup : M unit :=
      modify_mgr (fun m =>
        set_pending_screenshot_events (delete k (pending_screenshot_events m)) m);;
      match r with
      | Ret _ => mret ()
      | Raise _ =>
          modify_mgr (fun m =>
            set_received_screenshot_data (delete k (received_screenshot_data m)) m)
      end in
    match cleanup w1 with
    | (Ret _, w2) => (r, w2)
    | (Raise e, w2) => (Raise e, w2)
    end.

(** [image_data_url.split(',', 1)[1]]. *)
Fixpoint after_comma (s : string) : option string :=
  match s with
  | EmptyString => None
  | String c rest => if Ascii.eqb c "," then Some rest else after_comma rest
  end.

(** The rest of the coroutine.  [client] is how [await get_llm_client]
    ends, [description] how [await describe_image_with_llm] ends. *)
Definition image_analysis_describe
    (image_analysis_id : string) (query_context image_data_url : json)
    (client : res unit) (description : res string) : M json :=
  if negb (truthy image_data_url) then raise unbound_results_for_cache else
  try_catch
    (match image_data_url with
     | JStr s =>
         if String.prefix "data:image" s then
           match after_comma s with
           | Some base64_image_data => mret ()
           | None => raise (Exn IndexError "list index out of range")
           end
         else raise (Exn ValueError "Received data is not a valid image data URL.")
     | _ => raise (Exn ValueError "Received data is not a valid image data URL.")
     end;;
     lift client;;
     d ← lift description;
     mret (JObj [("description", JStr d);
                 ("originalContext", query_context);
                 ("analysisId", JStr image_analysis_id);
                 ("status", JStr "success")]))
    (fun e =>
       if is_value_error e then
         log ERROR "[ImageAnalyzerTool] Invalid image data URL format";;
         raise unbound_results_for_cache
       else match e with
            | Exn _ _ =>
                log ERROR "[ImageAnalyzerTool] Error getting description from LLM";;
                raise unbound_results_for_cache
            | CancelledError => raise CancelledError
            end).

(** The whole coroutine, without interleaving. *)
Definition _execute_image_analysis_remotely
    (image_analysis_id : string) (query_context : json)
    (wait : res unit) (client : res unit) (description : res string) : M json :=
  image_analysis_request image_analysis_id;;
  image_data_url ← image_analysis_after_wait image_analysis_id wait;
  image_analysis_describe image_analysis_id query_context image_data_url
    client description.

(** [str(uuid.uuid4())]. *)
Definition fresh_uuid : M string :=
  fun w => (Ret (uuid4 env (uuid_calls w)),
            {| mgr := mgr w; trace := trace w; uuid_calls := S (uuid_calls w) |}).

Definition image_analyzer_still_processing : string :=
  "I am still processing a previous request to analyze an image. I will notify you when it's complete.".

Definition image_analyzer_starting (query_context : json) : string :=
  "Okay, I'll capture and analyze the image of your current page regarding '"
  ++ py_str query_context ++ "'. I'll notify you when the description is ready.".

(** [json.dumps(x) if isinstance(x, dict) else str(x)]. *)
Definition dumps_or_str (x : json) : string :=
  match x with
  | JObj _ => json_dumps env x
  | _ => py_str x
  end.

(** [async def handle_imageanalyzer(manager_instance, tool_use_content)]. *)
Definition handle_imageanalyzer (tool_use_content : json) : M json :=
  raw_name ← lift (py_get tool_use_content "toolName" (JStr "imageAnalyzer"));
  cache_key_to_check ← lift (py_lower raw_name);
  let raw_tool_name_from_event := py_str raw_name in
  tool_use_id ← lift (py_get tool_use_content "toolUseId" JNull);
  if negb (truthy tool_use_id) then
    log ERROR "[Tool] Critical: toolUseId missing.";;
    mret (result_dict "Error: System error (missing toolUseId)." "error")
  else
  try_catch
    (tool_input_str ← lift (py_get tool_use_content "content" (JStr "{}"));
     parsed_tool_input ← lift (py_json_loads tool_input_str);
     query_context ← lift (py_get parsed_tool_input "context"
                             (JStr "the current page content"));
     log INFO "[Tool] Invoked.";;
     log INFO "[Tool] Attempting cache lookup";;
     log INFO "[Tool] Available cache keys";;
     m ← get_mgr;
     match completed_async_tool_results m !! cache_key_to_check with
     | Some cached_result_data =>
         log INFO "[Tool] Cache HIT. Popping and returning.";;
         cache_pop cache_key_to_check;;
         mret (result_dict (dumps_or_str cached_result_data) "success")
     | None =>
         log INFO "[Tool] Cache MISS.";;
         k ← lift (to_key tool_use_id);
         match active_background_tasks m !! k with
         | Some _ =>
             log INFO "[Tool] Background task for this Nova Sonic toolUseId is already active. Returning placeholder.";;
             mret (result_dict image_analyzer_still_processing "success")
         | None =>
             log INFO "[Tool] Initiating new background image analysis.";;
             image_analysis_operation_id ← fresh_uuid;
             launch_background_tool_task tool_use_id raw_tool_name_from_event
               (ImageAnalysisWork image_analysis_operation_id query_context);;
             log INFO "[Tool] Returning placeholder to Nova Sonic";;
             mret (result_dict (image_analyzer_starting query_context) "success")
         end
     end)
    (fun e =>
       match e with
       | Exn JSONDecodeError _ =>
           log ERROR "[Tool] Invalid JSON in input";;
           mret (result_dict
                   ("Error: Invalid input format for " ++ raw_tool_name_from_event
                    ++ " tool.")
                   "error")
       | Exn _ _ =>
           log ERROR "[Tool] Error in handler";;
           mret (result_dict
                   ("An unexpected error occurred while initiating "
                    ++ raw_tool_name_from_event ++ ".")
                   "error")
       | CancelledError => raise CancelledError
       end).


(* ===================================================================== *)
(** ** Tool dispatch *)
(* ===================================================================== *)

(** A value of [self.tool_handlers], by its signature. *)
Inductive handler : Type :=
  | Handler (f : json -> M json)
      (** [async def h(tool_use_content)] *)
  | ManagerHandler (f : json -> M json).
      (** [async def h(manager_instance, tool_use_content)] *)

(** [await handler(self, toolUseContent)]. *)
Definition call_with_manager (h : handler) (toolUseContent : json) : M json :=
  match h with
  | ManagerHandler f => f toolUseContent
  | Handler _ =>
      raise (Exn TypeError "handler takes 1 positional argument but 2 were given")
  end.

(** [await handler(toolUseContent)]. *)
Definition call_plain (h : handler) (toolUseContent : json) : M json :=
  match h with
  | Handler f => f toolUseContent
  | ManagerHandler _ =>
      raise (Exn TypeError
               "handler missing 1 required positional argument: 'tool_use_content'")
  end.

(** The call inside the [try] of [processToolUse]: the two tools that
    manage background tasks get the manager as first argument. *)
Definition invoke_handler (tool_key : string) (h : handler)
    (toolUseContent : json) : M json :=
  if (String.eqb tool_key "agentsearch" || String.eqb tool_key "imageanalyzer")%bool
  then call_with_manager h toolUseContent
  else call_plain h toolUseContent.

Definition unexpected_tool_error (toolName : json) : json :=
  result_dict
    ("An unexpected error occurred while executing tool " ++ py_str toolName ++ ".")
    "error".

Definition tool_not_recognized (toolName : json) : json :=
  result_dict
    ("Tool " ++ py_str toolName
     ++ " is not implemented or recognized by the backend.")
    "error".

(** [async def processToolUse(self, toolName, toolUseContent)], for the
    dict [self.tool_handlers]. *)
Definition processToolUse (tool_handlers : gmap string handler)
    (toolName toolUseContent : json) : M json :=
  log INFO "Processing Tool Use";;
  log DEBUG "Tool Use Content";;
  tool_key ← lift (py_lower toolName);
  match tool_handlers !! tool_key with
  | Some handler =>
      except_Exception
        (invoke_handler tool_key handler toolUseContent)
        (fun _ _ =>
           log ERROR "Error executing tool via its handler";;
           mret (unexpected_tool_error toolName))
  | None =>
      log WARNING "No handler registered for tool";;
      mret (tool_not_recognized toolName)
  end.

(** [self.tool_handlers] as [__init__] builds it. *)
Definition tool_handlers : gmap string handler :=
  <["getweather" := Handler handle_get_weather]>
  (<["numberrace" := Handler handle_number_race]>
  (<["agentsearch" := ManagerHandler handle_agent_search]>
  (<["imageanalyzer" := ManagerHandler handle_imageanalyzer]> ∅))).

(* ===================================================================== *)
(** ** Sending upstream *)
(* ===================================================================== *)

Definition upstream_sends (t : list effect) : nat :=
  List.length
    (List.filter (fun e => match e with EUpstreamSend _ => true | _ => false end) t).

(** [await self.stream_response.input_stream.send(event)]. *)
Definition input_stream_send (event_json : string) : M unit :=
  fun w =>
    (upstream_send env (upstream_sends (trace w)),
     {| mgr := mgr w; trace := EUpstreamSend event_json :: trace w;
        uuid_calls := uuid_calls w |}).

(** [list(v.keys())]. *)
Definition py_keys (v : json) : res (list string) :=
  match v with
  | JObj kv => Ret (List.map fst kv)
  | _ => Raise (Exn AttributeError
                  ("'" ++ type_name v ++ "' object has no attribute 'keys'"))
  end.

(** [async def send_raw_event(self, event_data)]: [event_data] is a
    dict or a text. *)
Definition send_raw_event (event_data : json) : M unit :=
  m ← get_mgr;
  if (negb (stream_response m) || negb (is_active m))%bool then
    log WARNING "Bedrock stream not initialized or closed. Cannot send event."
  else
    event_json ←
      match event_data with
      | JObj _ => mret (json_dumps env event_data)
      | JStr s => mret s
      | _ => raise (Exn AttributeError
                      ("'" ++ type_name event_data
                       ++ "' object has no attribute 'encode'"))
      end;
    except_Exception
      (input_stream_send event_json;;
       parsed ← match event_data with
                | JObj _ => mret event_data
                | _ => lift (py_json_loads (JStr event_json))
                end;
       event ← lift (py_get parsed "event" (JObj []));
       event_type ← lift (py_keys event);
       if existsb (String.eqb "audioInput") event_type then mret ()
       else log INFO "Sent event type")
      (fun _ _ => log ERROR "Error sending event to Bedrock").

(* ===================================================================== *)
(** ** The response-processing loop *)
(* ===================================================================== *)

(** What one turn of the loop gets from upstream. *)
Inductive upstream : Type :=
  | AwaitOutputRaises (e : exn)
      (** [await self.stream_response.await_output()] raises *)
  | NoOutputEvent
      (** it returns a falsy value *)
  | ReceiveRaises (e : exn)
      (** [await output_event[1].receive()] raises *)
  | ReceivedNoValue
      (** [result.value is None] *)
  | ReceivedEmpty
      (** [result.value] is falsy but not [None], or its [bytes_] is empty *)
  | ReceivedUndecodable (msg : string)
      (** [bytes_] is not UTF-8: [decode] raises [UnicodeDecodeError] *)
  | Received (response_data : string).
      (** [bytes_] decodes to this text *)

Definition tool_start_event (prompt_name : json) (toolContent : string)
    (toolUseId : json) : json :=
  JObj [("event",
    JObj [("contentStart",
      JObj [("interactive", JBool true);
            ("promptName", prompt_name);
            ("contentName", JStr toolContent);
            ("type", JStr "TOOL");
            ("role", JStr "TOOL");
            ("toolResultInputConfiguration",
             JObj [("toolUseId", toolUseId);
                   ("type", JStr "TEXT");
                   ("textInputConfiguration",
                    JObj [("mediaType", JStr "text/plain")])])])])].

(** The text under ["content"] of the [toolResult] event. *)
Definition content_json_string (toolResult : json) : string :=
  match toolResult with
  | JObj _ => json_dumps env toolResult
  | _ => py_str toolResult
  end.

(** [status = "error" if toolResult.get("status") == "error" else
    "success"]. *)
Definition tool_result_status (toolResult : json) : res string :=
  match py_get toolResult "status" JNull with
  | Ret s => Ret (if json_is_str s "error" then "error" else "success")
  | Raise e => Raise e
  end.

Definition tool_result_event (prompt_name : json) (toolContent : string)
    (content status : string) : json :=
  JObj [("event",
    JObj [("toolResult",
      JObj [("promptName", prompt_name);
            ("contentName", JStr toolContent);
            ("content", JStr content);
            ("status", JStr status)])])].

Definition tool_content_end_event (prompt_name : json) (toolContent : string) : json :=
  JObj [("event",
    JObj [("contentEnd",
      JObj [("promptName", prompt_name);
            ("contentName", JStr toolContent)])])].

(** The branch of the loop for a [contentEnd] of type [TOOL]. *)
Definition process_tool_content_end (handlers : gmap string handler) : M unit :=
  log INFO "Processing tool use and sending result";;
  m ← get_mgr;
  toolResult ← processToolUse handlers (toolName m) (toolUseContent m);
  toolContent ← fresh_uuid;
  log INFO "Tool Use Id";;
  m ← get_mgr;
  send_raw_event
    (JStr (json_dumps env
             (tool_start_event (prompt_name m) toolContent (toolUseId m))));;
  log INFO "Sent Content Start for Tool Event";;
  (match toolResult with
   | JObj _ => log INFO "JSON serialization successful:"
   | _ => mret ()
   end);;
  status ← lift (tool_result_status toolResult);
  m ← get_mgr;
  send_raw_event
    (JStr (json_dumps env
             (tool_result_event (prompt_name m) toolContent
                (content_json_string toolResult) status)));;
  log INFO "Sent ToolResultEvent";;
  m ← get_mgr;
  send_raw_event
    (JStr (json_dumps env (tool_content_end_event (prompt_name m) toolContent))).

(** The body of [if "event" in json_data:]. *)
Definition process_event (handlers : gmap string handler) (json_data : json) : M unit :=
  event_data ← lift (py_getitem json_data "event");
  is_content_start ← lift (py_in "contentStart" event_data);
  if (is_content_start : bool) then
    log DEBUG "Content start detected";;
    content_start ← lift (py_getitem event_data "contentStart");
    has_fields ← lift (py_in "additionalModelFields" content_start);
    if (has_fields : bool) then
      try_catch
        (fields_text ← lift (py_getitem content_start "additionalModelFields");
         additional_fields ← lift (py_json_loads fields_text);
         stage ← lift (py_get additional_fields "generationStage" JNull);
         if json_is_str stage "SPECULATIVE"
         then log DEBUG "Speculative content detected"
         else mret ())
        (fun e =>
           if is_json_decode_error e
           then log ERROR "Error parsing additionalModelFields"
           else raise e)
    else mret ()
  else
  is_text_output ← lift (py_in "textOutput" event_data);
  if (is_text_output : bool) then
    text_output ← lift (py_getitem event_data "textOutput");
    text_content ← lift (py_getitem text_output "content");
    text_output ← lift (py_getitem event_data "textOutput");
    role ← lift (py_getitem text_output "role");
    if json_is_str role "ASSISTANT" then log INFO "Assistant Message Redacted"
    else if json_is_str role "USER" then log INFO "User Message Redacted"
    else mret ()
  else
  is_tool_use ← lift (py_in "toolUse" event_data);
  if (is_tool_use : bool) then
    tool_use ← lift (py_getitem event_data "toolUse");
    modify_mgr (set_toolUseContent tool_use);;
    tool_use ← lift (py_getitem event_data "toolUse");
    name ← lift (py_getitem tool_use "toolName");
    modify_mgr (set_toolName name);;
    tool_use ← lift (py_getitem event_data "toolUse");
    id ← lift (py_getitem tool_use "toolUseId");
    modify_mgr (set_toolUseId id);;
    log INFO "Tool use detected"
  else
  is_content_end ← lift (py_in "contentEnd" event_data);
  if (is_content_end : bool) then
    content_end ← lift (py_get event_data "contentEnd" (JObj []));
    type ← lift (py_get content_end "type" JNull);
    if json_is_str type "TOOL" then process_tool_content_end handlers
    else mret ()
  else mret ().

(** [is_fatal_bedrock_error]. *)
Definition is_fatal_bedrock_error (error_message_str : string) : bool :=
  (str_contains "Invalid voice ID" error_message_str
   || str_contains "ValidationException" error_message_str
   || str_contains "Error(s):" error_message_str)%bool.

(** The line boundaries of [str.splitlines]: the ASCII ones, and the
    UTF-8 encodings of U+0085, U+2028 and U+2029. *)
Definition is_line_break (c : ascii) : bool :=
  let n := nat_of_ascii c in
  (((10 <=? n) && (n <=? 13)) || ((28 <=? n) && (n <=? 30)))%nat.

Definition at_wide_line_break (s : string) : bool :=
  (String.prefix (String "194" (String "133" EmptyString)) s
   || String.prefix (String "226" (String "128" (String "168" EmptyString))) s
   || String.prefix (String "226" (String "128" (String "169" EmptyString))) s)%bool.

Fixpoint up_to_line_break (s : string) : string :=
  match s with
  | EmptyString => EmptyString
  | String c rest =>
      if (is_line_break c || at_wide_line_break s)%bool then EmptyString
      else String c (up_to_line_break rest)
  end.

(** [s.splitlines()[0]]; the empty text has no line. *)
Definition first_line (s : string) : res string :=
  match s with
  | EmptyString => Raise (Exn IndexError "list index out of range")
  | _ => Ret (up_to_line_break s)
  end.

(** The notification the loop queues for the client on a fatal error. *)
Definition fatal_error_payload (message : string) : json :=
  JObj [("event",
    JObj [("error",
      JObj [("type", JStr "BedrockStreamError");
            ("message", JStr message);
            ("fatal", JBool true)])])].

Definition json_decode_error_payload (response_data : string) : json :=
  JObj [("raw_data", JStr response_data); ("error", JStr "JSONDecodeError")].

(** What the loop does with a decoded text. *)
Definition process_response_data (handlers : gmap string handler)
    (response_data : string) : M unit :=
  try_catch
    (json_data ← lift (py_json_loads (JStr response_data));
     has_event ← lift (py_in "event" json_data);
     (if (has_event : bool) then process_event handlers json_data else mret ());;
     queue_put json_data)
    (fun e =>
       if is_json_decode_error e then
         log ERROR "Failed to parse JSON from Bedrock";;
         queue_put (json_decode_error_payload response_data)
       else raise e).

(** One turn of [while self.is_active:]; the result tells whether the
    loop goes on ([true]) or is left by [break] ([false]). *)
Definition loop_turn (handlers : gmap string handler) (u : upstream) : M bool :=
  try_catch
    (match u with
     | AwaitOutputRaises e => raise e
     | NoOutputEvent =>
         log INFO "Received no output_event from Bedrock, stream might be closing.";;
         mret false
     | ReceiveRaises e => raise e
     | ReceivedNoValue =>
         log INFO "Received null result value from Bedrock, stream may have ended.";;
         mret false
     | ReceivedEmpty => mret true
     | ReceivedUndecodable msg => raise (Exn UnicodeDecodeError msg)
     | Received response_data =>
         process_response_data handlers response_data;;
         mret true
     end)
    (fun e =>
       match e with
       | Exn StopAsyncIteration _ =>
           log INFO "Bedrock stream ended (StopAsyncIteration)";;
           mret false
       | CancelledError =>
           log INFO "Bedrock response processing task cancelled";;
           modify_mgr (set_is_active false);;
           raise CancelledError
       | Exn _ error_message_str =>
           log ERROR "Error receiving response from Bedrock";;
           (if is_fatal_bedrock_error error_message_str then
              message ← lift (first_line error_message_str);
              queue_put (fatal_error_payload message);;
              log INFO "Sent fatal Bedrock stream error to frontend."
            else mret ());;
           modify_mgr (set_is_active false);;
           mret false
       end).

(** [while self.is_active: ...] on what upstream answers, turn by turn.
    [Ret true]: the loop was left; [Ret false]: the answers ran out and
    the coroutine is suspended in [await_output]. *)
Fixpoint response_loop (handlers : gmap string handler) (script : list upstream)
    : M bool :=
  fun w =>
    if is_active (mgr w) then
      match script with
      | [] => (Ret false, w)
      | u :: rest =>
          match loop_turn handlers u w with
          | (Ret true, w') => response_loop handlers rest w'
          | (Ret false, w') => (Ret true, w')
          | (Raise e, w') => (Raise e, w')
          end
      end
    else (Ret true, w).

(** The [finally] clause of [_process_responses]. *)
Definition process_responses_finally : M unit :=
  log INFO "BedrockStreamManager._process_responses finally block.";;
  m ← get_mgr;
  (if is_active m then modify_mgr (set_is_active false) else mret ());;
  queue_put JNull.

(** [async def _process_responses(self)].  [Ret true]: the coroutine
    returned; [Raise e]: it ended by raising; [Ret false]: it is still
    suspended in the loop. *)
Definition _process_responses (handlers : gmap string handler)
    (script : list upstream) : M bool :=
  log INFO "Bedrock response processing task started";;
  r ← observe (response_loop handlers script);
  match r with
  | Ret false => mret false
  | Ret true =>
      log INFO "Bedrock response processing task finished";;
      process_responses_finally;;
      mret true
  | Raise e =>
      process_responses_finally;;
      raise e
  end.

(* ===================================================================== *)
(** ** The forwarder *)
(* ===================================================================== *)

Definition websocket_sends (t : list effect) : nat :=
  List.length
    (List.filter (fun e => match e with EWebsocketSend _ => true | _ => false end) t).

(** [await websocket.send(text)]. *)
Definition ws_send (text : string) : M unit :=
  fun w =>
    (websocket_send env (websocket_sends (trace w)),
     {| mgr := mgr w; trace := EWebsocketSend text :: trace w;
        uuid_calls := uuid_calls w |}).

(** The part of the forwarder's loop body that names the message for
    the debug log; it raises where the Python does. *)
Definition describe_response (response : json) : M unit :=
  match response with
  | JObj _ =>
      custom ← lift (py_get response "customEvent" JNull);
      if json_is_str custom "toolCompletionNotification" then
        payload ← lift (py_get response "payload" (JObj []));
        _ ← lift (py_get payload "toolName" JNull);
        payload ← lift (py_get response "payload" (JObj []));
        _ ← lift (py_get payload "status" JNull);
        mret ()
      else
        event ← lift (py_get response "event" JNull);
        if truthy event then
          event ← lift (py_getitem response "event");
          keys ← lift (py_keys event);
          match keys with
          | [] => raise (Exn IndexError "list index out of range")
          | event_key :: _ =>
              if String.eqb event_key "audioOutput" then
                audio ← lift (py_getitem event "audioOutput");
                _ ← lift (py_get audio "contentId" (JStr "N/A"));
                mret ()
              else if String.eqb event_key "textOutput" then
                text_output ← lift (py_getitem event "textOutput");
                _ ← lift (py_get text_output "role" JNull);
                _ ← lift (py_get text_output "content" JNull);
                mret ()
              else mret ()
          end
        else mret ()
  | _ => mret ()
  end.

(** One dequeued item: [true] when the loop goes on. *)
Definition forward_one (response : json) : M bool :=
  match response with
  | JNull =>
      log DEBUG "FORWARD_TASK: Received None from output_queue, terminating forwarder.";;
      mret false
  | _ =>
      describe_response response;;
      log DEBUG "FORWARD_TASK: Dequeued. About to send to WebSocket.";;
      try_catch
        (ws_send (json_dumps env response);;
         log DEBUG "FORWARD_TASK: Successfully sent to WebSocket.";;
         mret true)
        (fun e =>
           match e with
           | Exn ConnectionClosed _ =>
               log WARNING "FORWARD_TASK: WebSocket connection closed while trying to send. Terminating forwarder.";;
               mret false
           | Exn _ _ =>
               log ERROR "FORWARD_TASK: Error sending to WebSocket";;
               mret false
           | CancelledError => raise CancelledError
           end)
  end.

(** [while True:] of the forwarder over the items the queue holds.
    [Ret true]: the loop was left; [Ret false]: the queue is empty and
    the forwarder is suspended in [output_queue.get()]. *)
Fixpoint forward_loop (items : list json) : M bool :=
  match items with
  | [] => mret false
  | response :: rest =>
      modify_mgr (set_output_queue rest);;
      go_on ← forward_one response;
      if (go_on : bool) then forward_loop rest else mret true
  end.

(** [async def forward_responses(websocket, stream_manager)]: [true]
    when the coroutine has ended. *)
Definition forward_responses : M bool :=
  log DEBUG "FORWARD_TASK: Started for a new WebSocket connection.";;
  m ← get_mgr;
  r ← observe (forward_loop (output_queue m));
  match r with
  | Ret false => mret false
  | Ret true => log DEBUG "FORWARD_TASK: Exiting.";; mret true
  | Raise CancelledError =>
      log DEBUG "FORWARD_TASK: Cancelled.";;
      log DEBUG "FORWARD_TASK: Exiting.";;
      mret true
  | Raise (Exn _ _) =>
      log ERROR "FORWARD_TASK: Unhandled error";;
      log DEBUG "FORWARD_TASK: Exiting.";;
      mret true
  end.

End Backend.

(* ===================================================================== *)
(** ** The audio path and the messages of the client *)
(* ===================================================================== *)

Definition set_audio_input_queue (q : list json) (m : Manager) : Manager :=
  {| model_id := model_id m;
     region := region m;
     last_credential_refresh := last_credential_refresh m;
     audio_input_queue := q;
     output_queue := output_queue m;
     stream_response := stream_response m;
     is_active := is_active m;
     prompt_name := prompt_name m;
     content_name := content_name m;
     audio_content_name := audio_content_name m;
     toolUseContent := toolUseContent m;
     toolUseId := toolUseId m;
     toolName := toolName m;
     speech_detected := speech_detected m;
     pending_tool_results := pending_tool_results m;
     active_background_tasks := active_background_tasks m;
     completed_async_tool_results := completed_async_tool_results m;
     pending_screenshot_events := pending_screenshot_events m;
     received_screenshot_data := received_screenshot_data m |}.

Definition set_speech_detected (b : bool) (m : Manager) : Manager :=
  {| model_id := model_id m;
     region := region m;
     last_credential_refresh := last_credential_refresh m;
     audio_input_queue := audio_input_queue m;
     output_queue := output_queue m;
     stream_response := stream_response m;
     is_active := is_active m;
     prompt_name := prompt_name m;
     content_name := content_name m;
     audio_content_name := audio_content_name m;
     toolUseContent := toolUseContent m;
     toolUseId := toolUseId m;
     toolName := toolName m;
     speech_detected := b;
     pending_tool_results := pending_tool_results m;
     active_background_tasks := active_background_tasks m;
     completed_async_tool_results := completed_async_tool_results m;
     pending_screenshot_events := pending_screenshot_events m;
     received_screenshot_data := received_screenshot_data m |}.

Definition set_prompt_name (v : json) (m : Manager) : Manager :=
  {| model_id := model_id m;
     region := region m;
     last_credential_refresh := last_credential_refresh m;
     audio_input_queue := audio_input_queue m;
     output_queue := output_queue m;
     stream_response := stream_response m;
     is_active := is_active m;
     prompt_name := v;
     content_name := content_name m;
     audio_content_name := audio_content_name m;
     toolUseContent := toolUseContent m;
     toolUseId := toolUseId m;
     toolName := toolName m;
     speech_detected := speech_detected m;
     pending_tool_results := pending_tool_results m;
     active_background_tasks := active_background_tasks m;
     completed_async_tool_results := completed_async_tool_results m;
     pending_screenshot_events := pending_screenshot_events m;
     received_screenshot_data := received_screenshot_data m |}.

Definition set_audio_content_name (v : json) (m : Manager) : Manager :=
  {| model_id := model_id m;
     region := region m;
     last_credential_refresh := last_credential_refresh m;
     audio_input_queue := audio_input_queue m;
     output_queue := output_queue m;
     stream_response := stream_response m;
     is_active := is_active m;
     prompt_name := prompt_name m;
     content_name := content_name m;
     audio_content_name := v;
     toolUseContent := toolUseContent m;
     toolUseId := toolUseId m;
     toolName := toolName m;
     speech_detected := speech_detected m;
     pending_tool_results := pending_tool_results m;
     active_background_tasks := active_background_tasks m;
     completed_async_tool_results := completed_async_tool_results m;
     pending_screenshot_events := pending_screenshot_events m;
     received_screenshot_data := received_screenshot_data m |}.

(** The item [add_audio_chunk] puts on the audio queue. *)
Definition audio_chunk (prompt_name content_name audio_data : json) : json :=
  JObj [("prompt_name", prompt_name);
        ("content_name", content_name);
        ("audio_bytes", audio_data)].

(** [def add_audio_chunk(self, prompt_name, content_name, audio_data)]:
    [put_nowait] on the unbounded queue. *)
Definition add_audio_chunk (prompt_name content_name audio_data : json) : M unit :=
  modify_mgr (fun m =>
    set_audio_input_queue
      (audio_input_queue m ++ [audio_chunk prompt_name content_name audio_data]) m).

(** The event [_process_audio_input] sends upstream for a chunk.  The
    audio of a chunk comes from a JSON message and is never [bytes], so
    it is passed on as it is. *)
Definition audio_input_event (prompt_name content_name audio_bytes : json) : json :=
  JObj [("event",
    JObj [("audioInput",
      JObj [("promptName", prompt_name);
            ("contentName", content_name);
            ("content", audio_bytes);
            ("role", JStr "USER")])])].

(** The shared A2A client of [agent_search_tool.py], a module-level
    variable: [None], the text [ERROR_DURING_INIT], or a client. *)
Inductive a2a_client_instance : Type :=
  | NoA2AClient
  | ErrorDuringInit
  | A2AClient.

Section Session.

Context (env : Env).

(** [def detect_speech_in_audio(self, audio_base64)].  [rms_above] is
    the outcome of the arithmetic on the samples: [Some b] when base64
    decoding and the RMS amplitude succeed, [b] telling whether the
    amplitude exceeds the threshold 0.1; [None] when they raise. *)
Definition detect_speech_in_audio (rms_above : json -> option bool)
    (audio_base64 : json) : M bool :=
  match rms_above audio_base64 with
  | Some true =>
      m ← get_mgr;
      if negb (speech_detected m) then
        log INFO "Speech detected with RMS level";;
        modify_mgr (set_speech_detected true);;
        mret true
      else mret false
  | Some false =>
      modify_mgr (set_speech_detected false);;
      mret false
  | None =>
      log ERROR "Error detecting speech";;
      mret false
  end.

(** The body of [while self.is_active:] in [_process_audio_input] for
    the item the queue hands over; the result tells whether the loop
    goes on ([true]) or is left by [break] ([false]). *)
Definition process_audio_chunk (rms_above : json -> option bool)
    (data : json) : M bool :=
  try_catch
    (prompt_name ← lift (py_get data "prompt_name" JNull);
     content_name ← lift (py_get data "content_name" JNull);
     audio_bytes ← lift (py_get data "audio_bytes" JNull);
     if (negb (truthy audio_bytes) || negb (truthy prompt_name)
         || negb (truthy content_name))%bool
     then
       log INFO "Missing required audio data properties";;
       mret true
     else
       (* [now = time.time()] when speech is detected: no effect *)
       _ ← detect_speech_in_audio rms_above audio_bytes;
       send_raw_event env (audio_input_event prompt_name content_name audio_bytes);;
       mret true)
    (fun e =>
       match e with
       | CancelledError => mret false
       | Exn _ _ =>
           log INFO "Error processing audio";;
           mret true
       end).

(** [while self.is_active: ...] over the items the audio queue holds.
    [Ret true]: the loop was left; [Ret false]: the queue is empty and
    the coroutine is suspended in [audio_input_queue.get()]. *)
Fixpoint audio_input_loop (rms_above : json -> option bool)
    (items : list json) : M bool :=
  fun w =>
    if is_active (mgr w) then
      match items with
      | [] => (Ret false, w)
      | data :: rest =>
          match (modify_mgr (set_audio_input_queue rest);;
                 process_audio_chunk rms_above data) w with
          | (Ret true, w') => audio_input_loop rms_above rest w'
          | (Ret false, w') => (Ret true, w')
          | (Raise e, w') => (Raise e, w')
          end
      end
    else (Ret true, w).

(** [async def _process_audio_input(self)]. *)
Definition _process_audio_input (rms_above : json -> option bool) : M bool :=
  m ← get_mgr;
  audio_input_loop rms_above (audio_input_queue m).

(** [list(v.keys())[0]]. *)
Definition first_key (v : json) : res string :=
  match py_keys v with
  | Ret [] => Raise (Exn IndexError "list index out of range")
  | Ret (k :: _) => Ret k
  | Raise e => Raise e
  end.

(** The body of [async for message in websocket:] in
    [websocket_handler], for a text message. *)
Definition websocket_handler_message (message : string) : M unit :=
  try_catch
    (data ← lift (py_json_loads env (JStr message));
     custom_event_type ← lift (py_get data "customEvent" JNull);
     if json_is_str custom_event_type "capturedScreenshotData" then
       log INFO "WS_HANDLER: 'capturedScreenshotData' customEvent received from frontend!";;
       payload ← lift (py_get data "payload" (JObj []));
       analysis_id ← lift (py_get payload "imageAnalysisId" JNull);
       image_data_url ← lift (py_get payload "imageDataUrl" JNull);
       error_from_frontend ← lift (py_get payload "error" JNull);
       if truthy analysis_id then
         if truthy error_from_frontend then
           log ERROR "WS_HANDLER: Frontend reported error capturing screenshot";;
           deliver_screenshot_data analysis_id JNull error_from_frontend
         else if truthy image_data_url then
           log INFO "WS_HANDLER: Received screenshot data. Attempting to deliver.";;
           deliver_screenshot_data analysis_id image_data_url JNull
         else
           log WARNING "WS_HANDLER: 'capturedScreenshotData' received without imageDataUrl or error.";;
           deliver_screenshot_data analysis_id JNull
             (JStr "Missing image data from frontend.")
       else
         log ERROR "WS_HANDLER: Missing imageAnalysisId in capturedScreenshotData"
     else
       has_event ← lift (py_in "event" data);
       if (has_event : bool) then
         event ← lift (py_getitem data "event");
         event_type ← lift (first_key event);
         (if String.eqb event_type "promptStart" then
            prompt_start ← lift (py_getitem event "promptStart");
            name ← lift (py_getitem prompt_start "promptName");
            modify_mgr (set_prompt_name name)
          else if String.eqb event_type "contentStart" then
            content_start ← lift (py_getitem event "contentStart");
            type ← lift (py_get content_start "type" JNull);
            if json_is_str type "AUDIO" then
              name ← lift (py_getitem content_start "contentName");
              modify_mgr (set_audio_content_name name)
            else mret ()
          else mret ());;
         if String.eqb event_type "audioInput" then
           audio_input ← lift (py_getitem event "audioInput");
           prompt_name ← lift (py_getitem audio_input "promptName");
           content_name ← lift (py_getitem audio_input "contentName");
           audio_base64 ← lift (py_getitem audio_input "content");
           add_audio_chunk prompt_name content_name audio_base64
         else
           send_raw_event env data
       else mret ())
    (fun e =>
       if is_json_decode_error e then
         log ERROR "Invalid JSON received from WebSocket"
       else match e with
            | Exn _ _ => log ERROR "Error processing WebSocket message"
            | CancelledError => raise CancelledError
            end).

(** The loop [async for message in websocket:] over the messages the
    client sends. *)
Fixpoint websocket_handler_messages (messages : list string) : M unit :=
  match messages with
  | [] => mret ()
  | message :: rest =>
      websocket_handler_message message;;
      websocket_handler_messages rest
  end.

(** [async def get_initialized_a2a_client()], for a value of the shared
    variable.  [discovered] is how [AgentClient(...)] and
    [await client.discover()] end: whether [client.client] is set, or
    the exception.  The result is the value of the shared variable
    afterwards, and what the call logs and returns. *)
Definition get_initialized_a2a_client
    (shared : a2a_client_instance) (discovered : res bool)
    : a2a_client_instance * M unit :=
  let connection_error : M unit :=
    raise (Exn ConnectionError
             "AgentClient could not be initialized/discovered. Check A2A server and configurations.") in
  match shared with
  | A2AClient => (A2AClient, mret ())
  | NoA2AClient | ErrorDuringInit =>
      match discovered with
      | Ret true =>
          (A2AClient,
           log INFO "[AgentSearchTool] Initializing AgentClient for the first time and discovering agent...";;
           log INFO "[AgentSearchTool] AgentClient initialized and agent discovered successfully.")
      | Ret false =>
          (ErrorDuringInit,
           log INFO "[AgentSearchTool] Initializing AgentClient for the first time and discovering agent...";;
           log ERROR "[AgentSearchTool] AgentClient internal client (A2AClient) was not initialized after discover call.";;
           connection_error)
      | Raise (Exn _ _) =>
          (ErrorDuringInit,
           log INFO "[AgentSearchTool] Initializing AgentClient for the first time and discovering agent...";;
           log ERROR "[AgentSearchTool] CRITICAL: Failed to initialize or discover AgentClient";;
           connection_error)
      | Raise CancelledError =>
          (shared,
           log INFO "[AgentSearchTool] Initializing AgentClient for the first time and discovering agent...";;
           raise CancelledError)
      end
  end.

(** A tool specification: the schema goes in as a JSON text. *)
Definition tool_spec (name description : string) (schema : json) : json :=
  JObj [("toolSpec",
    JObj [("name", JStr name);
          ("description", JStr description);
          ("inputSchema", JObj [("json", JStr (json_dumps env schema))])])].

(** A schema of an object with one text or integer property. *)
Definition object_schema (property type description : string)
    (required : list json) : json :=
  JObj [("type", JStr "object");
        ("properties",
         JObj [(property,
                JObj [("type", JStr type); ("description", JStr description)])]);
        ("required", JArr required)].

(** [def get_weather_tool_spec()]. *)
Definition get_weather_tool_spec : json :=
  tool_spec "getWeather" "Get current weather for a given location"
    (object_schema "location" "string" "Name of the city (e.g. Seattle, WA)"
       [JStr "location"]).

(** [def get_number_race_tool_spec()]. *)
Definition get_number_race_tool_spec : json :=
  tool_spec "numberRace"
    "A number, an integer to start a number race! I will wait for that many seconds."
    (object_schema "number" "integer" "The integer number of seconds to wait."
       [JStr "number"]).

(** [def get_agent_search_tool_spec()]. *)
Definition get_agent_search_tool_spec : json :=
  tool_spec "agentSearch"
    "Performs a search using an intelligent agent for a given query. This process typically takes time. Tool will start the search, and return with wait for result message. User will ask to check on the results of the agent search after they have been informed by an out of band notifcation."
    (object_schema "query" "string"
       "The search query, topic, or question for the agent." [JStr "query"]).

(** [def get_imageanalyzer_tool_spec()]. *)
Definition get_imageanalyzer_tool_spec : json :=
  tool_spec "imageAnalyzer"
    "Captures an image of the current web page and provides an AI-generated description. The user is notified when the analysis is complete."
    (object_schema "context" "string"
       "Optional: Provide context or a specific question about the image to guide the analysis (e.g., 'focus on the colors' or 'what is the main subject?')."
       []).

(** [self.tool_specs_definitions] as [__init__] builds it. *)
Definition tool_specs_definitions : list (string * json) :=
  [("getWeather", get_weather_tool_spec);
   ("numberRace", get_number_race_tool_spec);
   ("agentSearch", get_agent_search_tool_spec);
   ("imageAnalyzer", get_imageanalyzer_tool_spec)].

End Session.

(* ===================================================================== *)
(** ** A concrete environment and concrete inputs *)
(* ===================================================================== *)

(** The double quote character. *)
Definition dq : string := String (ascii_of_nat 34) EmptyString.

Definition quoted (s : string) : string := dq ++ s ++ dq.

(** The text of a one-field JSON object whose value is given as text. *)
Definition object_text (key value_text : string) : string :=
  "{" ++ quoted key ++ ": " ++ value_text ++ "}".

(** A serializer in the layout of [json.dumps], for values whose texts
    need no escaping. *)
Fixpoint dumps (v : json) : string :=
  match v with
  | JNull => "null"
  | JBool true => "true"
  | JBool false => "false"
  | JInt n => pretty n
  | JFloat r => r
  | JStr s => quoted s
  | JArr items =>
      "[" ++ (fix go (l : list json) : string :=
                match l with
                | [] => ""
                | [x] => dumps x
                | x :: rest => dumps x ++ ", " ++ go rest
                end) items ++ "]"
  | JObj fields =>
      "{" ++ (fix go (l : list (string * json)) : string :=
                match l with
                | [] => ""
                | [(k, x)] => quoted k ++ ": " ++ dumps x
                | (k, x) :: rest => quoted k ++ ": " ++ dumps x ++ ", " ++ go rest
                end) fields ++ "}"
  end.

(** A few texts [json.loads] accepts, with their values. *)
Definition example_texts : list (string * json) :=
  [(object_text "number" "3", JObj [("number", JInt 3)]);
   (object_text "number" (quoted "abc"), JObj [("number", JStr "abc")]);
   (object_text "query" (quoted "X"), JObj [("query", JStr "X")]);
   (object_text "query" (quoted ""), JObj [("query", JStr "")]);
   (object_text "context" (quoted "the chart"), JObj [("context", JStr "the chart")]);
   ("null", JNull)].

(** An environment in which every service answers and [json.loads]
    knows the texts above. *)
Definition example_env : Env :=
  {| json_loads := fun s => assoc s example_texts;
     json_dumps := dumps;
     py_repr := dumps;
     uuid4 := fun n => "uuid-" ++ pretty n;
     upstream_send := fun _ => Ret ();
     weather_agent := fun _ _ =>
       Ret (JObj [("content", JArr [JObj [("text", JStr "Sunny.")]])]);
     websocket_send := fun _ => Ret ();
     json_loads_error := fun _ => None;
     int_of_other_text := fun _ => None;
     os_sleep := fun _ => None |}.

(** The world right after [__init__]. *)
Definition initial_world : World :=
  {| mgr := init_manager; trace := []; uuid_calls := 0%nat |}.

(** The world once [initialize_stream] has opened the stream. *)
Definition streaming_world : World :=
  {| mgr := set_stream_open init_manager; trace := []; uuid_calls := 0%nat |}.

(** A [toolUse] content for a tool, an id and an input text. *)
Definition tool_use (name id input_text : string) : json :=
  JObj [("toolName", JStr name); ("toolUseId", JStr id);
        ("content", JStr input_text)].

(** A world in which a finished search is waiting in the cache. *)
Definition search_result : json :=
  JObj [("summary", JStr "Agent search completed for: 'X'.");
        ("details", JStr "Found it.");
        ("originalQuery", JStr "X");
        ("searchId", JStr "id-0")].

Definition world_with_search_result : World :=
  {| mgr := set_completed_async_tool_results
              (<["agentsearch" := search_result]> ∅) init_manager;
     trace := []; uuid_calls := 0%nat |}.

(** An agentSearch invocation whose query is empty. *)
Definition empty_query_invocation : json :=
  tool_use "agentSearch" "id-1" (object_text "query" (quoted "")).

(** A world in which a finished image analysis is waiting in the cache. *)
Definition image_result : json :=
  JObj [("description", JStr "A bar chart.");
        ("originalContext", JStr "the chart");
        ("analysisId", JStr "uuid-0");
        ("status", JStr "success")].

Definition world_with_image_result : World :=
  {| mgr := set_completed_async_tool_results
              (<["imageanalyzer" := image_result]> ∅) init_manager;
     trace := []; uuid_calls := 0%nat |}.

(** An imageAnalyzer invocation whose input text is not JSON. *)
Definition malformed_input_invocation : json :=
  tool_use "imageAnalyzer" "id-2" "context: the chart".

(** An agentSearch invocation with the query [X], and the task it
    launches. *)
Definition search_X_invocation : json :=
  tool_use "agentSearch" "id-1" (object_text "query" (quoted "X")).

Definition search_X_task : BackgroundTask :=
  {| bt_tool_use_id := JStr "id-1"; bt_tool_name := "agentSearch";
     bt_work := AgentSearchWork (JStr "X") (JStr "id-1") |}.

(** An imageAnalyzer invocation with a context. *)
Definition analyze_chart_invocation : json :=
  tool_use "imageAnalyzer" "id-2" (object_text "context" (quoted "the chart")).

(** The invocation made on the initial world, made again, the task
    completing with a result, and the invocation made a third time. *)
Definition search_started : res json * World :=
  handle_agent_search example_env search_X_invocation initial_world.

Definition search_asked_again : res json * World :=
  handle_agent_search example_env search_X_invocation search_started.2.

Definition search_completed : World :=
  (task_wrapper_resume example_env search_X_task (Ret search_result)
     search_asked_again.2).2.

Definition search_retrieved : res json * World :=
  handle_agent_search example_env search_X_invocation search_completed.

(** Two invocations in a row on a world with a cached result. *)
Definition search_read_once : res json * World :=
  handle_agent_search example_env search_X_invocation world_with_search_result.

Definition search_read_twice : res json * World :=
  handle_agent_search example_env search_X_invocation search_read_once.2.

Definition image_read_once : res json * World :=
  handle_imageanalyzer example_env analyze_chart_invocation world_with_image_result.

Definition image_read_twice : res json * World :=
  handle_imageanalyzer example_env analyze_chart_invocation image_read_once.2.

(** Two launches for one id, then the completion of the task. *)
Definition launched_once : World :=
  (launch_background_tool_task (JStr "id-1") "agentSearch"
     (AgentSearchWork (JStr "X") (JStr "id-1")) initial_world).2.

Definition launched_twice : World :=
  (launch_background_tool_task (JStr "id-1") "agentSearch"
     (AgentSearchWork (JStr "Y") (JStr "id-1")) launched_once).2.

Definition launched_then_completed : World :=
  (task_wrapper_resume example_env search_X_task (Ret search_result)
     launched_twice).2.

(** The response task on a stream that ends after one message, and on
    one that is cancelled while it waits. *)
Definition stream_ended : res bool * World :=
  _process_responses example_env (tool_handlers example_env)
    [Received (object_text "number" "3"); ReceivedNoValue] streaming_world.

Definition stream_cancelled : res bool * World :=
  _process_responses example_env (tool_handlers example_env)
    [AwaitOutputRaises CancelledError] streaming_world.

(** Messages of a session: what the client sends, and what comes down
    from upstream. *)
Definition prompt_start_message : json :=
  JObj [("event",
         JObj [("promptStart", JObj [("promptName", JStr "prompt-1")])])].

Definition session_end_message : json :=
  JObj [("event", JObj [("sessionEnd", JObj [])])].

Definition audio_message_of (content : string) : json :=
  JObj [("event",
         JObj [("audioInput",
                JObj [("promptName", JStr "prompt-1");
                      ("contentName", JStr "audio-1");
                      ("content", JStr content)])])].

Definition audio_output_message : json :=
  JObj [("event", JObj [("audioOutput", JObj [("content", JStr "UklGRg")])])].

Definition tool_use_message : json :=
  JObj [("event",
         JObj [("toolUse",
                JObj [("toolName", JStr "numberRace");
                      ("toolUseId", JStr "id-7");
                      ("content", JStr "{}")])])].

Definition tool_end_message : json :=
  JObj [("event", JObj [("contentEnd", JObj [("type", JStr "TOOL")])])].

Definition screenshot_message : json :=
  JObj [("customEvent", JStr "capturedScreenshotData");
        ("payload",
         JObj [("imageAnalysisId", JStr "uuid-0");
               ("imageDataUrl", JStr "data:image/png;base64,AAAA")])].

(** The texts [json.loads] knows in a session: the ones above by their
    serialization, and a few tool inputs. *)
Definition session_texts : list (string * json) :=
  (example_texts
   ++ [(object_text "number" (quoted " 42 "), JObj [("number", JStr " 42 ")]);
       (object_text "number" "-1", JObj [("number", JInt (-1))]);
       (object_text "location" (quoted "Seattle"),
        JObj [("location", JStr "Seattle")])]
   ++ List.map (fun v => (dumps v, v))
        [prompt_start_message; session_end_message;
         audio_message_of "AAAA"; audio_message_of "";
         audio_output_message; tool_use_message; tool_end_message;
         screenshot_message])%list.

(** A text of opening brackets, nested deeper than the decoder goes. *)
Fixpoint opening_brackets (n : nat) : string :=
  match n with
  | O => EmptyString
  | S k => String "[" (opening_brackets k)
  end.

Definition deeply_nested : string := opening_brackets 2000.

(** An environment for a session: every service answers, the weather
    agent thinks aloud, and the decoder gives up on the deep nesting. *)
Definition session_env : Env :=
  {| json_loads := fun s => assoc s session_texts;
     json_dumps := dumps;
     py_repr := dumps;
     uuid4 := fun n => "uuid-" ++ pretty n;
     upstream_send := fun _ => Ret ();
     weather_agent := fun _ _ =>
       Ret (JObj [("content",
                   JArr [JObj [("text",
                                JStr "<thinking>Look it up.</thinking>Sunny.")]])]);
     websocket_send := fun _ => Ret ();
     json_loads_error := fun s =>
       if String.eqb s deeply_nested
       then Some (OtherException,
                  "maximum recursion depth exceeded while decoding a JSON array")
       else None;
     int_of_other_text := fun _ => None;
     os_sleep := fun _ => None |}.

(** The manager when upstream has announced a numberRace tool use. *)
Definition world_with_tool_use : World :=
  {| mgr := set_toolUseId (JStr "id-7")
              (set_toolName (JStr "numberRace")
                 (set_toolUseContent
                    (tool_use "numberRace" "id-7" (object_text "number" "3"))
                    (set_stream_open init_manager)));
     trace := []; uuid_calls := 0%nat |}.

(** Two chunks of audio, the second one without data, and the open
    session with both on the audio queue. *)
Definition two_chunks : list (json * json * json) :=
  [(JStr "prompt-1", JStr "audio-1", JStr "AAAA");
   (JStr "prompt-1", JStr "audio-1", JStr "")].

Definition world_with_audio : World :=
  (add_audio_chunk (JStr "prompt-1") (JStr "audio-1") (JStr "")
     (add_audio_chunk (JStr "prompt-1") (JStr "audio-1") (JStr "AAAA")
        streaming_world).2).2.

(** Every chunk is loud. *)
Definition always_loud (audio : json) : option bool := Some true.

(** The task of an image analysis. *)
Definition analyze_chart_task : BackgroundTask :=
  {| bt_tool_use_id := JStr "id-2"; bt_tool_name := "imageAnalyzer";
     bt_work := ImageAnalysisWork "uuid-0" (JStr "the chart") |}.

(** A turn of the loop on an audio message from upstream. *)
Definition audio_output_relayed : res bool * World :=
  loop_turn session_env (tool_handlers session_env)
    (Received (dumps audio_output_message)) streaming_world.

(** An error message of two lines. *)
Definition validation_error : string :=
  "ValidationException: unknown voice" ++ String "010" "request 1".

(** A table whose numberRace handler answers without a status. *)
Definition terse_handlers : gmap string handler :=
  {["numberrace" := Handler (fun _ => mret (JObj [("result", JStr "done")]))]}.

(** The manager when upstream has announced a numberRace tool use
    without a number. *)
Definition world_with_empty_tool_use : World :=
  with_mgr world_with_tool_use
    (set_toolUseContent (tool_use "numberRace" "id-7" "{}")
       (mgr world_with_tool_use)).

(* ===================================================================== *)
(** * Properties *)
(* ===================================================================== *)

(** The value under a key of a result dict. *)
Definition field (k : string) (v : json) : option json :=
  match v with JObj kv => assoc k kv | _ => None end.

(** The value reached by following keys through nested dicts. *)
Fixpoint field_path (ks : list string) (v : json) : option json :=
  match ks with
  | [] => Some v
  | k :: rest => field k v ≫= field_path rest
  end.

(** The tasks [asyncio.create_task] has started, latest first. *)
Definition created_tasks (t : list effect) : list BackgroundTask :=
  omap (fun e => match e with ECreateTask b => Some b | _ => None end) t.

(** An invocation that passes the input checks of [handle_agent_search]:
    the tool name is a text, the tool-use id is present and not empty,
    the content parses to an object with a non-empty query. *)
Definition agent_search_invocation (env : Env) (content : json)
    (name : string) (id query : json) : Prop :=
  py_get content "toolName" (JStr "agentSearch_fallback") = Ret (JStr name)
  /\ py_get content "toolUseId" JNull = Ret id
  /\ truthy id = true
  /\ (exists text parsed,
        py_get content "content" (JStr "{}") = Ret text
        /\ py_json_loads env text = Ret parsed
        /\ py_get parsed "query" (JStr "") = Ret query)
  /\ truthy query = true.

(** The same for [handle_imageanalyzer], which asks for no query. *)
Definition image_analyzer_invocation (env : Env) (content : json)
    (name : string) (id context : json) : Prop :=
  py_get content "toolName" (JStr "imageAnalyzer") = Ret (JStr name)
  /\ py_get content "toolUseId" JNull = Ret id
  /\ truthy id = true
  /\ (exists text parsed,
        py_get content "content" (JStr "{}") = Ret text
        /\ py_json_loads env text = Ret parsed
        /\ py_get parsed "context" (JStr "the current page content") = Ret context).

Definition with_cache (w : World) (c : gmap string json) : World :=
  with_mgr w (set_completed_async_tool_results c (mgr w)).

Definition with_tasks (w : World) (t : gmap pykey BackgroundTask) : World :=
  with_mgr w (set_active_background_tasks t (mgr w)).

(** How the loop handles an instance of [Exception], other than
    [StopAsyncIteration], raised by a turn. *)
Definition after_receive_error (msg : string) (w : World) : World :=
  if is_fatal_bedrock_error msg then
    with_trace
      (with_mgr w
         (set_is_active false
            (set_output_queue
               (output_queue (mgr w) ++ [fatal_error_payload (up_to_line_break msg)])
               (mgr w))))
      [ELog ERROR "Error receiving response from Bedrock";
       ELog INFO "Sent fatal Bedrock stream error to frontend."]
  else
    with_trace (with_mgr w (set_is_active false (mgr w)))
      [ELog ERROR "Error receiving response from Bedrock"].

(** A computation that only appends to the outbound queue, and never
    the sentinel [None]. *)
Definition pushes_no_sentinel {A} (c : M A) : Prop :=
  forall w, exists items,
    output_queue (mgr (c w).2) = (output_queue (mgr w) ++ items)%list
    /\ Forall (fun x => x <> JNull) items.

(** *** Vocabulary of the further properties *)

(** What a trace holds of one kind of effect, in the order of time. *)
Definition history {B} (f : effect -> option B) (t : list effect) : list B :=
  rev (omap f t).

(** The lengths of the calls of [time.sleep]. *)
Definition slept : list effect -> list Z :=
  history (fun e => match e with ESleep n => Some n | _ => None end).

(** The texts handed to the upstream stream. *)
Definition sent_upstream : list effect -> list string :=
  history (fun e => match e with EUpstreamSend s => Some s | _ => None end).

(** The texts handed to the websocket. *)
Definition sent_to_websocket : list effect -> list string :=
  history (fun e => match e with EWebsocketSend s => Some s | _ => None end).

(** The text [send_raw_event] hands to the stream for an event given
    as a dict or as a text. *)
Definition event_text (env : Env) (event_data : json) : option string :=
  match event_data with
  | JObj _ => Some (json_dumps env event_data)
  | JStr s => Some s
  | _ => None
  end.

(** The message of the exception every failure path of the image
    analysis ends in. *)
Definition unbound_results_message : string :=
  "cannot access local variable 'results_for_cache' where it is not associated with a value".

(** A chunk as [add_audio_chunk] gets it: prompt name, content name,
    audio data.  It is complete when none of the three is falsy. *)
Definition chunk_item (x : json * json * json) : json :=
  audio_chunk x.1.1 x.1.2 x.2.

Definition chunk_complete (x : json * json * json) : bool :=
  truthy x.2 && truthy x.1.1 && truthy x.1.2.

Definition chunk_event_text (env : Env) (x : json * json * json) : string :=
  json_dumps env (audio_input_event x.1.1 x.1.2 x.2).

(** A computation that leaves a view of the world as it was. *)
Definition preserves {A B} (view : World -> B) (c : M A) : Prop :=
  forall w, view (c w).2 = view w.

(** A computation that raises nothing but exceptions of one kind. *)
Definition raises_only {A} (P : exn -> Prop) (c : M A) : Prop :=
  forall w e, (c w).1 = Raise e -> P e.

(** A computation that ends by returning or by raising an instance of
    [Exception], never by a cancellation. *)
Definition never_cancelled {A} (c : M A) : Prop :=
  raises_only (fun e => e <> CancelledError) c.

(** A computation that lets no [JSONDecodeError] out. *)
Definition no_json_error {A} (c : M A) : Prop :=
  raises_only (fun e => is_json_decode_error e = false) c.

(** What the response loop puts on the outbound queue for a text it
    received: the value the text decodes to, or the text under
    [raw_data] with an error mark. *)
Definition relayed (env : Env) (response_data : string) : json :=
  match py_json_loads env (JStr response_data) with
  | Ret json_data => json_data
  | Raise _ => json_decode_error_payload response_data
  end.

(** A result dict with one of the two statuses. *)
Definition is_tool_result (v : json) : Prop :=
  exists text status,
    v = result_dict text status /\ (status = "success" \/ status = "error").

(** A computation that, when it returns, returns such a dict. *)
Definition answers (c : M json) : Prop :=
  forall w v, (c w).1 = Ret v -> is_tool_result v.

(** What a tool handler has no business with: the state of the stream,
    the names of the session, the tool use being collected, the two
    queues, and what went to the stream and to the websocket. *)
Definition session_view (w : World) :=
  (stream_response (mgr w), is_active (mgr w), prompt_name (mgr w),
   audio_content_name (mgr w),
   (toolName (mgr w), toolUseId (mgr w), toolUseContent (mgr w)),
   (audio_input_queue (mgr w), output_queue (mgr w)),
   (sent_upstream (trace w), sent_to_websocket (trace w))).

(** The outbound queue of a world. *)
Definition outbound (w : World) : list json := output_queue (mgr w).

(** The items of the outbound queue in front of the first sentinel
    [None]. *)
Fixpoint before_sentinel (items : list json) : list json :=
  match items with
  | [] => []
  | JNull :: _ => []
  | x :: rest => x :: before_sentinel rest
  end.

(** Whether the queue holds a sentinel. *)
Definition has_sentinel (items : list json) : bool :=
  existsb (fun x => match x with JNull => true | _ => false end) items.

(** A message of the client that carries an audio chunk: a JSON object
    that is no screenshot delivery and whose event has [audioInput] as
    its first key, with the three fields of the chunk. *)
Definition audio_message (env : Env) (message : string)
    (x : json * json * json) : Prop :=
  exists fields audio_input rest,
    py_json_loads env (JStr message) = Ret (JObj fields)
    /\ json_is_str (default JNull (assoc "customEvent" fields))
         "capturedScreenshotData" = false
    /\ assoc "event" fields = Some (JObj (("audioInput", audio_input) :: rest))
    /\ py_getitem audio_input "promptName" = Ret x.1.1
    /\ py_getitem audio_input "contentName" = Ret x.1.2
    /\ py_getitem audio_input "content" = Ret x.2.

(** A text without a given character. *)
Fixpoint lacks (c : ascii) (s : string) : bool :=
  match s with
  | EmptyString => true
  | String x rest => negb (Ascii.eqb x c) && lacks c rest
  end.

(** The line feed. *)
Definition newline : string := String "010" EmptyString.

(** Three shapes of a reply of the weather agent, with what the handler
    makes of each: no tag at all; one thinking block on one line; one
    thinking block with a line feed inside. *)
Inductive cleaned_reply : string -> string -> Prop :=
  | reply_without_block (reply : string) :
      lacks "<" reply = true ->
      cleaned_reply reply reply
  | reply_with_block_on_one_line (pre mid post : string) :
      lacks "<" pre = true -> lacks "<" mid = true -> lacks "010" mid = true ->
      lacks "<" post = true ->
      cleaned_reply (pre ++ "<thinking>" ++ mid ++ "</thinking>" ++ post)
        (pre ++ post)
  | reply_with_block_over_two_lines (pre a b post : string) :
      lacks "<" pre = true -> lacks "<" a = true -> lacks "<" b = true ->
      lacks "<" post = true ->
      cleaned_reply
        (pre ++ "<thinking>" ++ a ++ newline ++ b ++ "</thinking>" ++ post)
        (pre ++ "<thinking>" ++ a ++ newline ++ b ++ "</thinking>" ++ post).

(** A text without a blank that [int] skips. *)
Fixpoint no_py_space (s : string) : bool :=
  match s with
  | EmptyString => true
  | String c rest => negb (is_py_space c) && no_py_space rest
  end.

(** ** The numberRace tool *)

(** C8: the numberRace handler, given tool content whose parsed input
    has the number 3, sleeps once, for 3 seconds, and returns
    [{result: "I am done waiting for 3 seconds.", status: "success"}];
    given a parsed input whose number is the text [abc], it returns a
    dict with status [error] at once: its only effects are two log
    records, no sleep. *)
Theorem number_race_scenarios (env : Env) (content text parsed : json) (w : World) :
  py_get content "content" (JStr "{}") = Ret text ->
  py_json_loads env text = Ret parsed ->
  (py_get parsed "number" JNull = Ret (JInt 3) ->
   handle_number_race env content w =
     (Ret (result_dict "I am done waiting for 3 seconds." "success"),
      with_trace w [ELog INFO "[Tool:numberRace] Called with input";
                    ELog INFO "[Tool:numberRace] Starting sleep";
                    ESleep 3;
                    ELog INFO "[Tool:numberRace] Finished waiting"]))
  /\
  (py_get parsed "number" JNull = Ret (JStr "abc") ->
   handle_number_race env content w =
     (Ret (result_dict
             "The input 'abc' is not a valid integer for the number race."
             "error"),
      with_trace w [ELog INFO "[Tool:numberRace] Called with input";
                    ELog WARNING "[Tool:numberRace] Invalid number provided"])).
Proof.
  intros Hc Hp; split; intros Hn;
    unfold handle_number_race, try_catch, mbind, M_bind, lift;
    rewrite Hc, Hp, Hn; reflexivity.
Qed.

(** ** Tool dispatch *)

(** C4: for a tool name whose lower-cased form is not a key of the
    handler registry, [processToolUse] returns the dict saying the tool
    is not recognized, with status [error]; it raises nothing. *)
Theorem processToolUse_unknown_tool
    (env : Env) (handlers : gmap string handler)
    (name : string) (content : json) (w : World) :
  handlers !! lower name = None ->
  processToolUse env handlers (JStr name) content w =
    (Ret (result_dict
            ("Tool " ++ name ++ " is not implemented or recognized by the backend.")
            "error"),
     with_trace w [ELog INFO "Processing Tool Use";
                   ELog DEBUG "Tool Use Content";
                   ELog WARNING "No handler registered for tool"]).
Proof.
  intros Hnone.
  unfold processToolUse, mbind, M_bind, lift, py_lower; cbn.
  rewrite Hnone. reflexivity.
Qed.

(** A tool name that is not a text has no lower-cased form: the call of
    [lower] raises before the [try] block. *)
Lemma processToolUse_name_not_text
    (env : Env) (handlers : gmap string handler) (toolName content : json) (w : World) :
  (forall s, toolName <> JStr s) ->
  exists msg,
    processToolUse env handlers toolName content w
    = (Raise (Exn AttributeError msg),
       with_trace w [ELog INFO "Processing Tool Use"; ELog DEBUG "Tool Use Content"]).
Proof.
  intros Hname.
  unfold processToolUse, mbind, M_bind, lift. cbn.
  destruct toolName; try (eexists; reflexivity).
  by destruct (Hname s).
Qed.

(** C5: when the handler registered for a tool raises an exception,
    [processToolUse] catches it and returns
    [{result: "An unexpected error occurred while executing tool <name>.",
      status: "error"}];
    whatever the handler does, no exception leaves [processToolUse]. *)
Theorem processToolUse_catches_handler_exception
    (env : Env) (handlers : gmap string handler) (name : string) (h : handler)
    (content : json) (w w' : World) (cls : exn_class) (msg : string) :
  handlers !! lower name = Some h ->
  invoke_handler (lower name) h content
    (with_trace w [ELog INFO "Processing Tool Use"; ELog DEBUG "Tool Use Content"])
    = (Raise (Exn cls msg), w') ->
  processToolUse env handlers (JStr name) content w =
    (Ret (result_dict
            ("An unexpected error occurred while executing tool " ++ name ++ ".")
            "error"),
     with_trace w' [ELog ERROR "Error executing tool via its handler"])
  /\ (forall content2 w2 cls2 msg2 w3,
        processToolUse env handlers (JStr name) content2 w2
        <> (Raise (Exn cls2 msg2), w3)).
Proof.
  intros Hh Hraise. split.
  - unfold processToolUse, except_Exception, try_catch, mbind, M_bind, lift, py_lower.
    cbn. rewrite Hh. unfold with_trace in Hraise. cbn in Hraise |- *.
    rewrite Hraise. reflexivity.
  - clear Hraise. intros content2 w2 cls2 msg2 w3 Heq.
    unfold processToolUse, except_Exception, try_catch, mbind, M_bind, lift,
      py_lower in Heq.
    cbn in Heq. rewrite Hh in Heq.
    destruct (invoke_handler _ _ _ _) as [[a|[c m|]] w4];
      unfold mret, M_ret, raise, log, emit in Heq; cbn in Heq;
      discriminate Heq.
Qed.

(** ** Delivery of screenshot data *)

Lemma deliver_screenshot_data_miss
    (analysis_id image_data_url error_message : json) (k : pykey) (w : World) :
  to_key analysis_id = Ret k ->
  pending_screenshot_events (mgr w) !! k = None ->
  deliver_screenshot_data analysis_id image_data_url error_message w =
    (Ret (),
     with_trace w
       [ELog WARNING
          "MANAGER: Received screenshot data/error for unknown or already processed analysis ID"]).
Proof.
  intros Hk Hnone.
  unfold deliver_screenshot_data, mbind, M_bind, lift, get_mgr.
  rewrite Hk, Hnone. reflexivity.
Qed.

(** Once the wait of the image analysis is over, however it ended, the
    operation id is no longer registered and holds no delivered data. *)
Lemma image_analysis_after_wait_deregisters
    (id : string) (wait : res unit) (w : World) :
  pending_screenshot_events (mgr (image_analysis_after_wait id wait w).2)
    !! KStr id = None
  /\ received_screenshot_data (mgr (image_analysis_after_wait id wait w).2)
       !! KStr id = None.
Proof.
  unfold image_analysis_after_wait.
  unfold mbind, M_bind, lift, get_mgr, modify_mgr, log, emit, raise, mret, M_ret.
  destruct wait as [[]|[cls msg|]].
  - cbn.
    destruct (truthy _); cbn.
    + destruct (py_get _ "imageDataUrl" _) as [url|e]; cbn.
      * destruct (truthy url); cbn.
        -- destruct (py_getitem _ _) as [u|e]; cbn;
             rewrite ?lookup_delete_eq; by split.
        -- destruct (py_get _ "error" _) as [err|e]; cbn;
             [destruct (truthy err); cbn|]; rewrite ?lookup_delete_eq; by split.
      * rewrite !lookup_delete_eq; by split.
    + rewrite !lookup_delete_eq; by split.
  - destruct cls; cbn; rewrite !lookup_delete_eq; by split.
  - cbn. rewrite !lookup_delete_eq; by split.
Qed.

(** C10: [deliver_screenshot_data] with an operation id that is not in
    [pending_screenshot_events] leaves the manager as it was: nothing is
    stored in [received_screenshot_data], no event is set; the call only
    logs a warning.  So a delivery that arrives after the waiting task
    timed out, when the [finally] clause has removed the registration,
    sets nothing. *)
Theorem deliver_screenshot_data_unknown_id
    (analysis_id image_data_url error_message : json) (k : pykey) (w : World) :
  to_key analysis_id = Ret k ->
  pending_screenshot_events (mgr w) !! k = None ->
  (exists w',
      deliver_screenshot_data analysis_id image_data_url error_message w
        = (Ret (), w')
      /\ mgr w' = mgr w
      /\ trace w' =
           ELog WARNING
             "MANAGER: Received screenshot data/error for unknown or already processed analysis ID"
           :: trace w)
  /\ (forall (id msg : string) (w0 : World),
        let w1 := (image_analysis_after_wait id (Raise (Exn TimeoutError msg)) w0).2 in
        exists w2,
          deliver_screenshot_data (JStr id) image_data_url error_message w1
            = (Ret (), w2)
          /\ mgr w2 = mgr w1).
Proof.
  intros Hk Hnone. split.
  - eexists. split; [by apply (deliver_screenshot_data_miss _ _ _ k)|].
    by split.
  - intros id msg w0 w1.
    destruct (image_analysis_after_wait_deregisters id
                (Raise (Exn TimeoutError msg)) w0) as [Hp _].
    eexists. split;
      [by apply (deliver_screenshot_data_miss _ _ _ (KStr id))|done].
Qed.

(** ** At most one background task per invocation id *)

Lemma launch_background_tool_task_present
    (tool_use_id : json) (k : pykey) (name : string) (factory : work)
    (t : BackgroundTask) (w : World) :
  to_key tool_use_id = Ret k ->
  active_background_tasks (mgr w) !! k = Some t ->
  launch_background_tool_task tool_use_id name factory w =
    (Ret (),
     with_trace w
       [ELog WARNING "Background task is already running. Ignoring new request."]).
Proof.
  intros Hk Ht.
  unfold launch_background_tool_task, mbind, M_bind, lift, get_mgr.
  rewrite Hk, Ht. reflexivity.
Qed.

Lemma launch_background_tool_task_absent
    (tool_use_id : json) (k : pykey) (name : string) (factory : work) (w : World) :
  to_key tool_use_id = Ret k ->
  active_background_tasks (mgr w) !! k = None ->
  let t := {| bt_tool_use_id := tool_use_id; bt_tool_name := name;
              bt_work := factory |} in
  launch_background_tool_task tool_use_id name factory w =
    (Ret (),
     with_trace
       (with_mgr w (set_active_background_tasks
                      (<[k := t]> (active_background_tasks (mgr w))) (mgr w)))
       [ECreateTask t; ELog INFO "Scheduled background task"]).
Proof.
  intros Hk Ht.
  unfold launch_background_tool_task, mbind, M_bind, lift, get_mgr.
  rewrite Hk, Ht. reflexivity.
Qed.

(** How a task that ran to a result ends: the result is cached under
    the lower-cased tool name, the task leaves the table, the client is
    notified. *)
Lemma task_wrapper_resume_success
    (env : Env) (t : BackgroundTask) (k : pykey) (payload : json) (w : World) :
  to_key (bt_tool_use_id t) = Ret k ->
  exists w',
    task_wrapper_resume env t (Ret payload) w = (Ret (), w')
    /\ completed_async_tool_results (mgr w') =
         <[lower (bt_tool_name t) := payload]> (completed_async_tool_results (mgr w))
    /\ active_background_tasks (mgr w') = delete k (active_background_tasks (mgr w))
    /\ output_queue (mgr w') =
         (output_queue (mgr w)
          ++ [custom_notification_to_frontend (bt_tool_name t) (bt_tool_use_id t)
                "success"
                ("The " ++ bt_tool_name t ++ " operation (ID: "
                 ++ py_str env (bt_tool_use_id t)
                 ++ ") has completed. You can now ask for the results.")])%list
    /\ created_tasks (trace w') = created_tasks (trace w).
Proof.
  intros Hk.
  unfold task_wrapper_resume, try_finally, mbind, M_bind, lift.
  cbn. rewrite Hk. cbn. eexists. split; [reflexivity|]. by cbn.
Qed.

(** The search coroutine catches whatever the remote agent raises:
    unless it is cancelled it returns a payload, and it does not touch
    the manager. *)
Lemma execute_agent_search_returns
    (env : Env) (query id : json) (client : res unit) (sent : res string) (w : World) :
  client <> Raise CancelledError ->
  (client = Ret () -> sent <> Raise CancelledError) ->
  exists payload w',
    _execute_agent_search_remotely env query id client sent w
      = (Ret (JObj payload), w')
    /\ mgr w' = mgr w
    /\ assoc "originalQuery" payload = Some query
    /\ assoc "searchId" payload = Some id.
Proof.
  intros Hclient Hsent.
  unfold _execute_agent_search_remotely, try_catch, mbind, M_bind, lift. cbn.
  destruct client as [[]|[cls msg|]]; [|destruct cls|by destruct Hclient]; cbn;
    try (eexists _, _; split; [reflexivity|by cbn]).
  destruct sent as [text|[cls msg|]];
    [|destruct cls|by destruct (Hsent eq_refl)]; cbn;
    eexists _, _; split; try reflexivity; by cbn.
Qed.

(** So a search task that is not cancelled ends by caching a payload
    under the lower-cased tool name and leaving the table. *)
Lemma agent_search_task_completes
    (env : Env) (t : BackgroundTask) (k : pykey) (query id : json)
    (client : res unit) (sent : res string) (w : World) :
  to_key (bt_tool_use_id t) = Ret k ->
  client <> Raise CancelledError ->
  (client = Ret () -> sent <> Raise CancelledError) ->
  exists payload w',
    task_wrapper env t (_execute_agent_search_remotely env query id client sent) w
      = (Ret (), w')
    /\ completed_async_tool_results (mgr w') =
         <[lower (bt_tool_name t) := JObj payload]>
           (completed_async_tool_results (mgr w))
    /\ active_background_tasks (mgr w') = delete k (active_background_tasks (mgr w)).
Proof.
  intros Hk Hclient Hsent.
  unfold task_wrapper, observe, mbind, M_bind. cbn.
  set (w0 := {| mgr := mgr w; trace := _; uuid_calls := uuid_calls w |}).
  destruct (execute_agent_search_returns env query id client sent w0 Hclient Hsent)
    as (payload & w1 & Hrun & Hmgr & _).
  rewrite Hrun.
  destruct (task_wrapper_resume_success env t k (JObj payload) w1 Hk)
    as (w2 & Hres & Hc & Ha & _).
  exists payload, w2. rewrite Hres. split; [reflexivity|].
  rewrite Hc, Ha, Hmgr. by split.
Qed.

(** C2: launching for an invocation id that is already in the
    active-task table starts no second task and leaves the table as it
    is.  Launching twice for an id while the first task is unresolved
    therefore creates one task, the only active one of that id; when it
    completes with a result, the result cache is written once, under the
    lower-cased tool name, and the id leaves the table. *)
Theorem launch_background_tool_task_at_most_one
    (env : Env) (tool_use_id : json) (k : pykey) (name name' : string)
    (factory factory' : work) (payload : json) (w : World) :
  to_key tool_use_id = Ret k ->
  active_background_tasks (mgr w) !! k = None ->
  let t := {| bt_tool_use_id := tool_use_id; bt_tool_name := name;
              bt_work := factory |} in
  let w1 := (launch_background_tool_task tool_use_id name factory w).2 in
  let w2 := (launch_background_tool_task tool_use_id name' factory' w1).2 in
  let w3 := (task_wrapper_resume env t (Ret payload) w2).2 in
  active_background_tasks (mgr w1) = <[k := t]> (active_background_tasks (mgr w))
  /\ launch_background_tool_task tool_use_id name' factory' w1 =
       (Ret (),
        with_trace w1
          [ELog WARNING "Background task is already running. Ignoring new request."])
  /\ created_tasks (trace w2) = t :: created_tasks (trace w)
  /\ task_wrapper_resume env t (Ret payload) w2 = (Ret (), w3)
  /\ completed_async_tool_results (mgr w3) =
       <[lower name := payload]> (completed_async_tool_results (mgr w))
  /\ active_background_tasks (mgr w3) !! k = None
  /\ created_tasks (trace w3) = t :: created_tasks (trace w).
Proof.
  intros Hk Hnone t w1 w2 w3.
  pose proof (launch_background_tool_task_absent
                tool_use_id k name factory w Hk Hnone) as H1.
  cbn zeta in H1. fold t in H1.
  assert (E1 : w1 = (launch_background_tool_task tool_use_id name factory w).2)
    by reflexivity.
  rewrite H1 in E1. cbn [snd] in E1.
  assert (Hw1 : active_background_tasks (mgr w1) !! k = Some t).
  { rewrite E1. cbn. apply lookup_insert_eq. }
  pose proof (launch_background_tool_task_present
                tool_use_id k name' factory' t w1 Hk Hw1) as H2.
  assert (E2 : w2 = (launch_background_tool_task tool_use_id name' factory' w1).2)
    by reflexivity.
  rewrite H2 in E2. cbn [snd] in E2.
  destruct (task_wrapper_resume_success env t k payload w2 Hk)
    as (w3' & H3 & Hc & Ha & _ & Ht).
  assert (E3 : w3 = w3') by (unfold w3; by rewrite H3).
  clearbody w1 w2 w3. subst w3'.
  repeat split.
  - rewrite E1. reflexivity.
  - exact H2.
  - rewrite E2, E1. reflexivity.
  - exact H3.
  - rewrite Hc, E2, E1. reflexivity.
  - rewrite Ha. apply lookup_delete_eq.
  - rewrite Ht, E2, E1. reflexivity.
Qed.

(** ** The retrieval protocol of the slow tools *)

Ltac run_handler :=
  unfold cache_pop, launch_background_tool_task, fresh_uuid, except_Exception;
  unfold try_catch, try_finally, mbind, M_bind, lift, get_mgr, py_lower;
  cbn.

Lemma agent_search_cache_hit env content name id query p w :
  agent_search_invocation env content name id query ->
  completed_async_tool_results (mgr w) !! lower name = Some p ->
  handle_agent_search env content w =
    (Ret (result_dict (json_dumps env p) "success"),
     with_trace
       (with_cache w (delete (lower name) (completed_async_tool_results (mgr w))))
       [ELog INFO "[Tool] Invoked for query";
        ELog INFO "[Tool] Attempting cache lookup";
        ELog INFO "[Tool] Available cache keys in 'completed_async_tool_results'";
        ELog INFO "[Tool] Cache HIT. Popping."]).
Proof.
  intros (Hn & Hi & Ht & (text & parsed & Hc & Hp & Hq) & Hqt) Hhit.
  unfold handle_agent_search. run_handler.
  rewrite Hn. cbn. rewrite Hi, Ht. cbn. rewrite Hc, Hp, Hq, Hqt. cbn.
  rewrite Hhit. reflexivity.
Qed.

Lemma agent_search_still_active env content name id query k t w :
  agent_search_invocation env content name id query ->
  to_key id = Ret k ->
  completed_async_tool_results (mgr w) !! lower name = None ->
  active_background_tasks (mgr w) !! k = Some t ->
  handle_agent_search env content w =
    (Ret (result_dict (agent_search_still_working env name query) "success"),
     with_trace w
       [ELog INFO "[Tool] Invoked for query";
        ELog INFO "[Tool] Attempting cache lookup";
        ELog INFO "[Tool] Available cache keys in 'completed_async_tool_results'";
        ELog INFO "[Tool] Cache MISS.";
        ELog INFO "[Tool] Background task for this toolUseId already active. Returning placeholder."]).
Proof.
  intros (Hn & Hi & Ht & (text & parsed & Hc & Hp & Hq) & Hqt) Hk Hmiss Hact.
  unfold handle_agent_search. run_handler.
  rewrite Hn. cbn. rewrite Hi, Ht. cbn. rewrite Hc, Hp, Hq, Hqt. cbn.
  rewrite Hmiss. cbn. rewrite Hk. cbn. rewrite Hact. cbn. rewrite ?Hact.
  reflexivity.
Qed.

Lemma agent_search_launches env content name id query k w :
  agent_search_invocation env content name id query ->
  to_key id = Ret k ->
  completed_async_tool_results (mgr w) !! lower name = None ->
  active_background_tasks (mgr w) !! k = None ->
  let t := {| bt_tool_use_id := id; bt_tool_name := name;
              bt_work := AgentSearchWork query id |} in
  handle_agent_search env content w =
    (Ret (result_dict (agent_search_starting env name query) "success"),
     with_trace
       (with_tasks w (<[k := t]> (active_background_tasks (mgr w))))
       [ELog INFO "[Tool] Invoked for query";
        ELog INFO "[Tool] Attempting cache lookup";
        ELog INFO "[Tool] Available cache keys in 'completed_async_tool_results'";
        ELog INFO "[Tool] Cache MISS.";
        ELog INFO "[Tool] Initiating new background search.";
        ELog INFO "Launching Background Tool Task";
        ECreateTask t;
        ELog INFO "Scheduled background task";
        ELog INFO "Returned from launching Background Tool Task";
        ELog INFO "[Tool] Returning placeholder to Nova Sonic"]).
Proof.
  intros (Hn & Hi & Ht & (text & parsed & Hc & Hp & Hq) & Hqt) Hk Hmiss Hact t.
  unfold handle_agent_search. run_handler.
  rewrite Hn. cbn. rewrite Hi, Ht. cbn. rewrite Hc, Hp, Hq, Hqt. cbn.
  rewrite Hmiss. cbn. rewrite Hk. cbn. rewrite Hact. cbn. rewrite ?Hact.
  reflexivity.
Qed.

Lemma image_analyzer_cache_hit env content name id context p w :
  image_analyzer_invocation env content name id context ->
  completed_async_tool_results (mgr w) !! lower name = Some p ->
  handle_imageanalyzer env content w =
    (Ret (result_dict (dumps_or_str env p) "success"),
     with_trace
       (with_cache w (delete (lower name) (completed_async_tool_results (mgr w))))
       [ELog INFO "[Tool] Invoked.";
        ELog INFO "[Tool] Attempting cache lookup";
        ELog INFO "[Tool] Available cache keys";
        ELog INFO "[Tool] Cache HIT. Popping and returning."]).
Proof.
  intros (Hn & Hi & Ht & (text & parsed & Hc & Hp & Hq)) Hhit.
  unfold handle_imageanalyzer. run_handler.
  rewrite Hn. cbn. rewrite Hi, Ht. cbn. rewrite Hc, Hp, Hq. cbn.
  rewrite Hhit. reflexivity.
Qed.

Lemma image_analyzer_still_active env content name id context k t w :
  image_analyzer_invocation env content name id context ->
  to_key id = Ret k ->
  completed_async_tool_results (mgr w) !! lower name = None ->
  active_background_tasks (mgr w) !! k = Some t ->
  handle_imageanalyzer env content w =
    (Ret (result_dict image_analyzer_still_processing "success"),
     with_trace w
       [ELog INFO "[Tool] Invoked.";
        ELog INFO "[Tool] Attempting cache lookup";
        ELog INFO "[Tool] Available cache keys";
        ELog INFO "[Tool] Cache MISS.";
        ELog INFO "[Tool] Background task for this Nova Sonic toolUseId is already active. Returning placeholder."]).
Proof.
  intros (Hn & Hi & Ht & (text & parsed & Hc & Hp & Hq)) Hk Hmiss Hact.
  unfold handle_imageanalyzer. run_handler.
  rewrite Hn. cbn. rewrite Hi, Ht. cbn. rewrite Hc, Hp, Hq. cbn.
  rewrite Hmiss. cbn. rewrite Hk. cbn. rewrite Hact. reflexivity.
Qed.

Lemma image_analyzer_launches env content name id context k w :
  image_analyzer_invocation env content name id context ->
  to_key id = Ret k ->
  completed_async_tool_results (mgr w) !! lower name = None ->
  active_background_tasks (mgr w) !! k = None ->
  let t := {| bt_tool_use_id := id; bt_tool_name := name;
              bt_work := ImageAnalysisWork (uuid4 env (uuid_calls w)) context |} in
  handle_imageanalyzer env content w =
    (Ret (result_dict (image_analyzer_starting env context) "success"),
     with_trace
       {| mgr := set_active_background_tasks
                   (<[k := t]> (active_background_tasks (mgr w))) (mgr w);
          trace := trace w;
          uuid_calls := S (uuid_calls w) |}
       [ELog INFO "[Tool] Invoked.";
        ELog INFO "[Tool] Attempting cache lookup";
        ELog INFO "[Tool] Available cache keys";
        ELog INFO "[Tool] Cache MISS.";
        ELog INFO "[Tool] Initiating new background image analysis.";
        ECreateTask t;
        ELog INFO "Scheduled background task";
        ELog INFO "[Tool] Returning placeholder to Nova Sonic"]).
Proof.
  intros (Hn & Hi & Ht & (text & parsed & Hc & Hp & Hq)) Hk Hmiss Hact t.
  unfold handle_imageanalyzer. run_handler.
  rewrite Hn. cbn. rewrite Hi, Ht. cbn. rewrite Hc, Hp, Hq. cbn.
  rewrite Hmiss. cbn. rewrite Hk. cbn. rewrite Hact. cbn. rewrite ?Hact.
  reflexivity.
Qed.

(** C1, as the code has it: for every invocation that passes the input
    checks of the agentSearch handler and carries a hashable id, the
    handler looks at the result cache under the lower-cased tool name and,
    if a result is there, pops it and returns it with status [success];
    else, if a background task is active for the invocation id, it
    returns the still-working placeholder with status [success] and
    starts nothing; else it launches a background task and returns the
    starting placeholder with status [success].  In particular the same
    invocation made again before completion gets the still-working
    placeholder, and after the background task completed a further
    invocation returns the cached payload and leaves no entry for the
    tool name. *)
Theorem agent_search_retrieval_protocol
    (env : Env) (content : json) (name : string) (id query : json)
    (k : pykey) (w : World) :
  agent_search_invocation env content name id query ->
  to_key id = Ret k ->
  let key := lower name in
  let t := {| bt_tool_use_id := id; bt_tool_name := name;
              bt_work := AgentSearchWork query id |} in
  let cache := completed_async_tool_results (mgr w) in
  let tasks := active_background_tasks (mgr w) in
  (forall p, cache !! key = Some p ->
     exists w',
       handle_agent_search env content w
         = (Ret (result_dict (json_dumps env p) "success"), w')
       /\ completed_async_tool_results (mgr w') = delete key cache
       /\ active_background_tasks (mgr w') = tasks
       /\ created_tasks (trace w') = created_tasks (trace w))
  /\ (forall t0, cache !! key = None -> tasks !! k = Some t0 ->
     exists w',
       handle_agent_search env content w
         = (Ret (result_dict (agent_search_still_working env name query) "success"),
            w')
       /\ mgr w' = mgr w
       /\ created_tasks (trace w') = created_tasks (trace w))
  /\ (cache !! key = None -> tasks !! k = None ->
     exists w',
       handle_agent_search env content w
         = (Ret (result_dict (agent_search_starting env name query) "success"),
            w')
       /\ active_background_tasks (mgr w') = <[k := t]> tasks
       /\ completed_async_tool_results (mgr w') = cache
       /\ created_tasks (trace w') = t :: created_tasks (trace w))
  /\ (cache !! key = None -> tasks !! k = None -> forall payload,
       let w1 := (handle_agent_search env content w).2 in
       let second := handle_agent_search env content w1 in
       let w3 := (task_wrapper_resume env t (Ret payload) second.2).2 in
       let third := handle_agent_search env content w3 in
       second.1
         = Ret (result_dict (agent_search_still_working env name query) "success")
       /\ mgr second.2 = mgr w1
       /\ third.1 = Ret (result_dict (json_dumps env payload) "success")
       /\ completed_async_tool_results (mgr third.2) !! key = None).
Proof.
  intros Hinv Hk key t cache tasks.
  split; [|split; [|split]].
  - intros p Hhit.
    rewrite (agent_search_cache_hit env content name id query p w Hinv Hhit).
    eexists. split; [reflexivity|]. by cbn.
  - intros t0 Hmiss Hact.
    rewrite (agent_search_still_active env content name id query k t0 w
               Hinv Hk Hmiss Hact).
    eexists. split; [reflexivity|]. by cbn.
  - intros Hmiss Hact.
    rewrite (agent_search_launches env content name id query k w
               Hinv Hk Hmiss Hact).
    eexists. split; [reflexivity|]. by cbn.
  - intros Hmiss Hact payload.
    rewrite (agent_search_launches env content name id query k w
               Hinv Hk Hmiss Hact).
    cbn [snd]. fold t.
    set (w1 := with_trace (with_tasks w (<[k:=t]> (active_background_tasks (mgr w)))) _).
    assert (Hmiss1 : completed_async_tool_results (mgr w1) !! lower name = None)
      by exact Hmiss.
    assert (Hact1 : active_background_tasks (mgr w1) !! k = Some t)
      by (cbn; apply lookup_insert_eq).
    rewrite (agent_search_still_active env content name id query k t w1
               Hinv Hk Hmiss1 Hact1).
    cbn [fst snd].
    set (w2 := with_trace w1 _).
    destruct (task_wrapper_resume_success env t k payload w2 Hk)
      as (w3 & H3 & Hc & _).
    rewrite H3. cbn [snd].
    assert (Hhit : completed_async_tool_results (mgr w3) !! lower name = Some payload)
      by (rewrite Hc; apply lookup_insert_eq).
    rewrite (agent_search_cache_hit env content name id query payload w3 Hinv Hhit).
    cbn [fst snd].
    repeat split. cbn. apply lookup_delete_eq.
Qed.

(** C3, as the code has it: the result cache is consumed on read.  If a
    result is cached under tool name T, the first later invocation of
    T's handler that passes its input checks (a tool-use id that is
    present and not empty, a content that parses to a JSON object, which
    for agentSearch holds a non-empty query) removes the entry and
    returns it; a second such invocation, with no completion in between,
    finds no entry and takes the placeholder path (still working, or a
    new launch), so the cached result is never returned twice.  The cache
    holds one slot per tool name: a completion for T replaces what the
    slot held. *)
Theorem cached_result_consumed_on_read
    (env : Env) (p : json) (w : World)
    (content content2 : json) (name : string) (id query id2 query2 : json)
    (k2 : pykey)
    (icontent icontent2 : json) (iname : string) (iid icontext iid2 icontext2 : json)
    (ik2 : pykey) :
  agent_search_invocation env content name id query ->
  agent_search_invocation env content2 name id2 query2 ->
  to_key id2 = Ret k2 ->
  image_analyzer_invocation env icontent iname iid icontext ->
  image_analyzer_invocation env icontent2 iname iid2 icontext2 ->
  to_key iid2 = Ret ik2 ->
  (completed_async_tool_results (mgr w) !! lower name = Some p ->
   let first := handle_agent_search env content w in
   let second := handle_agent_search env content2 first.2 in
   first.1 = Ret (result_dict (json_dumps env p) "success")
   /\ completed_async_tool_results (mgr first.2)
      = delete (lower name) (completed_async_tool_results (mgr w))
   /\ (second.1
         = Ret (result_dict (agent_search_still_working env name query2) "success")
       \/ second.1
         = Ret (result_dict (agent_search_starting env name query2) "success"))
   /\ completed_async_tool_results (mgr second.2) !! lower name = None)
  /\
  (completed_async_tool_results (mgr w) !! lower iname = Some p ->
   let first := handle_imageanalyzer env icontent w in
   let second := handle_imageanalyzer env icontent2 first.2 in
   first.1 = Ret (result_dict (dumps_or_str env p) "success")
   /\ completed_async_tool_results (mgr first.2)
      = delete (lower iname) (completed_async_tool_results (mgr w))
   /\ (second.1 = Ret (result_dict image_analyzer_still_processing "success")
       \/ second.1
         = Ret (result_dict (image_analyzer_starting env icontext2) "success"))
   /\ completed_async_tool_results (mgr second.2) !! lower iname = None)
  /\
  (forall (t : BackgroundTask) (k : pykey) (payload : json),
     to_key (bt_tool_use_id t) = Ret k ->
     completed_async_tool_results
       (mgr (task_wrapper_resume env t (Ret payload) w).2)
     = <[lower (bt_tool_name t) := payload]> (completed_async_tool_results (mgr w))).
Proof.
  intros Hinv Hinv2 Hk2 Hiinv Hiinv2 Hik2.
  split; [|split].
  - intros Hhit.
    rewrite (agent_search_cache_hit env content name id query p w Hinv Hhit).
    cbn [fst snd].
    set (w1 := with_trace _ _).
    assert (Hmiss : completed_async_tool_results (mgr w1) !! lower name = None)
      by (cbn; apply lookup_delete_eq).
    split; [reflexivity|]. split; [reflexivity|].
    destruct (active_background_tasks (mgr w1) !! k2) as [t0|] eqn:Hact.
    + rewrite (agent_search_still_active env content2 name id2 query2 k2 t0 w1
                 Hinv2 Hk2 Hmiss Hact).
      split; [by left|exact Hmiss].
    + rewrite (agent_search_launches env content2 name id2 query2 k2 w1
                 Hinv2 Hk2 Hmiss Hact).
      split; [by right|exact Hmiss].
  - intros Hhit.
    rewrite (image_analyzer_cache_hit env icontent iname iid icontext p w Hiinv Hhit).
    cbn [fst snd].
    set (w1 := with_trace _ _).
    assert (Hmiss : completed_async_tool_results (mgr w1) !! lower iname = None)
      by (cbn; apply lookup_delete_eq).
    split; [reflexivity|]. split; [reflexivity|].
    destruct (active_background_tasks (mgr w1) !! ik2) as [t0|] eqn:Hact.
    + rewrite (image_analyzer_still_active env icontent2 iname iid2 icontext2 ik2 t0 w1
                 Hiinv2 Hik2 Hmiss Hact).
      split; [by left|exact Hmiss].
    + rewrite (image_analyzer_launches env icontent2 iname iid2 icontext2 ik2 w1
                 Hiinv2 Hik2 Hmiss Hact).
      split; [by right|exact Hmiss].
  - intros t k payload Hk.
    destruct (task_wrapper_resume_success env t k payload w Hk) as (w' & H & Hc & _).
    by rewrite H.
Qed.

(** ** Receive errors in the response loop *)

Lemma process_responses_finally_spec (w : World) :
  exists w',
    process_responses_finally w = (Ret (), w')
    /\ output_queue (mgr w') = (output_queue (mgr w) ++ [JNull])%list
    /\ is_active (mgr w') = false.
Proof.
  unfold process_responses_finally, mbind, M_bind, get_mgr. cbn.
  destruct (is_active (mgr w)) eqn:Hactive; cbn.
  - eexists. split; [reflexivity|]. by cbn.
  - eexists. split; [reflexivity|]. by cbn.
Qed.

Lemma fatal_message_has_first_line (msg : string) :
  is_fatal_bedrock_error msg = true ->
  first_line msg = Ret (up_to_line_break msg).
Proof.
  destruct msg as [|c rest]; [discriminate|reflexivity].
Qed.

Lemma loop_turn_receive_error env handlers u cls msg w :
  u = AwaitOutputRaises (Exn cls msg) \/ u = ReceiveRaises (Exn cls msg) ->
  cls <> StopAsyncIteration ->
  loop_turn env handlers u w = (Ret false, after_receive_error msg w).
Proof.
  intros Hu Hcls.
  unfold after_receive_error.
  assert (Hturn : loop_turn env handlers u w =
            (match Exn cls msg with
             | Exn StopAsyncIteration _ =>
                 log INFO "Bedrock stream ended (StopAsyncIteration)";;
                 mret false
             | CancelledError =>
                 log INFO "Bedrock response processing task cancelled";;
                 modify_mgr (set_is_active false);;
                 raise CancelledError
             | Exn _ error_message_str =>
                 log ERROR "Error receiving response from Bedrock";;
                 (if is_fatal_bedrock_error error_message_str then
                    message ← lift (first_line error_message_str);
                    queue_put (fatal_error_payload message);;
                    log INFO "Sent fatal Bedrock stream error to frontend."
                  else mret ());;
                 modify_mgr (set_is_active false);;
                 mret false
             end) w)
    by (destruct Hu as [-> | ->]; reflexivity).
  rewrite Hturn. clear Hturn Hu.
  destruct cls; try congruence;
    unfold mbind, M_bind, lift;
    cbn -[is_fatal_bedrock_error first_line up_to_line_break];
    (destruct (is_fatal_bedrock_error msg) eqn:Hfatal;
     [rewrite (fatal_message_has_first_line msg Hfatal)|]; reflexivity).
Qed.

Lemma loop_turn_exception_ends env handlers u e w :
  u = AwaitOutputRaises e \/ u = ReceiveRaises e ->
  exists w1,
    loop_turn env handlers u w = (Ret false, w1)
    \/ loop_turn env handlers u w = (Raise CancelledError, w1).
Proof.
  intros Hu. destruct e as [cls msg|].
  - destruct (decide (cls = StopAsyncIteration)) as [->|Hcls].
    + eexists. left. destruct Hu as [-> | ->]; reflexivity.
    + eexists. left. by apply (loop_turn_receive_error env handlers u cls msg).
  - eexists. right. destruct Hu as [-> | ->]; reflexivity.
Qed.

Lemma process_responses_exception_ends env handlers u e rest w :
  u = AwaitOutputRaises e \/ u = ReceiveRaises e ->
  exists r w',
    _process_responses env handlers (u :: rest) w = (r, w')
    /\ r <> Ret false
    /\ is_active (mgr w') = false.
Proof.
  intros Hu.
  unfold _process_responses, observe, mbind, M_bind. cbn.
  destruct (is_active (mgr w)) eqn:Hactive.
  - set (w0 := {| mgr := mgr w; trace := _; uuid_calls := uuid_calls w |}).
    destruct (loop_turn_exception_ends env handlers u e w0 Hu) as (w1 & [H|H]);
      rewrite H; cbn.
    + destruct (process_responses_finally_spec
                  (with_trace w1 [ELog INFO "Bedrock response processing task finished"]))
        as (w2 & Hfin & _ & Hact).
      unfold with_trace in Hfin. cbn in Hfin. rewrite Hfin. cbn.
      eexists _, _. split; [reflexivity|]. by split.
    + destruct (process_responses_finally_spec w1) as (w2 & Hfin & _ & Hact).
      rewrite Hfin. cbn.
      eexists _, _. split; [reflexivity|]. by split.
  - unfold process_responses_finally, mbind, M_bind, get_mgr. cbn.
    rewrite Hactive. cbn.
    eexists _, _. split; [reflexivity|]. by split.
Qed.

(** C6: when a turn of the response loop gets an exception from the
    receive calls, the loop is left at once, whatever upstream would
    answer next, and the session is no longer active.  If the message
    holds one of [Invalid voice ID], [ValidationException], [Error(s):],
    exactly one notification, an [error] event with [fatal: true], has
    been put on the outbound queue; otherwise nothing has.  Whatever is
    raised there, the end of the stream and a cancellation included,
    [_process_responses] ends with the session inactive: the loop never
    tries again. *)
Theorem receive_exception_ends_loop
    (env : Env) (handlers : gmap string handler) (u : upstream)
    (cls : exn_class) (msg : string) (rest : list upstream) (w : World) :
  is_active (mgr w) = true ->
  u = AwaitOutputRaises (Exn cls msg) \/ u = ReceiveRaises (Exn cls msg) ->
  cls <> StopAsyncIteration ->
  (exists w',
     response_loop env handlers (u :: rest) w = (Ret true, w')
     /\ is_active (mgr w') = false
     /\ (is_fatal_bedrock_error msg = true ->
         exists line,
           first_line msg = Ret line
           /\ output_queue (mgr w')
              = (output_queue (mgr w) ++ [fatal_error_payload line])%list
           /\ field_path ["event"; "error"; "fatal"] (fatal_error_payload line)
              = Some (JBool true))
     /\ (is_fatal_bedrock_error msg = false ->
         output_queue (mgr w') = output_queue (mgr w)))
  /\ (forall (e : exn) (u' : upstream) (w0 : World),
        u' = AwaitOutputRaises e \/ u' = ReceiveRaises e ->
        exists r w',
          _process_responses env handlers (u' :: rest) w0 = (r, w')
          /\ r <> Ret false
          /\ is_active (mgr w') = false).
Proof.
  intros Hactive Hu Hcls. split.
  - exists (after_receive_error msg w).
    split.
    + cbn [response_loop]. rewrite Hactive.
      by rewrite (loop_turn_receive_error env handlers u cls msg w Hu Hcls).
    + unfold after_receive_error.
      destruct (is_fatal_bedrock_error msg) eqn:Hfatal.
      * split; [reflexivity|]. split; [|discriminate].
        intros _. exists (up_to_line_break msg).
        split; [by apply fatal_message_has_first_line|]. by split.
      * split; [reflexivity|]. split; [discriminate|]. by intros _.
  - intros e u' w0 Hu'. by apply (process_responses_exception_ends env handlers u' e).
Qed.

(** ** The outbound queue while the loop runs *)

Lemma pns_same_queue {A} (c : M A) :
  (forall w, output_queue (mgr (c w).2) = output_queue (mgr w)) ->
  pushes_no_sentinel c.
Proof.
  intros H w. exists []. rewrite app_nil_r. by split.
Qed.

Lemma pns_ret {A} (a : A) : pushes_no_sentinel (mret a).
Proof. by apply pns_same_queue. Qed.

Lemma pns_raise {A} (e : exn) : pushes_no_sentinel (@raise A e).
Proof. by apply pns_same_queue. Qed.

Lemma pns_lift {A} (r : res A) : pushes_no_sentinel (lift r).
Proof. by apply pns_same_queue. Qed.

Lemma pns_emit (e : effect) : pushes_no_sentinel (emit e).
Proof. by apply pns_same_queue. Qed.

Lemma pns_log lvl msg : pushes_no_sentinel (log lvl msg).
Proof. by apply pns_same_queue. Qed.

Lemma pns_get_mgr : pushes_no_sentinel get_mgr.
Proof. by apply pns_same_queue. Qed.

Lemma pns_modify_mgr (f : Manager -> Manager) :
  (forall m, output_queue (f m) = output_queue m) ->
  pushes_no_sentinel (modify_mgr f).
Proof. intros H. apply pns_same_queue. intros w. apply H. Qed.

Lemma pns_queue_put (x : json) : x <> JNull -> pushes_no_sentinel (queue_put x).
Proof.
  intros Hx w. exists [x]. split; [reflexivity|]. by constructor.
Qed.

Lemma pns_bind {A B} (c : M A) (f : A -> M B) :
  pushes_no_sentinel c ->
  (forall a, pushes_no_sentinel (f a)) ->
  pushes_no_sentinel (c ≫= f).
Proof.
  intros Hc Hf w. unfold mbind, M_bind.
  destruct (Hc w) as (items1 & E1 & F1).
  destruct (c w) as [[a|e] w1]; cbn in *.
  - destruct (Hf a w1) as (items2 & E2 & F2).
    exists (items1 ++ items2)%list. split.
    + by rewrite E2, E1, app_assoc.
    + by apply Forall_app.
  - by exists items1.
Qed.

Lemma pns_bind_lift {A B} (r : res A) (f : A -> M B) :
  (forall a, r = Ret a -> pushes_no_sentinel (f a)) ->
  pushes_no_sentinel (lift r ≫= f).
Proof.
  intros Hf w. unfold mbind, M_bind, lift.
  destruct r as [a|e]; cbn.
  - by apply Hf.
  - exists []. rewrite app_nil_r. by split.
Qed.

Lemma pns_try_catch {A} (body : M A) (handler : exn -> M A) :
  pushes_no_sentinel body ->
  (forall e, pushes_no_sentinel (handler e)) ->
  pushes_no_sentinel (try_catch body handler).
Proof.
  intros Hb Hh w. unfold try_catch.
  destruct (Hb w) as (items1 & E1 & F1).
  destruct (body w) as [[a|e] w1]; cbn in *.
  - by exists items1.
  - destruct (Hh e w1) as (items2 & E2 & F2).
    exists (items1 ++ items2)%list. split.
    + by rewrite E2, E1, app_assoc.
    + by apply Forall_app.
Qed.

Lemma pns_except_Exception {A} (body : M A) (handler : exn_class -> string -> M A) :
  pushes_no_sentinel body ->
  (forall c msg, pushes_no_sentinel (handler c msg)) ->
  pushes_no_sentinel (except_Exception body handler).
Proof.
  intros Hb Hh. apply pns_try_catch; [done|].
  intros [c msg|]; [apply Hh|apply pns_raise].
Qed.

Lemma pns_observe {A} (c : M A) :
  pushes_no_sentinel c -> pushes_no_sentinel (observe c).
Proof.
  intros Hc w. destruct (Hc w) as (items & E & F).
  exists items. unfold observe. by destruct (c w).
Qed.

(** Steps that fit any computation built from the monad's operations;
    a [match] or an [if] is split on what it inspects. *)
Ltac pns_step :=
  first
    [ apply pns_ret | apply pns_raise | apply pns_lift | apply pns_log
    | apply pns_emit | apply pns_get_mgr
    | apply pns_modify_mgr; intros ?; reflexivity
    | apply pns_bind_lift; intros ? ?
    | apply pns_bind; [|intros ?]
    | apply pns_try_catch; [|intros ?]
    | apply pns_except_Exception; [|intros ? ?]
    | match goal with
      | |- pushes_no_sentinel (if ?b then _ else _) => destruct b
      | |- pushes_no_sentinel (match ?x with _ => _ end) => destruct x
      end ].

Ltac pns := repeat pns_step.

(** The same, trying first the lemmas of the functions the computation
    calls. *)
Ltac pns_with tac := repeat first [tac | pns_step].

Lemma pns_time_sleep env secs : pushes_no_sentinel (time_sleep env secs).
Proof. unfold time_sleep. pns. Qed.

Lemma pns_handle_number_race env content :
  pushes_no_sentinel (handle_number_race env content).
Proof. unfold handle_number_race. pns; apply pns_time_sleep. Qed.

Lemma pns_call_weather_agent env prompt :
  pushes_no_sentinel (call_weather_agent env prompt).
Proof. by apply pns_same_queue. Qed.

Lemma pns_handle_get_weather env content :
  pushes_no_sentinel (handle_get_weather env content).
Proof. unfold handle_get_weather. pns; apply pns_call_weather_agent. Qed.

Lemma pns_launch_background_tool_task id name factory :
  pushes_no_sentinel (launch_background_tool_task id name factory).
Proof. unfold launch_background_tool_task. pns. Qed.

Lemma pns_cache_pop key : pushes_no_sentinel (cache_pop key).
Proof. unfold cache_pop. pns. Qed.

Lemma pns_fresh_uuid env : pushes_no_sentinel (fresh_uuid env).
Proof. by apply pns_same_queue. Qed.

Lemma pns_handle_agent_search env content :
  pushes_no_sentinel (handle_agent_search env content).
Proof.
  unfold handle_agent_search.
  pns; first [apply pns_cache_pop | apply pns_launch_background_tool_task].
Qed.

Lemma pns_handle_imageanalyzer env content :
  pushes_no_sentinel (handle_imageanalyzer env content).
Proof.
  unfold handle_imageanalyzer.
  pns; first [apply pns_cache_pop | apply pns_launch_background_tool_task
             | apply pns_fresh_uuid].
Qed.

Lemma tool_handlers_lookup env key h :
  tool_handlers env !! key = Some h ->
  h = Handler (handle_get_weather env)
  \/ h = Handler (handle_number_race env)
  \/ (key = "agentsearch" /\ h = ManagerHandler (handle_agent_search env))
  \/ (key = "imageanalyzer" /\ h = ManagerHandler (handle_imageanalyzer env)).
Proof.
  unfold tool_handlers. intros H.
  apply lookup_insert_Some in H as [[_ <-]|[_ H]]; [by left|].
  apply lookup_insert_Some in H as [[_ <-]|[_ H]]; [by right; left|].
  apply lookup_insert_Some in H as [[<- <-]|[_ H]]; [by right; right; left|].
  apply lookup_insert_Some in H as [[<- <-]|[_ H]]; [by right; right; right|].
  by rewrite lookup_empty in H.
Qed.

Lemma pns_invoke_handler env key h content :
  tool_handlers env !! key = Some h ->
  pushes_no_sentinel (invoke_handler key h content).
Proof.
  intros H. unfold invoke_handler, call_with_manager, call_plain.
  destruct (tool_handlers_lookup env key h H)
    as [-> | [-> | [[-> ->] | [-> ->]]]]; cbn.
  - destruct (_ || _)%bool;
      [apply pns_raise | apply pns_handle_get_weather].
  - destruct (_ || _)%bool;
      [apply pns_raise | apply pns_handle_number_race].
  - apply pns_handle_agent_search.
  - apply pns_handle_imageanalyzer.
Qed.

Lemma pns_processToolUse env name content :
  pushes_no_sentinel (processToolUse env (tool_handlers env) name content).
Proof.
  unfold processToolUse.
  apply pns_bind; [apply pns_log|intros _].
  apply pns_bind; [apply pns_log|intros _].
  apply pns_bind_lift. intros tool_key _.
  destruct (tool_handlers env !! tool_key) as [h|] eqn:Hh; [|pns].
  apply pns_except_Exception; [by apply (pns_invoke_handler env)|intros; pns].
Qed.

Lemma pns_input_stream_send env text :
  pushes_no_sentinel (input_stream_send env text).
Proof. by apply pns_same_queue. Qed.

Lemma pns_send_raw_event env event_data :
  pushes_no_sentinel (send_raw_event env event_data).
Proof. unfold send_raw_event. pns; apply pns_input_stream_send. Qed.

Lemma pns_process_tool_content_end env :
  pushes_no_sentinel (process_tool_content_end env (tool_handlers env)).
Proof.
  unfold process_tool_content_end.
  pns_with ltac:(first [apply pns_processToolUse | apply pns_fresh_uuid
                       | apply pns_send_raw_event]).
Qed.

Lemma pns_process_event env json_data :
  pushes_no_sentinel (process_event env (tool_handlers env) json_data).
Proof.
  unfold process_event. pns_with ltac:(apply pns_process_tool_content_end).
Qed.

Lemma py_in_not_none k v b : py_in k v = Ret b -> v <> JNull.
Proof. by intros H ->. Qed.

Lemma pns_process_response_data env response_data :
  pushes_no_sentinel (process_response_data env (tool_handlers env) response_data).
Proof.
  unfold process_response_data.
  apply pns_try_catch.
  - apply pns_bind_lift. intros json_data _.
    apply pns_bind_lift. intros has_event Hin.
    apply pns_bind.
    + destruct has_event; [apply pns_process_event|apply pns_ret].
    + intros _. apply pns_queue_put. by apply (py_in_not_none "event" _ has_event).
  - intros e. destruct (is_json_decode_error e); [|apply pns_raise].
    apply pns_bind; [apply pns_log|intros _].
    by apply pns_queue_put.
Qed.

Lemma pns_loop_turn env u :
  pushes_no_sentinel (loop_turn env (tool_handlers env) u).
Proof.
  unfold loop_turn.
  apply pns_try_catch.
  - destruct u; pns_with ltac:(apply pns_process_response_data).
  - intros e. pns_with ltac:(by apply pns_queue_put).
Qed.

Lemma pns_response_loop env script :
  pushes_no_sentinel (response_loop env (tool_handlers env) script).
Proof.
  induction script as [|u rest IH]; intros w; cbn [response_loop].
  - exists []. rewrite app_nil_r. by destruct (is_active (mgr w)).
  - destruct (is_active (mgr w)); [|by exists []; rewrite app_nil_r].
    destruct (pns_loop_turn env u w) as (items1 & E1 & F1).
    destruct (loop_turn env (tool_handlers env) u w) as [[[]|e] w1]; cbn in *.
    + destruct (IH w1) as (items2 & E2 & F2).
      exists (items1 ++ items2)%list. split.
      * by rewrite E2, E1, app_assoc.
      * by apply Forall_app.
    + by exists items1.
    + by exists items1.
Qed.

Lemma forwarder_stops_at_sentinel env (rest : list json) (w : World) :
  output_queue (mgr w) = JNull :: rest ->
  forward_responses env w =
    (Ret true,
     with_trace (with_mgr w (set_output_queue rest (mgr w)))
       [ELog DEBUG "FORWARD_TASK: Started for a new WebSocket connection.";
        ELog DEBUG "FORWARD_TASK: Received None from output_queue, terminating forwarder.";
        ELog DEBUG "FORWARD_TASK: Exiting."]).
Proof.
  intros Hq.
  unfold forward_responses, observe, mbind, M_bind, get_mgr. cbn.
  rewrite Hq. reflexivity.
Qed.

(** C7: however [_process_responses] ends (the stream ended, a receive
    call raised, the task was cancelled), it has put exactly one
    sentinel [None] on the outbound queue, after everything the loop put
    there, and the session is no longer active; the forwarder, on
    dequeuing the sentinel, ends without sending anything to the
    websocket. *)
Theorem process_responses_pushes_one_sentinel
    (env : Env) (script : list upstream) (w w' : World) (r : res bool) :
  _process_responses env (tool_handlers env) script w = (r, w') ->
  r <> Ret false ->
  (exists items,
      output_queue (mgr w') = (output_queue (mgr w) ++ items ++ [JNull])%list
      /\ Forall (fun x => x <> JNull) items)
  /\ is_active (mgr w') = false
  /\ (forall (rest : list json) (w0 : World),
        output_queue (mgr w0) = JNull :: rest ->
        exists w1,
          forward_responses env w0 = (Ret true, w1)
          /\ output_queue (mgr w1) = rest
          /\ websocket_sends (trace w1) = websocket_sends (trace w0)).
Proof.
  intros Hrun Hexit.
  assert (Hloop : exists items,
             output_queue (mgr w') = (output_queue (mgr w) ++ items ++ [JNull])%list
             /\ Forall (fun x => x <> JNull) items
             /\ is_active (mgr w') = false).
  { unfold _process_responses, observe, mbind, M_bind in Hrun. cbn in Hrun.
    set (w0 := {| mgr := mgr w; trace := _; uuid_calls := uuid_calls w |}) in Hrun.
    destruct (pns_response_loop env script w0) as (items & E & F).
    destruct (response_loop env (tool_handlers env) script w0) as [[[]|e] w1];
      cbn in Hrun, E.
    - destruct (process_responses_finally_spec
                  (with_trace w1 [ELog INFO "Bedrock response processing task finished"]))
        as (w2 & Hfin & Hq & Hact).
      unfold with_trace in Hfin. cbn in Hfin. rewrite Hfin in Hrun. cbn in Hrun.
      injection Hrun as <- <-.
      exists items. rewrite Hq. cbn. rewrite E. by rewrite app_assoc.
    - injection Hrun as <- <-. by destruct Hexit.
    - destruct (process_responses_finally_spec w1) as (w2 & Hfin & Hq & Hact).
      rewrite Hfin in Hrun. cbn in Hrun.
      injection Hrun as <- <-.
      exists items. rewrite Hq, E. by rewrite app_assoc. }
  destruct Hloop as (items & Hq & Hitems & Hact).
  split; [by exists items|]. split; [exact Hact|].
  intros rest w0 Hq0.
  rewrite (forwarder_stops_at_sentinel env rest w0 Hq0).
  eexists. split; [reflexivity|]. by cbn.
Qed.

(* ===================================================================== *)
(** * Instances *)
(* ===================================================================== *)

(** The claim as first stated for C1 -- every invocation consults the
    cache first -- fails on an invocation with an empty query: a result
    is cached under the tool name, yet the handler answers with status
    [error] and leaves the cache as it is. *)
Lemma agent_search_empty_query_skips_cache :
  completed_async_tool_results (mgr world_with_search_result) !! lower "agentSearch"
    = Some search_result
  /\ handle_agent_search example_env empty_query_invocation world_with_search_result
     = (Ret (result_dict "Please provide a query for agentSearch." "error"),
        with_trace world_with_search_result [ELog WARNING "[Tool] Empty query."])
  /\ ~ (exists w',
          handle_agent_search example_env empty_query_invocation
            world_with_search_result
          = (Ret (result_dict (json_dumps example_env search_result) "success"), w')).
Proof.
  split; [reflexivity|].
  assert (H : handle_agent_search example_env empty_query_invocation
                world_with_search_result
              = (Ret (result_dict "Please provide a query for agentSearch." "error"),
                 with_trace world_with_search_result
                   [ELog WARNING "[Tool] Empty query."]))
    by reflexivity.
  split; [exact H|].
  intros [w' Hw']. rewrite H in Hw'. discriminate Hw'.
Qed.

(** The claim as first stated for C3 -- the first invocation after a
    result was cached pops it -- fails on an imageAnalyzer invocation
    whose input text is not JSON: the handler answers with status
    [error] and the cached result stays. *)
Lemma image_analyzer_malformed_input_keeps_cache :
  completed_async_tool_results (mgr world_with_image_result) !! lower "imageAnalyzer"
    = Some image_result
  /\ handle_imageanalyzer example_env malformed_input_invocation world_with_image_result
     = (Ret (result_dict "Error: Invalid input format for imageAnalyzer tool." "error"),
        with_trace world_with_image_result [ELog ERROR "[Tool] Invalid JSON in input"])
  /\ ~ (exists w',
          handle_imageanalyzer example_env malformed_input_invocation
            world_with_image_result
          = (Ret (result_dict (dumps_or_str example_env image_result) "success"), w')).
Proof.
  split; [reflexivity|].
  assert (H : handle_imageanalyzer example_env malformed_input_invocation
                world_with_image_result
              = (Ret (result_dict
                        "Error: Invalid input format for imageAnalyzer tool." "error"),
                 with_trace world_with_image_result
                   [ELog ERROR "[Tool] Invalid JSON in input"]))
    by reflexivity.
  split; [exact H|].
  intros [w' Hw']. rewrite H in Hw'. discriminate Hw'.
Qed.

(** The numberRace handler on the two inputs of C8. *)
Lemma number_race_scenarios_witness :
  handle_number_race example_env
    (tool_use "numberRace" "id-1" (object_text "number" "3")) initial_world
  = (Ret (result_dict "I am done waiting for 3 seconds." "success"),
     with_trace initial_world
       [ELog INFO "[Tool:numberRace] Called with input";
        ELog INFO "[Tool:numberRace] Starting sleep";
        ESleep 3;
        ELog INFO "[Tool:numberRace] Finished waiting"])
  /\ handle_number_race example_env
       (tool_use "numberRace" "id-2" (object_text "number" (quoted "abc")))
       initial_world
     = (Ret (result_dict
               "The input 'abc' is not a valid integer for the number race."
               "error"),
        with_trace initial_world
          [ELog INFO "[Tool:numberRace] Called with input";
           ELog WARNING "[Tool:numberRace] Invalid number provided"]).
Proof.
  split.
  - refine (proj1 (number_race_scenarios example_env
                     (tool_use "numberRace" "id-1" (object_text "number" "3"))
                     (JStr (object_text "number" "3"))
                     (JObj [("number", JInt 3)]) initial_world _ _) _);
      reflexivity.
  - refine (proj2 (number_race_scenarios example_env
                     (tool_use "numberRace" "id-2"
                        (object_text "number" (quoted "abc")))
                     (JStr (object_text "number" (quoted "abc")))
                     (JObj [("number", JStr "abc")]) initial_world _ _) _);
      reflexivity.
Defined.

(** A tool the registry does not know. *)
Lemma processToolUse_unknown_tool_witness :
  tool_handlers example_env !! lower "translateText" = None
  /\ processToolUse example_env (tool_handlers example_env) (JStr "translateText")
       (tool_use "translateText" "id-1" "{}") initial_world
     = (Ret (result_dict
               "Tool translateText is not implemented or recognized by the backend."
               "error"),
        with_trace initial_world
          [ELog INFO "Processing Tool Use";
           ELog DEBUG "Tool Use Content";
           ELog WARNING "No handler registered for tool"]).
Proof.
  split; [reflexivity|].
  apply (processToolUse_unknown_tool example_env (tool_handlers example_env)
           "translateText" (tool_use "translateText" "id-1" "{}") initial_world).
  reflexivity.
Defined.

(** The agentSearch handler raises when the tool-use content is not a
    dict; [processToolUse] turns that into the uniform payload. *)
Lemma processToolUse_catches_handler_exception_witness :
  tool_handlers example_env !! lower "agentSearch"
    = Some (ManagerHandler (handle_agent_search example_env))
  /\ processToolUse example_env (tool_handlers example_env) (JStr "agentSearch")
       (JStr "not a dict") initial_world
     = (Ret (result_dict
               "An unexpected error occurred while executing tool agentSearch."
               "error"),
        with_trace initial_world
          [ELog INFO "Processing Tool Use";
           ELog DEBUG "Tool Use Content";
           ELog ERROR "Error executing tool via its handler"]).
Proof.
  split; [reflexivity|].
  refine (proj1 (processToolUse_catches_handler_exception example_env
                   (tool_handlers example_env) "agentSearch"
                   (ManagerHandler (handle_agent_search example_env))
                   (JStr "not a dict") initial_world
                   (with_trace initial_world
                      [ELog INFO "Processing Tool Use"; ELog DEBUG "Tool Use Content"])
                   AttributeError "'str' object has no attribute 'get'" _ _));
    reflexivity.
Defined.

(** A delivery for an operation nobody waits for. *)
Lemma deliver_screenshot_data_unknown_id_witness :
  to_key (JStr "op-1") = Ret (KStr "op-1")
  /\ pending_screenshot_events (mgr initial_world) !! KStr "op-1" = None
  /\ exists w',
       deliver_screenshot_data (JStr "op-1") (JStr "data:image/png;base64,AAAA") JNull
         initial_world = (Ret (), w')
       /\ mgr w' = mgr initial_world.
Proof.
  split; [reflexivity|]. split; [reflexivity|].
  destruct (proj1 (deliver_screenshot_data_unknown_id (JStr "op-1")
                     (JStr "data:image/png;base64,AAAA") JNull (KStr "op-1")
                     initial_world eq_refl eq_refl))
    as (w' & Hrun & Hmgr & _).
  exists w'. by split.
Defined.

(** Two launches for one id, then the completion. *)
Lemma launch_background_tool_task_at_most_one_witness :
  to_key (JStr "id-1") = Ret (KStr "id-1")
  /\ active_background_tasks (mgr initial_world) !! KStr "id-1" = None
  /\ created_tasks (trace launched_twice) = [search_X_task]
  /\ completed_async_tool_results (mgr launched_then_completed)
     = <["agentsearch" := search_result]> ∅
  /\ active_background_tasks (mgr launched_then_completed) !! KStr "id-1" = None.
Proof.
  pose proof (launch_background_tool_task_at_most_one example_env
                (JStr "id-1") (KStr "id-1") "agentSearch" "agentSearch"
                (AgentSearchWork (JStr "X") (JStr "id-1"))
                (AgentSearchWork (JStr "Y") (JStr "id-1"))
                search_result initial_world eq_refl eq_refl)
    as (_ & _ & Hcreated & _ & Hcache & Hgone & _).
  split; [reflexivity|]. split; [reflexivity|].
  split; [exact Hcreated|]. split; [exact Hcache|exact Hgone].
Defined.

(** An agentSearch invocation with the query [X]. *)
Lemma search_X_is_an_invocation (id : string) :
  id <> "" ->
  agent_search_invocation example_env
    (tool_use "agentSearch" id (object_text "query" (quoted "X")))
    "agentSearch" (JStr id) (JStr "X").
Proof.
  intros Hid. unfold agent_search_invocation.
  split; [reflexivity|]. split; [reflexivity|]. split.
  - cbn. destruct id; [by destruct Hid|reflexivity].
  - split; [|reflexivity].
    exists (JStr (object_text "query" (quoted "X"))), (JObj [("query", JStr "X")]).
    by repeat split.
Defined.

Lemma analyze_chart_is_an_invocation (id : string) :
  id <> "" ->
  image_analyzer_invocation example_env
    (tool_use "imageAnalyzer" id (object_text "context" (quoted "the chart")))
    "imageAnalyzer" (JStr id) (JStr "the chart").
Proof.
  intros Hid. unfold image_analyzer_invocation.
  split; [reflexivity|]. split; [reflexivity|]. split.
  - cbn. destruct id; [by destruct Hid|reflexivity].
  - exists (JStr (object_text "context" (quoted "the chart"))),
      (JObj [("context", JStr "the chart")]).
    by repeat split.
Defined.

(** The scenario of C1 from the initial world: start, still working,
    completion, retrieval. *)
Lemma agent_search_retrieval_protocol_witness :
  agent_search_invocation example_env search_X_invocation "agentSearch"
    (JStr "id-1") (JStr "X")
  /\ to_key (JStr "id-1") = Ret (KStr "id-1")
  /\ search_started.1
     = Ret (result_dict
              (agent_search_starting example_env "agentSearch" (JStr "X")) "success")
  /\ search_asked_again.1
     = Ret (result_dict
              (agent_search_still_working example_env "agentSearch" (JStr "X"))
              "success")
  /\ search_retrieved.1
     = Ret (result_dict (json_dumps example_env search_result) "success")
  /\ completed_async_tool_results (mgr search_retrieved.2) !! lower "agentSearch"
     = None.
Proof.
  assert (Hinv : agent_search_invocation example_env search_X_invocation
                   "agentSearch" (JStr "id-1") (JStr "X"))
    by (apply search_X_is_an_invocation; discriminate).
  pose proof (agent_search_retrieval_protocol example_env search_X_invocation
                "agentSearch" (JStr "id-1") (JStr "X") (KStr "id-1") initial_world
                Hinv eq_refl)
    as (_ & _ & Hlaunch & Hscenario).
  destruct (Hlaunch eq_refl eq_refl) as (w' & Hfirst & _).
  destruct (Hscenario eq_refl eq_refl search_result)
    as (Hsecond & _ & Hthird & Hempty).
  split; [exact Hinv|]. split; [reflexivity|].
  split; [by unfold search_started; rewrite Hfirst|].
  split; [exact Hsecond|]. split; [exact Hthird|exact Hempty].
Defined.

(** A cached result is returned to the first invocation and not to
    the second, for either slow tool. *)
Lemma cached_result_consumed_on_read_witness :
  agent_search_invocation example_env search_X_invocation "agentSearch"
    (JStr "id-1") (JStr "X")
  /\ image_analyzer_invocation example_env analyze_chart_invocation "imageAnalyzer"
       (JStr "id-2") (JStr "the chart")
  /\ search_read_once.1
     = Ret (result_dict (json_dumps example_env search_result) "success")
  /\ completed_async_tool_results (mgr search_read_twice.2) !! lower "agentSearch"
     = None
  /\ search_read_twice.1 <> search_read_once.1
  /\ image_read_once.1
     = Ret (result_dict (dumps_or_str example_env image_result) "success")
  /\ completed_async_tool_results (mgr image_read_twice.2) !! lower "imageAnalyzer"
     = None
  /\ image_read_twice.1 <> image_read_once.1.
Proof.
  assert (Hs : agent_search_invocation example_env search_X_invocation "agentSearch"
                 (JStr "id-1") (JStr "X"))
    by (apply search_X_is_an_invocation; discriminate).
  assert (Ha : image_analyzer_invocation example_env analyze_chart_invocation
                 "imageAnalyzer" (JStr "id-2") (JStr "the chart"))
    by (apply analyze_chart_is_an_invocation; discriminate).
  pose proof (cached_result_consumed_on_read example_env search_result
                world_with_search_result
                search_X_invocation search_X_invocation "agentSearch"
                (JStr "id-1") (JStr "X") (JStr "id-1") (JStr "X") (KStr "id-1")
                analyze_chart_invocation analyze_chart_invocation "imageAnalyzer"
                (JStr "id-2") (JStr "the chart") (JStr "id-2") (JStr "the chart")
                (KStr "id-2")
                Hs Hs eq_refl Ha Ha eq_refl) as (Hsearch & _ & _).
  pose proof (cached_result_consumed_on_read example_env image_result
                world_with_image_result
                search_X_invocation search_X_invocation "agentSearch"
                (JStr "id-1") (JStr "X") (JStr "id-1") (JStr "X") (KStr "id-1")
                analyze_chart_invocation analyze_chart_invocation "imageAnalyzer"
                (JStr "id-2") (JStr "the chart") (JStr "id-2") (JStr "the chart")
                (KStr "id-2")
                Hs Hs eq_refl Ha Ha eq_refl) as (_ & Hanalyze & _).
  destruct (Hsearch eq_refl) as (Hs1 & _ & Hs2 & Hs3).
  destruct (Hanalyze eq_refl) as (Ha1 & _ & Ha2 & Ha3).
  assert (Es1 : search_read_once.1
                = Ret (result_dict (json_dumps example_env search_result) "success"))
    by exact Hs1.
  assert (Es2 : search_read_twice.1
                = Ret (result_dict
                         (agent_search_still_working example_env "agentSearch"
                            (JStr "X")) "success")
                \/ search_read_twice.1
                   = Ret (result_dict
                            (agent_search_starting example_env "agentSearch"
                               (JStr "X")) "success"))
    by exact Hs2.
  assert (Ea1 : image_read_once.1
                = Ret (result_dict (dumps_or_str example_env image_result) "success"))
    by exact Ha1.
  assert (Ea2 : image_read_twice.1
                = Ret (result_dict image_analyzer_still_processing "success")
                \/ image_read_twice.1
                   = Ret (result_dict
                            (image_analyzer_starting example_env (JStr "the chart"))
                            "success"))
    by exact Ha2.
  split; [exact Hs|]. split; [exact Ha|].
  split; [exact Es1|]. split; [exact Hs3|].
  split; [rewrite Es1; destruct Es2 as [E|E]; rewrite E; discriminate|].
  split; [exact Ea1|]. split; [exact Ha3|].
  rewrite Ea1; destruct Ea2 as [E|E]; rewrite E; discriminate.
Defined.

(** A fatal and a non-fatal receive error, each followed by more input
    that the loop never reads. *)
Lemma receive_exception_ends_loop_witness :
  is_active (mgr streaming_world) = true
  /\ (exists w',
        response_loop example_env (tool_handlers example_env)
          [ReceiveRaises (Exn OtherException "ValidationException: unknown voice");
           Received "null"] streaming_world = (Ret true, w')
        /\ is_active (mgr w') = false
        /\ output_queue (mgr w')
           = [fatal_error_payload "ValidationException: unknown voice"])
  /\ (exists w',
        response_loop example_env (tool_handlers example_env)
          [AwaitOutputRaises (Exn ConnectionError "connection reset");
           Received "null"] streaming_world = (Ret true, w')
        /\ is_active (mgr w') = false
        /\ output_queue (mgr w') = []).
Proof.
  split; [reflexivity|]. split.
  - destruct (proj1 (receive_exception_ends_loop example_env
                       (tool_handlers example_env)
                       (ReceiveRaises
                          (Exn OtherException "ValidationException: unknown voice"))
                       OtherException "ValidationException: unknown voice"
                       [Received "null"] streaming_world eq_refl
                       (or_intror eq_refl) ltac:(discriminate)))
      as (w' & Hrun & Hact & Hfatal & _).
    destruct (Hfatal eq_refl) as (line & Hline & Hq & _).
    injection Hline as <-.
    exists w'. by repeat split.
  - destruct (proj1 (receive_exception_ends_loop example_env
                       (tool_handlers example_env)
                       (AwaitOutputRaises (Exn ConnectionError "connection reset"))
                       ConnectionError "connection reset"
                       [Received "null"] streaming_world eq_refl
                       (or_introl eq_refl) ltac:(discriminate)))
      as (w' & Hrun & Hact & _ & Hplain).
    exists w'. split; [exact Hrun|]. split; [exact Hact|]. by apply Hplain.
Defined.

(** The stream ends after one message; the task is cancelled while it
    waits.  Either way the queue ends with the one sentinel. *)
Lemma process_responses_pushes_one_sentinel_witness :
  stream_ended.1 = Ret true
  /\ stream_cancelled.1 = Raise CancelledError
  /\ (exists items,
        output_queue (mgr stream_ended.2) = (items ++ [JNull])%list
        /\ Forall (fun x => x <> JNull) items)
  /\ (exists items,
        output_queue (mgr stream_cancelled.2) = (items ++ [JNull])%list
        /\ Forall (fun x => x <> JNull) items)
  /\ is_active (mgr stream_ended.2) = false
  /\ is_active (mgr stream_cancelled.2) = false.
Proof.
  assert (He : stream_ended.1 = Ret true) by reflexivity.
  assert (Hc : stream_cancelled.1 = Raise CancelledError) by reflexivity.
  destruct (process_responses_pushes_one_sentinel example_env
              [Received (object_text "number" "3"); ReceivedNoValue]
              streaming_world stream_ended.2 stream_ended.1)
    as (Hq1 & Ha1 & _);
    [exact (surjective_pairing stream_ended)|by rewrite He|].
  destruct (process_responses_pushes_one_sentinel example_env
              [AwaitOutputRaises CancelledError]
              streaming_world stream_cancelled.2 stream_cancelled.1)
    as (Hq2 & Ha2 & _);
    [exact (surjective_pairing stream_cancelled)|by rewrite Hc|].
  repeat split; assumption.
Defined.

(** The table of active tasks is keyed by the invocation id: the same
    tool invoked under another id while the first task is unresolved
    gets the starting placeholder again, and a second task is created. *)
Lemma agent_search_other_id_starts_another_task :
  (handle_agent_search example_env
     (tool_use "agentSearch" "id-9" (object_text "query" (quoted "X")))
     search_started.2).1
  = Ret (result_dict
           (agent_search_starting example_env "agentSearch" (JStr "X")) "success")
  /\ List.length
       (created_tasks
          (trace (handle_agent_search example_env
                    (tool_use "agentSearch" "id-9" (object_text "query" (quoted "X")))
                    search_started.2).2))
     = 2%nat.
Proof. split; reflexivity. Qed.

(* ===================================================================== *)
(** * Further properties *)
(* ===================================================================== *)

(** ** Histories *)

Lemma history_cons {B} (f : effect -> option B) e t :
  history f (e :: t) = (history f t ++ option_list (f e))%list.
Proof. unfold history. cbn. destruct (f e); cbn; by rewrite ?app_nil_r. Qed.

Lemma history_with_trace {B} (f : effect -> option B) w es :
  history f (trace (with_trace w es)) = (history f (trace w) ++ omap f es)%list.
Proof.
  unfold with_trace. cbn [trace]. generalize (trace w) as t.
  induction es as [|e es IH]; intros t; cbn [rev_append].
  - by rewrite app_nil_r.
  - rewrite IH, history_cons, <- app_assoc. f_equal. cbn. by destruct (f e).
Qed.

(** ** [int] reads back what [str] writes *)

Lemma rev_app_rev_app (s t u : string) :
  String.rev_app (String.rev_app s t) u = String.rev_app t (s ++ u).
Proof.
  revert t u. induction s as [|a s IH]; intros t u; cbn; [done|].
  by rewrite IH.
Qed.

Lemma string_app_empty_r (s : string) : s ++ "" = s.
Proof.
  induction s as [|a s IH]; [done|].
  change (String a (s ++ "") = String a s). by rewrite IH.
Qed.

Lemma string_rev_involutive (s : string) : String.rev (String.rev s) = s.
Proof.
  unfold String.rev. rewrite rev_app_rev_app. apply string_app_empty_r.
Qed.

Lemma no_py_space_rev_app (s t : string) :
  no_py_space s = true -> no_py_space t = true ->
  no_py_space (String.rev_app s t) = true.
Proof.
  revert t. induction s as [|a s IH]; intros t Hs Ht; cbn in *; [done|].
  apply andb_prop in Hs as [Ha Hs]. apply IH; [done|].
  cbn. by rewrite Ha, Ht.
Qed.

Lemma lstrip_no_py_space (s : string) : no_py_space s = true -> lstrip s = s.
Proof.
  destruct s as [|c s]; cbn; [done|]. intros H.
  apply andb_prop in H as [Hc _]. by destruct (is_py_space c).
Qed.

Lemma strip_no_py_space (s : string) : no_py_space s = true -> strip s = s.
Proof.
  intros H. unfold strip. rewrite (lstrip_no_py_space s H).
  rewrite lstrip_no_py_space; [apply string_rev_involutive|].
  by apply no_py_space_rev_app.
Qed.

Lemma pretty_N_char_digit (r : N) :
  (r < 10)%N -> digit_of (pretty_N_char r) = Some (Z.of_N r).
Proof.
  intros H.
  assert (r = 0 \/ r = 1 \/ r = 2 \/ r = 3 \/ r = 4 \/ r = 5 \/ r = 6
          \/ r = 7 \/ r = 8 \/ r = 9)%N as Hr by lia.
  by repeat destruct Hr as [->|Hr]; [..|subst r].
Qed.

Lemma pretty_N_char_no_space (r : N) : is_py_space (pretty_N_char r) = false.
Proof. unfold pretty_N_char. by repeat case_match. Qed.

Lemma pretty_N_go_no_space (x : N) (s : string) :
  no_py_space s = true -> no_py_space (pretty_N_go x s) = true.
Proof.
  revert s. induction (N.lt_wf_0 x) as [x _ IH]. intros s Hs.
  assert (x = 0 \/ 0 < x)%N as [->|Hx] by lia; [by rewrite pretty_N_go_0|].
  rewrite pretty_N_go_step by done.
  apply IH; [by apply N.div_lt|].
  cbn. by rewrite pretty_N_char_no_space, Hs.
Qed.

(** The digits of [x] in front of [s] are read as [x] appended to what
    was read before. *)
Lemma digits_value_pretty_N_go (x : N) :
  (0 < x)%N ->
  forall s, exists k : Z,
    0 <= k /\
    forall acc b,
      digits_value (pretty_N_go x s) acc b
      = digits_value s (acc * 10 ^ k + Z.of_N x) true.
Proof.
  induction (N.lt_wf_0 x) as [x _ IH]. intros Hx s.
  assert (Hmod : (x `mod` 10 < 10)%N) by (apply N.mod_lt; lia).
  assert (Hdiv : x = (10 * (x `div` 10) + x `mod` 10)%N)
    by (apply N.div_mod; lia).
  rewrite pretty_N_go_step by done.
  destruct (N.eq_0_gt_0_cases (x `div` 10)) as [H0|Hq].
  - rewrite H0, pretty_N_go_0. exists 1. split; [lia|]. intros acc b.
    cbn [digits_value]. rewrite (pretty_N_char_digit _ Hmod).
    f_equal. lia.
  - destruct (IH (x `div` 10)%N) with (s := String (pretty_N_char (x `mod` 10)) s)
      as (k & Hk & E); [by apply N.div_lt|done|].
    exists (k + 1). split; [lia|]. intros acc b.
    rewrite E. cbn [digits_value]. rewrite (pretty_N_char_digit _ Hmod).
    f_equal. rewrite Z.pow_add_r by lia. lia.
Qed.

Lemma pretty_N_go_head (x : N) (s : string) :
  (0 < x)%N ->
  exists r rest, (r < 10)%N /\ pretty_N_go x s = String (pretty_N_char r) rest.
Proof.
  revert s. induction (N.lt_wf_0 x) as [x _ IH]. intros s Hx.
  rewrite pretty_N_go_step by done.
  destruct (N.eq_0_gt_0_cases (x `div` 10)) as [H0|Hq].
  - rewrite H0, pretty_N_go_0. eexists _, _. split; [|reflexivity].
    apply N.mod_lt; lia.
  - apply IH; [by apply N.div_lt|done].
Qed.

Lemma int_of_str_pretty_pos (p : positive) :
  int_of_str (pretty (Z.pos p)) = Some (Z.pos p)
  /\ int_of_str (pretty (Z.neg p)) = Some (Z.neg p).
Proof.
  assert (Hp : (0 < N.pos p)%N) by lia.
  assert (E : pretty (N.pos p) = pretty_N_go (N.pos p) "") by done.
  destruct (digits_value_pretty_N_go (N.pos p) Hp "") as (k & Hk & Hd).
  assert (Hv : digits_value (pretty_N_go (N.pos p) "") 0 false = Some (Z.pos p)).
  { rewrite Hd. cbn. f_equal. }
  assert (Hs : no_py_space (pretty_N_go (N.pos p) "") = true)
    by by apply pretty_N_go_no_space.
  split.
  - change (pretty (Z.pos p)) with (pretty (N.pos p)). rewrite E.
    unfold int_of_str. rewrite (strip_no_py_space _ Hs).
    destruct (pretty_N_go_head (N.pos p) "" Hp) as (r & rest & Hr & Eh).
    rewrite Eh in Hv |- *.
    assert (r = 0 \/ r = 1 \/ r = 2 \/ r = 3 \/ r = 4 \/ r = 5 \/ r = 6
            \/ r = 7 \/ r = 8 \/ r = 9)%N as Hc by lia.
    by repeat destruct Hc as [->|Hc]; [..|subst r].
  - change (pretty (Z.neg p)) with (String "-" (pretty (N.pos p))). rewrite E.
    unfold int_of_str. rewrite strip_no_py_space; [|by cbn [no_py_space]; rewrite Hs].
    cbn [fmap option_fmap option_map]. by rewrite Hv.
Qed.

Lemma int_of_str_pretty (n : Z) : int_of_str (pretty n) = Some n.
Proof.
  destruct n as [|p|p]; [done|apply int_of_str_pretty_pos..].
Qed.

(** ** Exceptions of the dynamic operations *)

Lemma py_get_raises v k d e : py_get v k d = Raise e -> exists c m, e = Exn c m.
Proof. destruct v; cbn; intros [= <-]; eauto. Qed.

Lemma py_getitem_raises v k e : py_getitem v k = Raise e -> exists c m, e = Exn c m.
Proof.
  destruct v; cbn; try (intros [= <-]; eauto).
  case_match; intros [= <-]; eauto.
Qed.

Lemma py_json_loads_raises env v e :
  py_json_loads env v = Raise e -> exists c m, e = Exn c m.
Proof.
  destruct v; cbn; try (intros [= <-]; eauto).
  repeat case_match; intros [= <-]; eauto.
Qed.

Lemma py_int_raises env v e : py_int env v = Raise e -> exists c m, e = Exn c m.
Proof.
  destruct v; cbn; try (intros [= <-]; eauto).
  repeat case_match; intros [= <-]; eauto.
Qed.

Lemma to_key_raises v e : to_key v = Raise e -> exists c m, e = Exn c m.
Proof. destruct v; cbn; intros [= <-]; eauto. Qed.

Lemma py_keys_raises v e : py_keys v = Raise e -> exists c m, e = Exn c m.
Proof. destruct v; cbn; intros [= <-]; eauto. Qed.

Lemma py_get_total v k d x :
  py_get v k d = Ret x -> forall k' d', exists y, py_get v k' d' = Ret y.
Proof. destruct v; try discriminate. intros _ k' d'. cbn. eauto. Qed.

(** ** The numberRace tool, in general *)

Lemma time_sleep_run (env : Env) (n : Z) (w : World) :
  time_sleep env n w =
    match sleep_error env n with
    | Some (cls, msg) => (Raise (Exn cls msg), w)
    | None => (Ret (), with_trace w [ESleep n])
    end.
Proof. unfold time_sleep. by destruct (sleep_error env n) as [[cls msg]|]. Qed.

Lemma sleep_error_sure (env : Env) (n : Z) :
  0 <= n -> n <= longest_sure_sleep -> sleep_error env n = None.
Proof.
  unfold sleep_error, longest_sure_sleep. intros H0 Hn.
  destruct (n * 1000000000 <? - 2 ^ 63)%Z eqn:E1; [lia|].
  destruct (2 ^ 63 - 1 <? n * 1000000000)%Z eqn:E2; [lia|].
  destruct (n <? 0)%Z eqn:E3; [lia|].
  destruct (n <=? 4294967)%Z eqn:E4; [done|lia].
Qed.

Lemma sleep_error_out_of_range (env : Env) (n : Z) :
  n < 0 \/ 2 ^ 63 - 1 < n * 1000000000 ->
  exists cls msg,
    sleep_error env n = Some (cls, msg) /\ is_json_decode_error (Exn cls msg) = false.
Proof.
  unfold sleep_error. intros Hn.
  destruct (n * 1000000000 <? - 2 ^ 63)%Z eqn:E1; [by eexists _, _|].
  destruct (2 ^ 63 - 1 <? n * 1000000000)%Z eqn:E2; [by eexists _, _|].
  destruct (n <? 0)%Z eqn:E3; [by eexists _, _|lia].
Qed.

Lemma sleep_error_platform (env : Env) (n : Z) :
  longest_sure_sleep < n -> n * 1000000000 <= 2 ^ 63 - 1 ->
  sleep_error env n = os_sleep env n.
Proof.
  unfold sleep_error, longest_sure_sleep. intros H0 Hn.
  destruct (n * 1000000000 <? - 2 ^ 63)%Z eqn:E1; [lia|].
  destruct (2 ^ 63 - 1 <? n * 1000000000)%Z eqn:E2; [lia|].
  destruct (n <? 0)%Z eqn:E3; [lia|].
  destruct (n <=? 4294967)%Z eqn:E4; [lia|done].
Qed.

Lemma sleep_error_none_nonneg (env : Env) (n : Z) :
  sleep_error env n = None -> 0 <= n.
Proof.
  unfold sleep_error.
  destruct (n * 1000000000 <? - 2 ^ 63)%Z eqn:E1; [done|].
  destruct (2 ^ 63 - 1 <? n * 1000000000)%Z eqn:E2; [done|].
  destruct (n <? 0)%Z eqn:E3; [done|]. lia.
Qed.

Lemma pretty_N_char_ascii (r : N) : (nat_of_ascii (pretty_N_char r) <? 128)%nat = true.
Proof. unfold pretty_N_char. by repeat case_match. Qed.

Lemma is_ascii_text_app (s t : string) :
  is_ascii_text (s ++ t) = (is_ascii_text s && is_ascii_text t)%bool.
Proof.
  induction s as [|c s IH]; [done|].
  change (is_ascii_text (String c (s ++ t))
          = (is_ascii_text (String c s) && is_ascii_text t)%bool).
  cbn [is_ascii_text]. by rewrite IH, andb_assoc.
Qed.

Lemma pretty_N_go_ascii (x : N) (acc : string) :
  is_ascii_text acc = true -> is_ascii_text (pretty_N_go x acc) = true.
Proof.
  revert acc. induction (N.lt_wf_0 x) as [x _ IH]. intros acc Hacc.
  assert (x = 0 \/ 0 < x)%N as [->|Hx] by lia; [by rewrite pretty_N_go_0|].
  rewrite pretty_N_go_step by done.
  apply IH; [by apply N.div_lt|].
  cbn [is_ascii_text]. by rewrite pretty_N_char_ascii, Hacc.
Qed.

Lemma pretty_Z_ascii (n : Z) : is_ascii_text (pretty n) = true.
Proof.
  assert (HN : forall x : N, is_ascii_text (pretty x) = true).
  { intros x. unfold pretty, pretty_N.
    destruct (decide (x = 0%N)); [done|]. by apply pretty_N_go_ascii. }
  destruct n as [|p|p].
  - done.
  - apply (HN (N.pos p)).
  - change (pretty (Z.neg p)) with (String "-" (pretty (N.pos p))).
    cbn [is_ascii_text]. by rewrite (HN (N.pos p)).
Qed.

(** On a short ASCII text [int] needs no table and no limit. *)
Lemma py_int_of_str_ascii (env : Env) (s : string) :
  is_ascii_text s = true -> (String.length s <= int_max_str_digits)%nat ->
  py_int_of_str env s = int_of_str s.
Proof.
  intros Ha Hl. unfold py_int_of_str. rewrite Ha.
  by apply Nat.leb_le in Hl as ->.
Qed.

(** X1: the numberRace handler takes the number as a JSON integer or as
    a text of ASCII characters that [int] reads (blanks around it, a
    sign, single underscores between digits), printed in no more than
    4300 characters.  For a number [n] from 0 to 4294967 it sleeps
    once, for [n] seconds, and answers with status [success] and the
    text [I am done waiting for n seconds.].  For a negative [n], and
    for one beyond the 64-bit nanosecond clock, [time.sleep] raises:
    nothing is slept and the answer is the unexpected-error result.
    For a length in between the sleep call of the platform decides
    which of the two it is. *)
Theorem number_race_waits_for_any_integer
    (env : Env) (content text parsed number : json) (n : Z) (w : World) :
  py_get content "content" (JStr "{}") = Ret text ->
  py_json_loads env text = Ret parsed ->
  py_get parsed "number" JNull = Ret number ->
  number = JInt n
  \/ (exists s, number = JStr s /\ is_ascii_text s = true /\ int_of_str s = Some n) ->
  (String.length (py_str env number) <= int_max_str_digits)%nat ->
  let slept_and_done :=
    (Ret (result_dict ("I am done waiting for " ++ pretty n ++ " seconds.")
            "success"),
     with_trace w
       [ELog INFO "[Tool:numberRace] Called with input";
        ELog INFO "[Tool:numberRace] Starting sleep";
        ESleep n;
        ELog INFO "[Tool:numberRace] Finished waiting"]) in
  let failed_without_sleep :=
    (Ret (result_dict "An unexpected error occurred in the numberRace tool."
            "error"),
     with_trace w
       [ELog INFO "[Tool:numberRace] Called with input";
        ELog INFO "[Tool:numberRace] Starting sleep";
        ELog ERROR "[Tool:numberRace] Error processing"]) in
  (0 <= n -> n <= longest_sure_sleep ->
   handle_number_race env content w = slept_and_done)
  /\ (n < 0 \/ 2 ^ 63 - 1 < n * 1000000000 ->
      handle_number_race env content w = failed_without_sleep)
  /\ (longest_sure_sleep < n -> n * 1000000000 <= 2 ^ 63 - 1 ->
      (os_sleep env n = None ->
       handle_number_race env content w = slept_and_done)
      /\ (forall cls msg,
            os_sleep env n = Some (cls, msg) -> cls <> JSONDecodeError ->
            handle_number_race env content w = failed_without_sleep)).
Proof.
  intros Hc Hp Hn Hnum Hlen slept_and_done failed_without_sleep.
  assert (Hi : is_integer env (py_str env number) = true
               /\ py_int env number = Ret n /\ number <> JNull).
  { destruct Hnum as [->|(s & -> & Ha & Hs)]; cbn [py_str py_int] in *.
    - unfold is_integer.
      rewrite (py_int_of_str_ascii env _ (pretty_Z_ascii n) Hlen).
      rewrite int_of_str_pretty. by repeat split.
    - unfold is_integer. rewrite (py_int_of_str_ascii env s Ha Hlen), Hs.
      by repeat split. }
  destruct Hi as (Hi & Hv & Hnn).
  assert (Hrun : handle_number_race env content w =
                 match sleep_error env n with
                 | None => slept_and_done
                 | Some (cls, msg) =>
                     if is_json_decode_error (Exn cls msg)
                     then (Ret (result_dict
                                  "Error: Invalid input format for numberRace tool."
                                  "error"),
                           with_trace w
                             [ELog INFO "[Tool:numberRace] Called with input";
                              ELog INFO "[Tool:numberRace] Starting sleep";
                              ELog ERROR "[Tool:numberRace] Invalid JSON in tool_use_content.content"])
                     else failed_without_sleep
                 end).
  { unfold handle_number_race, try_catch, mbind, M_bind, lift.
    rewrite Hc, Hp, Hn.
    destruct number; try done; rewrite Hi, Hv;
      cbn -[time_sleep sleep_error]; rewrite time_sleep_run;
      destruct (sleep_error env n) as [[cls msg]|]; try reflexivity;
      by destruct cls. }
  rewrite Hrun. split; [|split].
  - intros H0 Hmax. by rewrite sleep_error_sure.
  - intros Hout.
    destruct (sleep_error_out_of_range env n Hout) as (cls & msg & -> & ->). done.
  - intros Hlong Hfit. rewrite (sleep_error_platform env n Hlong Hfit). split.
    + by intros ->.
    + intros cls msg -> Hcls. by destruct cls.
Qed.

(** X2: whatever the tool use content is, the numberRace handler lets
    no exception out: it returns a result dict and leaves the manager
    as it was.  When the status is [success] it has slept exactly
    once, for a time that is not negative; when the status is [error]
    it has not slept at all. *)
Theorem handle_number_race_never_raises
    (env : Env) (tool_use_content : json) (w : World) :
  exists text status w',
    handle_number_race env tool_use_content w = (Ret (result_dict text status), w')
    /\ mgr w' = mgr w
    /\ ((status = "success"
         /\ exists n, 0 <= n /\ slept (trace w') = (slept (trace w) ++ [n])%list)
        \/ (status = "error" /\ slept (trace w') = slept (trace w))).
Proof.
  assert (Hfail : forall c m w1,
            mgr w1 = mgr w -> slept (trace w1) = slept (trace w) ->
            exists text status w',
              (if is_json_decode_error (Exn c m) then
                 log ERROR "[Tool:numberRace] Invalid JSON in tool_use_content.content";;
                 mret (result_dict "Error: Invalid input format for numberRace tool." "error")
               else
                 log ERROR "[Tool:numberRace] Error processing";;
                 mret (result_dict
                         "An unexpected error occurred in the numberRace tool." "error"))
                w1
              = (Ret (result_dict text status), w')
              /\ mgr w' = mgr w
              /\ ((status = "success"
                   /\ exists n, 0 <= n
                        /\ slept (trace w') = (slept (trace w) ++ [n])%list)
                  \/ (status = "error" /\ slept (trace w') = slept (trace w)))).
  { intros c m w1 Hm Hs.
    destruct (is_json_decode_error (Exn c m));
      (eexists _, _, _; split; [reflexivity|split; [exact Hm|right]];
       split; [reflexivity|];
       unfold slept in *; cbn [trace mbind M_bind log emit];
       by rewrite history_cons, app_nil_r). }
  unfold handle_number_race, try_catch, mbind, M_bind, lift.
  destruct (py_get tool_use_content "content" (JStr "{}")) as [text|e] eqn:E1.
  2:{ apply py_get_raises in E1 as (c & m & ->). by apply Hfail. }
  destruct (py_json_loads env text) as [parsed|e] eqn:E2.
  2:{ apply py_json_loads_raises in E2 as (c & m & ->). by apply Hfail. }
  destruct (py_get parsed "number" JNull) as [number|e] eqn:E3.
  2:{ apply py_get_raises in E3 as (c & m & ->). by apply Hfail. }
  cbn [log emit fst snd].
  set (w1 := {| mgr := mgr w;
                trace := ELog INFO "[Tool:numberRace] Called with input" :: trace w;
                uuid_calls := uuid_calls w |}).
  assert (Hm1 : mgr w1 = mgr w) by done.
  assert (Hs1 : slept (trace w1) = slept (trace w)).
  { unfold slept, w1. cbn [trace]. by rewrite history_cons, app_nil_r. }
  assert (Hok : forall text n w2,
            mgr w2 = mgr w -> 0 <= n ->
            slept (trace w2) = (slept (trace w) ++ [n])%list ->
            exists text0 status w',
              (Ret (result_dict text "success"), w2)
              = (Ret (result_dict text0 status), w')
              /\ mgr w' = mgr w
              /\ ((status = "success"
                   /\ exists n, 0 <= n
                        /\ slept (trace w') = (slept (trace w) ++ [n])%list)
                  \/ (status = "error" /\ slept (trace w') = slept (trace w)))).
  { intros text0 n w2 Hm Hn Hs. eexists _, _, _.
    split; [reflexivity|split; [exact Hm|left]]. split; [reflexivity|].
    by exists n. }
  assert (Herr : forall text w2,
            mgr w2 = mgr w -> slept (trace w2) = slept (trace w) ->
            exists text0 status w',
              (Ret (result_dict text "error"), w2)
              = (Ret (result_dict text0 status), w')
              /\ mgr w' = mgr w
              /\ ((status = "success"
                   /\ exists n, 0 <= n
                        /\ slept (trace w') = (slept (trace w) ++ [n])%list)
                  \/ (status = "error" /\ slept (trace w') = slept (trace w)))).
  { intros text0 w2 Hm Hs. eexists _, _, _.
    split; [reflexivity|split; [exact Hm|right]]. by split. }
  destruct number.
  1: { apply Herr; [done|]. unfold slept in *. cbn [trace].
       by rewrite history_cons, app_nil_r. }
  all: cbv beta.
  all: destruct (is_integer _);
         [|apply Herr; [done|]; unfold slept in *; cbn [trace];
           by rewrite history_cons, app_nil_r].
  all: destruct (py_int _ _) as [a|e] eqn:E4;
         [|apply py_int_raises in E4 as (c & m & ->); by apply Hfail].
  all: rewrite time_sleep_run.
  all: destruct (sleep_error env a) as [[c m]|] eqn:Ea;
         [apply Hfail; [done|]; unfold slept in *; cbn [trace];
          by rewrite history_cons, app_nil_r|].
  all: apply (Hok _ a); [done|by apply (sleep_error_none_nonneg env)|].
  all: unfold slept in *; cbn [trace with_trace rev_append].
  all: by rewrite !history_cons, Hs1, !app_nil_r.
Qed.

(** ** The slow tools when they answer with an error *)

(** X3: when the tool name of the content is a text, the agentSearch
    handler returns a result dict whatever else the content holds, and
    an answer with status [error] has changed nothing: the manager,
    its cache and its active tasks are as before, and no task was
    created. *)
Theorem handle_agent_search_error_changes_nothing
    (env : Env) (tool_use_content : json) (name : string) (w : World) :
  py_get tool_use_content "toolName" (JStr "agentSearch_fallback") = Ret (JStr name) ->
  exists text status w',
    handle_agent_search env tool_use_content w = (Ret (result_dict text status), w')
    /\ (status = "success"
        \/ (status = "error" /\ mgr w' = mgr w
            /\ created_tasks (trace w') = created_tasks (trace w))).
Proof.
  intros Hname.
  set (Q := fun p : res json * World =>
              exists text status w',
                p = (Ret (result_dict text status), w')
                /\ (status = "success"
                    \/ (status = "error" /\ mgr w' = mgr w
                        /\ created_tasks (trace w') = created_tasks (trace w)))).
  change (Q (handle_agent_search env tool_use_content w)).
  assert (Herr : forall text w2,
            mgr w2 = mgr w -> created_tasks (trace w2) = created_tasks (trace w) ->
            Q (Ret (result_dict text "error"), w2)).
  { intros text w2 Hm Ht. exists text, "error", w2. split; [done|by right]. }
  assert (Hok : forall text w2, Q (Ret (result_dict text "success"), w2)).
  { intros text w2. exists text, "success", w2. split; [done|by left]. }
  destruct (py_get_total _ _ _ _ Hname "toolUseId" JNull) as (id & Hi).
  destruct (py_get_total _ _ _ _ Hname "content" (JStr "{}")) as (input & Hc).
  destruct (truthy id) eqn:Hid.
  2:{ unfold handle_agent_search. run_handler.
      rewrite Hname. cbn. rewrite Hi, Hid. by apply Herr. }
  destruct (py_json_loads env input) as [parsed|e] eqn:Hparse.
  2:{ apply py_json_loads_raises in Hparse as Hex. destruct Hex as (c & m & ->).
      unfold handle_agent_search. run_handler.
      rewrite Hname. cbn. rewrite Hi, Hid. cbn. rewrite Hc, Hparse.
      destruct c; by apply Herr. }
  destruct (py_get parsed "query" (JStr "")) as [query|e] eqn:Hquery.
  2:{ apply py_get_raises in Hquery as Hex. destruct Hex as (c & m & ->).
      unfold handle_agent_search. run_handler.
      rewrite Hname. cbn. rewrite Hi, Hid. cbn. rewrite Hc, Hparse, Hquery.
      destruct c; by apply Herr. }
  destruct (truthy query) eqn:Hq.
  2:{ unfold handle_agent_search. run_handler.
      rewrite Hname. cbn. rewrite Hi, Hid. cbn. rewrite Hc, Hparse, Hquery, Hq.
      by apply Herr. }
  assert (Hinv : agent_search_invocation env tool_use_content name id query).
  { split; [exact Hname|]. split; [done|]. split; [exact Hid|].
    split; [|exact Hq]. by eexists _, _. }
  destruct (completed_async_tool_results (mgr w) !! lower name) as [p|] eqn:Hcache.
  { rewrite (agent_search_cache_hit env _ name _ query p w Hinv Hcache). apply Hok. }
  destruct (to_key id) as [k|e] eqn:Hk.
  2:{ apply to_key_raises in Hk as Hex. destruct Hex as (c & m & ->).
      unfold handle_agent_search. run_handler.
      rewrite Hname. cbn. rewrite Hi, Hid. cbn. rewrite Hc, Hparse, Hquery, Hq.
      cbn. rewrite Hcache. cbn. rewrite Hk.
      destruct c; by apply Herr. }
  destruct (active_background_tasks (mgr w) !! k) as [t|] eqn:Hact.
  - rewrite (agent_search_still_active env _ name _ query k t w Hinv Hk Hcache Hact).
    apply Hok.
  - rewrite (agent_search_launches env _ name _ query k w Hinv Hk Hcache Hact).
    apply Hok.
Qed.

(** X4: when the tool name of the content is a text, the imageAnalyzer
    handler returns a result dict whatever else the content holds, and
    an answer with status [error] has changed nothing: the manager is
    as before, no task was created and no analysis id was drawn. *)
Theorem handle_imageanalyzer_error_changes_nothing
    (env : Env) (tool_use_content : json) (name : string) (w : World) :
  py_get tool_use_content "toolName" (JStr "imageAnalyzer") = Ret (JStr name) ->
  exists text status w',
    handle_imageanalyzer env tool_use_content w = (Ret (result_dict text status), w')
    /\ (status = "success"
        \/ (status = "error" /\ mgr w' = mgr w
            /\ created_tasks (trace w') = created_tasks (trace w)
            /\ uuid_calls w' = uuid_calls w)).
Proof.
  intros Hname.
  set (Q := fun p : res json * World =>
              exists text status w',
                p = (Ret (result_dict text status), w')
                /\ (status = "success"
                    \/ (status = "error" /\ mgr w' = mgr w
                        /\ created_tasks (trace w') = created_tasks (trace w)
                        /\ uuid_calls w' = uuid_calls w))).
  change (Q (handle_imageanalyzer env tool_use_content w)).
  assert (Herr : forall text w2,
            mgr w2 = mgr w -> created_tasks (trace w2) = created_tasks (trace w) ->
            uuid_calls w2 = uuid_calls w ->
            Q (Ret (result_dict text "error"), w2)).
  { intros text w2 Hm Ht Hu. exists text, "error", w2. split; [done|by right]. }
  assert (Hok : forall text w2, Q (Ret (result_dict text "success"), w2)).
  { intros text w2. exists text, "success", w2. split; [done|by left]. }
  destruct (py_get_total _ _ _ _ Hname "toolUseId" JNull) as (id & Hi).
  destruct (py_get_total _ _ _ _ Hname "content" (JStr "{}")) as (input & Hc).
  destruct (truthy id) eqn:Hid.
  2:{ unfold handle_imageanalyzer. run_handler.
      rewrite Hname. cbn. rewrite Hi, Hid. by apply Herr. }
  destruct (py_json_loads env input) as [parsed|e] eqn:Hparse.
  2:{ apply py_json_loads_raises in Hparse as Hex. destruct Hex as (c & m & ->).
      unfold handle_imageanalyzer. run_handler.
      rewrite Hname. cbn. rewrite Hi, Hid. cbn. rewrite Hc, Hparse.
      destruct c; by apply Herr. }
  destruct (py_get parsed "context" (JStr "the current page content"))
    as [context|e] eqn:Hcontext.
  2:{ apply py_get_raises in Hcontext as Hex. destruct Hex as (c & m & ->).
      unfold handle_imageanalyzer. run_handler.
      rewrite Hname. cbn. rewrite Hi, Hid. cbn. rewrite Hc, Hparse, Hcontext.
      destruct c; by apply Herr. }
  assert (Hinv : image_analyzer_invocation env tool_use_content name id context).
  { split; [exact Hname|]. split; [done|]. split; [exact Hid|]. by eexists _, _. }
  destruct (completed_async_tool_results (mgr w) !! lower name) as [p|] eqn:Hcache.
  { rewrite (image_analyzer_cache_hit env _ name _ context p w Hinv Hcache).
    apply Hok. }
  destruct (to_key id) as [k|e] eqn:Hk.
  2:{ apply to_key_raises in Hk as Hex. destruct Hex as (c & m & ->).
      unfold handle_imageanalyzer. run_handler.
      rewrite Hname. cbn. rewrite Hi, Hid. cbn. rewrite Hc, Hparse, Hcontext.
      cbn. rewrite Hcache. cbn. rewrite Hk.
      destruct c; by apply Herr. }
  destruct (active_background_tasks (mgr w) !! k) as [t|] eqn:Hact.
  - rewrite (image_analyzer_still_active env _ name _ context k t w Hinv Hk Hcache Hact).
    apply Hok.
  - rewrite (image_analyzer_launches env _ name _ context k w Hinv Hk Hcache Hact).
    apply Hok.
Qed.

(** ** Background tasks that end without a result *)

(** X5: a background task whose work ends with an exception still ends
    by returning.  It caches nothing and removes itself from the active
    tasks; for an exception it queues one notification with status
    [error] that carries the message of the exception, for a
    cancellation it queues nothing. *)
Theorem task_wrapper_resume_without_result
    (env : Env) (t : BackgroundTask) (k : pykey) (e : exn) (w : World) :
  to_key (bt_tool_use_id t) = Ret k ->
  exists w',
    task_wrapper_resume env t (Raise e) w = (Ret (), w')
    /\ completed_async_tool_results (mgr w') = completed_async_tool_results (mgr w)
    /\ active_background_tasks (mgr w') = delete k (active_background_tasks (mgr w))
    /\ output_queue (mgr w') =
         (output_queue (mgr w)
          ++ match e with
             | CancelledError => []
             | Exn _ msg =>
                 [custom_notification_to_frontend (bt_tool_name t) (bt_tool_use_id t)
                    "error"
                    ("An error occurred in the background while processing "
                     ++ bt_tool_name t ++ " (ID: " ++ py_str env (bt_tool_use_id t)
                     ++ "): " ++ msg)]
             end)%list.
Proof.
  intros Hk.
  unfold task_wrapper_resume, try_finally, mbind, M_bind, lift.
  destruct e as [c msg|]; cbn; rewrite Hk; cbn.
  - eexists. split; [reflexivity|]. by cbn.
  - eexists. split; [reflexivity|]. cbn. by rewrite app_nil_r.
Qed.

(** X6: an agent search whose client cannot be initialised, or whose
    request fails, does not fail its task: the search turns the
    exception into a dict with an [error] entry, so the task caches
    this dict under the lower-cased tool name, removes itself from the
    active tasks and notifies the client with status [success]. *)
Theorem failed_agent_search_is_cached_as_completed
    (env : Env) (t : BackgroundTask) (k : pykey) (query id : json)
    (client : res unit) (sent : res string) (c : exn_class) (m : string)
    (w : World) :
  to_key (bt_tool_use_id t) = Ret k ->
  client = Raise (Exn c m) \/ (client = Ret () /\ sent = Raise (Exn c m)) ->
  exists w',
    task_wrapper env t (_execute_agent_search_remotely env query id client sent) w
      = (Ret (), w')
    /\ completed_async_tool_results (mgr w') =
         <[lower (bt_tool_name t) :=
             JObj [("error",
                    JStr ((if decide (c = ConnectionError)
                           then "Could not connect to or initialize the search agent: "
                           else "An error occurred during the agent search: ") ++ m));
                   ("originalQuery", query);
                   ("searchId", id);
                   ("details", JNull)]]>
           (completed_async_tool_results (mgr w))
    /\ active_background_tasks (mgr w') = delete k (active_background_tasks (mgr w))
    /\ output_queue (mgr w') =
         (output_queue (mgr w)
          ++ [custom_notification_to_frontend (bt_tool_name t) (bt_tool_use_id t)
                "success"
                ("The " ++ bt_tool_name t ++ " operation (ID: "
                 ++ py_str env (bt_tool_use_id t)
                 ++ ") has completed. You can now ask for the results.")])%list.
Proof.
  intros Hk Hfail.
  set (payload := JObj [("error",
                    JStr ((if decide (c = ConnectionError)
                           then "Could not connect to or initialize the search agent: "
                           else "An error occurred during the agent search: ") ++ m));
                   ("originalQuery", query);
                   ("searchId", id);
                   ("details", JNull)]).
  assert (Hrun : forall w0, exists w1,
            _execute_agent_search_remotely env query id client sent w0
              = (Ret payload, w1) /\ mgr w1 = mgr w0).
  { intros w0.
    unfold _execute_agent_search_remotely, try_catch, mbind, M_bind, lift.
    destruct Hfail as [->|[-> ->]]; destruct c; cbn;
      (eexists; split; [reflexivity|done]). }
  unfold task_wrapper, observe, mbind, M_bind. cbn.
  set (w0 := {| mgr := mgr w; trace := _; uuid_calls := uuid_calls w |}).
  destruct (Hrun w0) as (w1 & E1 & Hm1). rewrite E1.
  destruct (task_wrapper_resume_success env t k payload w1 Hk)
    as (w2 & Hres & Hc & Ha & Hq & _).
  exists w2. rewrite Hres. split; [reflexivity|].
  rewrite Hc, Ha, Hq, Hm1. done.
Qed.

(** ** The image analysis and its screenshot *)

(** X7: when the screenshot does not arrive in time, the image analysis
    task does not report a timeout: the analysis ends with the
    UnboundLocalError on [results_for_cache].  Nothing is cached, the
    event and the data of the analysis id are removed, the task leaves
    the active tasks, and the queue gets the request for the screenshot
    followed by one notification with status [error] that carries the
    message of the UnboundLocalError. *)
Theorem image_analysis_timeout_is_reported_as_unbound_local
    (env : Env) (t : BackgroundTask) (k : pykey) (id : string) (context : json)
    (msg : string) (client : res unit) (description : res string) (w : World) :
  to_key (bt_tool_use_id t) = Ret k ->
  exists w',
    task_wrapper env t
      (_execute_image_analysis_remotely id context
         (Raise (Exn TimeoutError msg)) client description) w
      = (Ret (), w')
    /\ completed_async_tool_results (mgr w') = completed_async_tool_results (mgr w)
    /\ active_background_tasks (mgr w') = delete k (active_background_tasks (mgr w))
    /\ pending_screenshot_events (mgr w') =
         delete (KStr id) (pending_screenshot_events (mgr w))
    /\ received_screenshot_data (mgr w') =
         delete (KStr id) (received_screenshot_data (mgr w))
    /\ output_queue (mgr w') =
         (output_queue (mgr w)
          ++ [request_payload_to_frontend id;
              custom_notification_to_frontend (bt_tool_name t) (bt_tool_use_id t)
                "error"
                ("An error occurred in the background while processing "
                 ++ bt_tool_name t ++ " (ID: " ++ py_str env (bt_tool_use_id t)
                 ++ "): " ++ unbound_results_message)])%list.
Proof.
  intros Hk.
  unfold task_wrapper, _execute_image_analysis_remotely, image_analysis_request.
  unfold image_analysis_after_wait, observe, mbind, M_bind. cbn.
  unfold task_wrapper_resume, try_finally, mbind, M_bind, lift. cbn.
  rewrite Hk. cbn.
  eexists. split; [reflexivity|]. cbn.
  rewrite delete_insert_eq. rewrite <- app_assoc. done.
Qed.

(** X8: once an image analysis has asked for a screenshot under an id,
    [deliver_screenshot_data] for this id returns and sets the event of
    the id.  The analysis that wakes up then gets the image URL when a
    URL and no error message was delivered, and ends with the
    UnboundLocalError otherwise; either way the event and the data of
    the id are removed afterwards. *)
Theorem screenshot_rendezvous
    (id : string) (image_data_url error_message : json) (w : World) :
  let w1 := (image_analysis_request id w).2 in
  let w2 := (deliver_screenshot_data (JStr id) image_data_url error_message w1).2 in
  let w3 := (image_analysis_after_wait id (Ret ()) w2).2 in
  deliver_screenshot_data (JStr id) image_data_url error_message w1 = (Ret (), w2)
  /\ pending_screenshot_events (mgr w2) !! KStr id = Some true
  /\ (image_analysis_after_wait id (Ret ()) w2).1 =
       (if (negb (truthy error_message) && truthy image_data_url)%bool
        then Ret image_data_url
        else Raise unbound_results_for_cache)
  /\ pending_screenshot_events (mgr w3) =
       delete (KStr id) (pending_screenshot_events (mgr w))
  /\ received_screenshot_data (mgr w3) =
       delete (KStr id) (received_screenshot_data (mgr w)).
Proof.
  intros w1 w2 w3.
  assert (E2 : deliver_screenshot_data (JStr id) image_data_url error_message w1
               = (Ret (), w2) /\
               pending_screenshot_events (mgr w2) =
                 <[KStr id := true]> (pending_screenshot_events (mgr w)) /\
               received_screenshot_data (mgr w2) =
                 <[KStr id :=
                     if truthy error_message then JObj [("error", error_message)]
                     else if truthy image_data_url
                          then JObj [("imageDataUrl", image_data_url)]
                          else JObj [("error",
                                      JStr "No image data and no error message provided.")]]>
                   (received_screenshot_data (mgr w))).
  { unfold w2, w1, deliver_screenshot_data, image_analysis_request.
    unfold store_received, queue_put, mbind, M_bind, lift, get_mgr. cbn.
    rewrite lookup_insert_eq.
    destruct (truthy error_message); [|destruct (truthy image_data_url)]; cbn.
    all: split; [reflexivity|split; [apply insert_insert_eq|reflexivity]]. }
  destruct E2 as (E2 & Hp2 & Hr2).
  split; [exact E2|]. split; [by rewrite Hp2, lookup_insert_eq|].
  clearbody w2. clear E2 w1.
  unfold w3, image_analysis_after_wait.
  unfold mbind, M_bind, lift, get_mgr, modify_mgr, log, emit, raise, mret, M_ret.
  cbn. rewrite Hr2, lookup_insert_eq. cbn.
  destruct (truthy error_message) eqn:He; cbn.
  - rewrite He. cbn. rewrite ?Hp2, ?Hr2.
    rewrite !delete_insert_eq, ?delete_delete_eq. done.
  - destruct (truthy image_data_url) eqn:Hu; cbn; rewrite ?Hu; cbn;
      rewrite ?Hp2, ?Hr2, !delete_insert_eq, ?delete_delete_eq; done.
Qed.

(** ** What [send_raw_event] hands to the stream *)

(** On an open stream an event given as a dict or as a text is handed
    to the stream once, whatever the stream answers short of a
    cancellation; the manager is not touched. *)
Lemma send_raw_event_sends env event_data text w :
  event_text env event_data = Some text ->
  (forall n, upstream_send env n <> Raise CancelledError) ->
  stream_response (mgr w) = true ->
  is_active (mgr w) = true ->
  exists w',
    send_raw_event env event_data w = (Ret (), w')
    /\ mgr w' = mgr w
    /\ uuid_calls w' = uuid_calls w
    /\ sent_upstream (trace w') = (sent_upstream (trace w) ++ [text])%list.
Proof.
  intros Htext Hsend Hs Ha.
  set (Q := fun p : res unit * World =>
              exists w', p = (Ret (), w') /\ mgr w' = mgr w
                         /\ uuid_calls w' = uuid_calls w
                         /\ sent_upstream (trace w') = (sent_upstream (trace w) ++ [text])%list).
  change (Q (send_raw_event env event_data w)).
  assert (Hdone : forall w2, mgr w2 = mgr w -> uuid_calls w2 = uuid_calls w ->
            sent_upstream (trace w2) = (sent_upstream (trace w) ++ [text])%list ->
            Q (Ret (), w2)).
  { intros w2 ? ? ?. by exists w2. }
  assert (Hlog : forall lvl msg w2, mgr w2 = mgr w -> uuid_calls w2 = uuid_calls w ->
            sent_upstream (trace w2) = (sent_upstream (trace w) ++ [text])%list ->
            Q (log lvl msg w2)).
  { intros lvl msg w2 ? ? Hh. apply Hdone; [done..|].
    unfold sent_upstream in *. cbn [trace]. by rewrite history_cons, app_nil_r. }
  set (w1 := {| mgr := mgr w; trace := EUpstreamSend text :: trace w;
                uuid_calls := uuid_calls w |}).
  assert (H1 : sent_upstream (trace w1) = (sent_upstream (trace w) ++ [text])%list).
  { unfold sent_upstream, w1. cbn [trace]. by rewrite history_cons. }
  assert (Hrest : forall parsed : res json,
            parsed <> Raise CancelledError ->
            Q (except_Exception
                 (input_stream_send env text;;
                  parsed ← lift parsed;
                  event ← lift (py_get parsed "event" (JObj []));
                  event_type ← lift (py_keys event);
                  if existsb (String.eqb "audioInput") event_type then mret ()
                  else log INFO "Sent event type")
                 (fun _ _ => log ERROR "Error sending event to Bedrock") w)).
  { intros parsed Hparsed.
    unfold except_Exception, try_catch, mbind, M_bind, lift, input_stream_send.
    pose proof (Hsend (upstream_sends (trace w))) as Hs1.
    destruct (upstream_send env (upstream_sends (trace w))) as [[]|[c m|]];
      [|by apply Hlog|done].
    fold w1.
    destruct parsed as [parsed|[c m|]]; [|by apply Hlog|done].
    destruct (py_get parsed "event" (JObj [])) as [event|e] eqn:E1.
    2:{ apply py_get_raises in E1 as (c & m & ->). by apply Hlog. }
    destruct (py_keys event) as [keys|e] eqn:E2.
    2:{ apply py_keys_raises in E2 as (c & m & ->). by apply Hlog. }
    destruct (existsb _ keys); [by apply Hdone|by apply Hlog]. }
  unfold send_raw_event, mbind, M_bind, get_mgr. cbn [fst snd].
  rewrite Hs, Ha. cbn [negb orb].
  destruct event_data; try discriminate; injection Htext as <-.
  - cbn [mret M_ret].
    apply (Hrest (py_json_loads env (JStr s))).
    intros E. by apply py_json_loads_raises in E as (c & m & ?).
  - cbn [mret M_ret]. by apply (Hrest (Ret (JObj fields))).
Qed.

(** X9: with the stream missing or inactive, [send_raw_event] hands
    nothing to the stream and only logs a warning.  With the stream
    open and no cancellation it returns, leaves the manager as it was,
    and has handed exactly one text to the stream: the serialization of
    a dict, or a text as it is (also when the send itself fails, which
    is logged and not raised). *)
Theorem send_raw_event_sends_once_or_not_at_all
    (env : Env) (event_data : json) (w : World) :
  (stream_response (mgr w) && is_active (mgr w) = false ->
   send_raw_event env event_data w =
     (Ret (),
      with_trace w
        [ELog WARNING "Bedrock stream not initialized or closed. Cannot send event."]))
  /\ (stream_response (mgr w) && is_active (mgr w) = true ->
      (forall n, upstream_send env n <> Raise CancelledError) ->
      forall text, event_text env event_data = Some text ->
      exists w',
        send_raw_event env event_data w = (Ret (), w')
        /\ mgr w' = mgr w
        /\ sent_upstream (trace w') = (sent_upstream (trace w) ++ [text])%list).
Proof.
  split.
  - intros Hoff. unfold send_raw_event, mbind, M_bind, get_mgr. cbn [fst snd].
    destruct (stream_response (mgr w)), (is_active (mgr w)); try discriminate;
      reflexivity.
  - intros Hon Hsend text Htext.
    apply andb_prop in Hon as [Hs Ha].
    destruct (send_raw_event_sends env event_data text w Htext Hsend Hs Ha)
      as (w' & E & Hm & _ & Hh).
    by exists w'.
Qed.

(** ** The audio path *)

Ltac hist :=
  unfold sent_upstream, sent_to_websocket, slept in *;
  cbn [trace]; rewrite ?history_cons; cbn [option_list]; rewrite ?app_nil_r.

Lemma detect_speech_in_audio_run rms_above audio w :
  exists b w',
    detect_speech_in_audio rms_above audio w = (Ret b, w')
    /\ stream_response (mgr w') = stream_response (mgr w)
    /\ is_active (mgr w') = is_active (mgr w)
    /\ audio_input_queue (mgr w') = audio_input_queue (mgr w)
    /\ output_queue (mgr w') = output_queue (mgr w)
    /\ sent_upstream (trace w') = sent_upstream (trace w).
Proof.
  unfold detect_speech_in_audio, mbind, M_bind, get_mgr.
  destruct (rms_above audio) as [[]|]; cbn.
  - destruct (speech_detected (mgr w)); cbn; eexists _, _; (split; [reflexivity|]);
      by hist.
  - eexists _, _; split; [reflexivity|]. by hist.
  - eexists _, _; split; [reflexivity|]. by hist.
Qed.

Lemma process_audio_chunk_run env rms_above x w :
  (forall n, upstream_send env n <> Raise CancelledError) ->
  stream_response (mgr w) = true ->
  is_active (mgr w) = true ->
  exists w',
    process_audio_chunk env rms_above (chunk_item x) w = (Ret true, w')
    /\ stream_response (mgr w') = true
    /\ is_active (mgr w') = true
    /\ audio_input_queue (mgr w') = audio_input_queue (mgr w)
    /\ output_queue (mgr w') = output_queue (mgr w)
    /\ sent_upstream (trace w') =
         (sent_upstream (trace w)
          ++ if chunk_complete x then [chunk_event_text env x] else [])%list.
Proof.
  intros Hsend Hs Ha. destruct x as [[p c] a].
  unfold process_audio_chunk, chunk_item, chunk_complete, chunk_event_text.
  unfold try_catch, mbind, M_bind, lift. cbn [fst snd audio_chunk py_get assoc].
  cbn -[truthy detect_speech_in_audio send_raw_event audio_input_event].
  destruct (truthy a); cbn [negb orb andb];
    [destruct (truthy p); cbn [negb orb andb];
     [destruct (truthy c); cbn [negb orb andb]|]|].
  2-4: (eexists; split; [reflexivity|]; by hist).
  destruct (detect_speech_in_audio_run rms_above a w)
    as (b & w1 & E1 & Hs1 & Ha1 & Hq1 & Ho1 & Hh1).
  rewrite E1.
  destruct (send_raw_event_sends env (audio_input_event p c a)
              (json_dumps env (audio_input_event p c a)) w1)
    as (w2 & E2 & Hm2 & _ & Hh2); [done|done|congruence..|].
  rewrite E2. exists w2. split; [reflexivity|].
  rewrite Hm2, Hh2, Hs1, Ha1, Hq1, Ho1, Hh1. done.
Qed.

(** The loop over the chunks of the queue. *)
Lemma audio_input_loop_sends env rms_above chunks w :
  (forall n, upstream_send env n <> Raise CancelledError) ->
  stream_response (mgr w) = true ->
  is_active (mgr w) = true ->
  audio_input_queue (mgr w) = chunk_item <$> chunks ->
  exists w',
    audio_input_loop env rms_above (chunk_item <$> chunks) w = (Ret false, w')
    /\ audio_input_queue (mgr w') = []
    /\ output_queue (mgr w') = output_queue (mgr w)
    /\ sent_upstream (trace w') =
         (sent_upstream (trace w)
          ++ (chunk_event_text env <$> filter (fun x => chunk_complete x = true) chunks))%list.
Proof.
  intros Hsend. revert w. induction chunks as [|x rest IH]; intros w Hs Ha Hq.
  - cbn. rewrite Ha. exists w. by rewrite app_nil_r.
  - cbn [fmap list_fmap audio_input_loop]. rewrite Ha.
    unfold mbind, M_bind, modify_mgr.
    set (w0 := {| mgr := set_audio_input_queue _ (mgr w); trace := trace w;
                  uuid_calls := uuid_calls w |}).
    destruct (process_audio_chunk_run env rms_above x w0 Hsend)
      as (w1 & E1 & Hs1 & Ha1 & Hq1 & Ho1 & Hh1); [done..|].
    rewrite E1.
    destruct (IH w1 Hs1 Ha1) as (w2 & E2 & Hq2 & Ho2 & Hh2); [by rewrite Hq1|].
    exists w2. split; [exact E2|]. split; [exact Hq2|].
    split; [by rewrite Ho2, Ho1|].
    rewrite Hh2, Hh1. cbn [trace w0].
    rewrite filter_cons. destruct (chunk_complete x) eqn:Hx.
    + rewrite decide_True by done. by rewrite fmap_cons, <- app_assoc.
    + rewrite decide_False by (by intros ?). by rewrite app_nil_r.
Qed.

(** X10: on an open stream, [_process_audio_input] empties the audio
    queue and comes to rest waiting for the next chunk.  In the order
    of the queue it has handed one [audioInput] event to the stream for
    every chunk whose prompt name, content name and audio are all
    truthy; the other chunks are dropped, and the outbound queue is
    untouched.  This holds whatever the speech detection says. *)
Theorem audio_chunks_reach_the_stream_in_order
    (env : Env) (rms_above : json -> option bool)
    (chunks : list (json * json * json)) (w : World) :
  (forall n, upstream_send env n <> Raise CancelledError) ->
  stream_response (mgr w) = true ->
  is_active (mgr w) = true ->
  audio_input_queue (mgr w) = chunk_item <$> chunks ->
  exists w',
    _process_audio_input env rms_above w = (Ret false, w')
    /\ audio_input_queue (mgr w') = []
    /\ output_queue (mgr w') = output_queue (mgr w)
    /\ sent_upstream (trace w') =
         (sent_upstream (trace w)
          ++ (chunk_event_text env <$> filter (fun x => chunk_complete x = true) chunks))%list.
Proof.
  intros Hsend Hs Ha Hq.
  unfold _process_audio_input, mbind, M_bind, get_mgr. cbn [fst snd].
  rewrite Hq. by apply audio_input_loop_sends.
Qed.

(** ** What a computation keeps, and how it can end *)

Section Preserves.

Context {B : Type} (view : World -> B).

Lemma preserves_ret {A} (a : A) : preserves view (mret a).
Proof. by intros w. Qed.

Lemma preserves_raise {A} (e : exn) : preserves view (@raise A e).
Proof. by intros w. Qed.

Lemma preserves_lift {A} (r : res A) : preserves view (lift r).
Proof. by intros w. Qed.

Lemma preserves_get_mgr : preserves view get_mgr.
Proof. by intros w. Qed.

Lemma preserves_bind {A C} (c : M A) (f : A -> M C) :
  preserves view c -> (forall a, preserves view (f a)) ->
  preserves view (c ≫= f).
Proof.
  intros Hc Hf w. unfold mbind, M_bind.
  specialize (Hc w). destruct (c w) as [[a|e] w1]; cbn in *; [|done].
  by rewrite Hf.
Qed.

Lemma preserves_try_catch {A} (body : M A) (handler : exn -> M A) :
  preserves view body -> (forall e, preserves view (handler e)) ->
  preserves view (try_catch body handler).
Proof.
  intros Hb Hh w. unfold try_catch.
  specialize (Hb w). destruct (body w) as [[a|e] w1]; cbn in *; [done|].
  by rewrite Hh.
Qed.

Lemma preserves_except_Exception {A} (body : M A)
    (handler : exn_class -> string -> M A) :
  preserves view body -> (forall c msg, preserves view (handler c msg)) ->
  preserves view (except_Exception body handler).
Proof.
  intros Hb Hh. apply preserves_try_catch; [done|].
  intros [c msg|]; [apply Hh|apply preserves_raise].
Qed.

Lemma preserves_observe {A} (c : M A) :
  preserves view c -> preserves view (observe c).
Proof. intros Hc w. specialize (Hc w). unfold observe. by destruct (c w). Qed.

End Preserves.

(** Steps that fit any computation built from the monad's operations;
    the last one is for an effect or an update the view does not see. *)
Ltac preserves_step :=
  first
    [ apply preserves_ret | apply preserves_raise | apply preserves_lift
    | apply preserves_get_mgr
    | apply preserves_bind; [|intros ?]
    | apply preserves_try_catch; [|intros ?]
    | apply preserves_except_Exception; [|intros ? ?]
    | match goal with
      | |- preserves _ (if ?b then _ else _) => destruct b
      | |- preserves _ (match ?x with _ => _ end) => destruct x
      end
    | by intros ? ].

Ltac preserves_with tac := repeat first [tac | preserves_step].

Section RaisesOnly.

Context (P : exn -> Prop).

Lemma raises_only_ret {A} (a : A) : raises_only P (mret a).
Proof. by intros w e. Qed.

Lemma raises_only_raise {A} e : P e -> raises_only P (@raise A e).
Proof. by intros H w e' [= <-]. Qed.

Lemma raises_only_lift {A} (r : res A) :
  (forall e, r = Raise e -> P e) -> raises_only P (lift r).
Proof. intros H w e. apply H. Qed.

Lemma raises_only_emit e : raises_only P (emit e).
Proof. by intros w e'. Qed.

Lemma raises_only_log lvl msg : raises_only P (log lvl msg).
Proof. by intros w e. Qed.

Lemma raises_only_get_mgr : raises_only P get_mgr.
Proof. by intros w e. Qed.

Lemma raises_only_modify_mgr f : raises_only P (modify_mgr f).
Proof. by intros w e. Qed.

Lemma raises_only_bind {A C} (c : M A) (f : A -> M C) :
  raises_only P c -> (forall a, raises_only P (f a)) ->
  raises_only P (c ≫= f).
Proof.
  intros Hc Hf w e. unfold mbind, M_bind.
  specialize (Hc w). destruct (c w) as [[a|e'] w1]; cbn in *.
  - apply Hf.
  - intros [= ->]. by apply Hc.
Qed.

(** The handler of a [try] runs on what the body raises. *)
Lemma raises_only_try_catch {A} (P' : exn -> Prop)
    (body : M A) (handler : exn -> M A) :
  raises_only P' body ->
  (forall e, P' e -> raises_only P (handler e)) ->
  raises_only P (try_catch body handler).
Proof.
  intros Hb Hh w e. unfold try_catch.
  specialize (Hb w). destruct (body w) as [[a|e'] w1]; cbn in *; [done|].
  apply Hh. by apply Hb.
Qed.

Lemma raises_only_except_Exception {A} (body : M A)
    (handler : exn_class -> string -> M A) :
  (P CancelledError \/ never_cancelled body) ->
  (forall c m, raises_only P (handler c m)) ->
  raises_only P (except_Exception body handler).
Proof.
  intros Hb Hh w e. unfold except_Exception, try_catch.
  destruct (body w) as [[a|[c m|]] w1] eqn:E; cbn; [done|apply Hh|].
  intros [= <-]. destruct Hb as [H|H]; [done|].
  specialize (H w CancelledError). rewrite E in H. by destruct H.
Qed.

End RaisesOnly.

Lemma never_cancelled_try_catch {A} (body : M A) (handler : exn -> M A) :
  never_cancelled body ->
  (forall c m, never_cancelled (handler (Exn c m))) ->
  never_cancelled (try_catch body handler).
Proof.
  intros Hb Hh. apply (raises_only_try_catch _ _ _ _ Hb).
  intros [c m|] H; [apply Hh|done].
Qed.

Lemma never_cancelled_except_Exception {A} (body : M A)
    (handler : exn_class -> string -> M A) :
  never_cancelled body -> (forall c m, never_cancelled (handler c m)) ->
  never_cancelled (except_Exception body handler).
Proof. intros Hb Hh. apply raises_only_except_Exception; [by right|done]. Qed.

Lemma py_in_raises k v e : py_in k v = Raise e -> exists c m, e = Exn c m.
Proof. destruct v; cbn; intros [= <-]; eauto. Qed.

Lemma py_lower_raises v e : py_lower v = Raise e -> exists c m, e = Exn c m.
Proof. destruct v; cbn; intros [= <-]; eauto. Qed.

Lemma py_first_raises v e : py_first v = Raise e -> exists c m, e = Exn c m.
Proof.
  destruct v as [| | | |[]|[]|]; cbn; intros [= <-]; eauto.
Qed.

Lemma re_sub_thinking_raises v e :
  re_sub_thinking v = Raise e -> exists c m, e = Exn c m.
Proof. destruct v; cbn; intros [= <-]; eauto. Qed.

Lemma first_key_raises v e : first_key v = Raise e -> exists c m, e = Exn c m.
Proof.
  unfold first_key. destruct (py_keys v) as [[]|e'] eqn:E; intros [= <-]; eauto.
  by apply py_keys_raises in E.
Qed.

Lemma tool_result_status_raises v e :
  tool_result_status v = Raise e -> exists c m, e = Exn c m.
Proof.
  unfold tool_result_status. destruct (py_get v "status" JNull) eqn:E;
    intros [= <-]. by apply py_get_raises in E.
Qed.

Lemma first_line_raises s e : first_line s = Raise e -> exists c m, e = Exn c m.
Proof. destruct s; cbn; intros [= <-]; eauto. Qed.

(** A dynamic operation of Python raises an instance of [Exception]. *)
Ltac pure_never_cancelled :=
  let e := fresh "e" in
  let E := fresh "E" in
  intros e E;
  first [ apply py_get_raises in E | apply py_getitem_raises in E
        | apply py_json_loads_raises in E | apply py_int_raises in E
        | apply py_in_raises in E | apply py_lower_raises in E
        | apply py_keys_raises in E | apply py_first_raises in E
        | apply re_sub_thinking_raises in E | apply to_key_raises in E
        | apply first_key_raises in E | apply tool_result_status_raises in E
        | apply first_line_raises in E ];
  destruct E as (? & ? & ->); discriminate.

Ltac never_cancelled_step :=
  first
    [ apply raises_only_ret | apply raises_only_raise; discriminate
    | apply raises_only_log | apply raises_only_emit
    | apply raises_only_get_mgr | apply raises_only_modify_mgr
    | apply raises_only_lift; pure_never_cancelled
    | apply raises_only_bind; [|intros ?]
    | apply never_cancelled_except_Exception; [|intros ? ?]
    | apply never_cancelled_try_catch; [|intros ? ?]
    | match goal with
      | |- never_cancelled ?c => unfold never_cancelled
      | |- raises_only _ (if ?b then _ else _) => destruct b
      | |- raises_only _ (match ?x with _ => _ end) => destruct x
      end ].

Ltac never_cancelled_with tac := repeat first [tac | never_cancelled_step].

Lemma answers_ret (text status : string) :
  status = "success" \/ status = "error" ->
  answers (mret (result_dict text status)).
Proof. intros H w v [= <-]. by exists text, status. Qed.

Lemma answers_raise (e : exn) : answers (raise e).
Proof. by intros w v. Qed.

Lemma answers_bind {A} (c : M A) (f : A -> M json) :
  (forall a, answers (f a)) -> answers (c ≫= f).
Proof.
  intros Hf w v. unfold mbind, M_bind.
  destruct (c w) as [[a|e] w1]; cbn; [apply Hf|done].
Qed.

Lemma answers_try_catch (body : M json) (handler : exn -> M json) :
  answers body -> (forall e, answers (handler e)) ->
  answers (try_catch body handler).
Proof.
  intros Hb Hh w v. unfold try_catch.
  specialize (Hb w). destruct (body w) as [[a|e] w1]; cbn in *.
  - intros [= <-]. by apply Hb.
  - apply Hh.
Qed.

Lemma answers_except_Exception (body : M json)
    (handler : exn_class -> string -> M json) :
  answers body -> (forall c m, answers (handler c m)) ->
  answers (except_Exception body handler).
Proof.
  intros Hb Hh. apply answers_try_catch; [done|].
  intros [c m|]; [apply Hh|apply answers_raise].
Qed.

Ltac answers_step :=
  first
    [ apply answers_ret; by eauto
    | apply answers_raise
    | apply answers_bind; intros ?
    | apply answers_except_Exception; [|intros ? ?]
    | apply answers_try_catch; [|intros ?]
    | match goal with
      | |- answers (if ?b then _ else _) => destruct b
      | |- answers (match ?x with _ => _ end) => destruct x
      end ].

Ltac answers_with tac := repeat first [tac | answers_step].

(** ** The four tools as the dispatcher sees them *)

Lemma answers_handle_number_race env content :
  answers (handle_number_race env content).
Proof. unfold handle_number_race. answers_with fail. Qed.

Lemma answers_handle_get_weather env content :
  answers (handle_get_weather env content).
Proof. unfold handle_get_weather. answers_with fail. Qed.

Lemma answers_handle_agent_search env content :
  answers (handle_agent_search env content).
Proof. unfold handle_agent_search. answers_with fail. Qed.

Lemma answers_handle_imageanalyzer env content :
  answers (handle_imageanalyzer env content).
Proof. unfold handle_imageanalyzer. answers_with fail. Qed.

Lemma never_cancelled_time_sleep env n : never_cancelled (time_sleep env n).
Proof. unfold time_sleep. never_cancelled_with fail. Qed.

Lemma never_cancelled_handle_number_race env content :
  never_cancelled (handle_number_race env content).
Proof.
  unfold handle_number_race.
  never_cancelled_with ltac:(apply never_cancelled_time_sleep).
Qed.

Lemma never_cancelled_call_weather_agent env prompt :
  (forall n p, weather_agent env n p <> Raise CancelledError) ->
  never_cancelled (call_weather_agent env prompt).
Proof. intros H w e E ->. by apply (H _ _ E). Qed.

Lemma never_cancelled_handle_get_weather env content :
  (forall n p, weather_agent env n p <> Raise CancelledError) ->
  never_cancelled (handle_get_weather env content).
Proof.
  intros H. unfold handle_get_weather.
  never_cancelled_with ltac:(by apply never_cancelled_call_weather_agent).
Qed.

Lemma never_cancelled_launch_background_tool_task id name factory :
  never_cancelled (launch_background_tool_task id name factory).
Proof. unfold launch_background_tool_task. never_cancelled_with fail. Qed.

Lemma never_cancelled_cache_pop key : never_cancelled (cache_pop key).
Proof. by intros w e. Qed.

Lemma never_cancelled_fresh_uuid env : never_cancelled (fresh_uuid env).
Proof. by intros w e. Qed.

Lemma never_cancelled_handle_agent_search env content :
  never_cancelled (handle_agent_search env content).
Proof.
  unfold handle_agent_search.
  never_cancelled_with ltac:(first [apply never_cancelled_cache_pop
                                   | apply never_cancelled_launch_background_tool_task]).
Qed.

Lemma never_cancelled_handle_imageanalyzer env content :
  never_cancelled (handle_imageanalyzer env content).
Proof.
  unfold handle_imageanalyzer.
  never_cancelled_with ltac:(first [apply never_cancelled_cache_pop
                                   | apply never_cancelled_fresh_uuid
                                   | apply never_cancelled_launch_background_tool_task]).
Qed.

Lemma preserves_session_handle_number_race env content :
  preserves session_view (handle_number_race env content).
Proof. unfold handle_number_race, time_sleep. preserves_with fail. Qed.

Lemma preserves_session_handle_get_weather env content :
  preserves session_view (handle_get_weather env content).
Proof. unfold handle_get_weather. preserves_with fail. Qed.

Lemma preserves_session_handle_agent_search env content :
  preserves session_view (handle_agent_search env content).
Proof.
  unfold handle_agent_search, launch_background_tool_task, cache_pop.
  preserves_with fail.
Qed.

Lemma preserves_session_handle_imageanalyzer env content :
  preserves session_view (handle_imageanalyzer env content).
Proof.
  unfold handle_imageanalyzer, launch_background_tool_task, cache_pop.
  preserves_with fail.
Qed.

Lemma builtin_handler_behaves env key h content :
  (forall n p, weather_agent env n p <> Raise CancelledError) ->
  tool_handlers env !! key = Some h ->
  answers (invoke_handler key h content)
  /\ never_cancelled (invoke_handler key h content)
  /\ preserves session_view (invoke_handler key h content).
Proof.
  intros Hw H. unfold invoke_handler, call_with_manager, call_plain.
  destruct (tool_handlers_lookup env key h H)
    as [-> | [-> | [[-> ->] | [-> ->]]]]; cbn.
  - destruct (_ || _)%bool.
    + split; [apply answers_raise|].
      split; [by apply raises_only_raise|]. apply preserves_raise.
    + split; [apply answers_handle_get_weather|].
      split; [by apply never_cancelled_handle_get_weather|].
      apply preserves_session_handle_get_weather.
  - destruct (_ || _)%bool.
    + split; [apply answers_raise|].
      split; [by apply raises_only_raise|]. apply preserves_raise.
    + split; [apply answers_handle_number_race|].
      split; [apply never_cancelled_handle_number_race|].
      apply preserves_session_handle_number_race.
  - split; [apply answers_handle_agent_search|].
    split; [apply never_cancelled_handle_agent_search|].
    apply preserves_session_handle_agent_search.
  - split; [apply answers_handle_imageanalyzer|].
    split; [apply never_cancelled_handle_imageanalyzer|].
    apply preserves_session_handle_imageanalyzer.
Qed.

(** With the four handlers of the manager, the dispatcher answers
    every tool name that is a text: it returns a result dict and keeps
    the session as it is. *)
Lemma processToolUse_builtin env name content w :
  (forall n p, weather_agent env n p <> Raise CancelledError) ->
  exists result w',
    processToolUse env (tool_handlers env) (JStr name) content w = (Ret result, w')
    /\ is_tool_result result
    /\ session_view w' = session_view w.
Proof.
  intros Hw.
  unfold processToolUse, mbind, M_bind, lift.
  cbn [log emit fst snd py_lower mgr trace uuid_calls].
  set (w1 := {| mgr := mgr w;
                trace := ELog DEBUG "Tool Use Content"
                         :: ELog INFO "Processing Tool Use" :: trace w;
                uuid_calls := uuid_calls w |}).
  assert (H1 : session_view w1 = session_view w) by done.
  destruct (tool_handlers env !! lower name) as [h|] eqn:Hh.
  - destruct (builtin_handler_behaves env (lower name) h content Hw Hh)
      as (Hans & Hnc & Hpres).
    unfold except_Exception, try_catch.
    specialize (Hans w1). specialize (Hnc w1 CancelledError).
    specialize (Hpres w1).
    destruct (invoke_handler (lower name) h content w1) as [[v|[c m|]] w2];
      cbn [fst snd] in *.
    + exists v, w2. split; [reflexivity|]. split; [by apply Hans|congruence].
    + eexists _, _. split; [reflexivity|]. split.
      * eexists _, "error". split; [reflexivity|by right].
      * transitivity (session_view w2); [done|congruence].
    + by destruct Hnc.
  - eexists _, _. split; [reflexivity|]. split; [|done].
    eexists _, "error". split; [reflexivity|by right].
Qed.

(** X11: for every tool name and every tool use content,
    [processToolUse] returns a result dict with status [success] or
    [error], as long as the weather agent is not cancelled.  It leaves
    alone the state of the stream, the names of the session, the tool
    use being collected and both queues, and hands nothing to the
    stream or to the websocket. *)
Theorem processToolUse_always_answers
    (env : Env) (name : string) (toolUseContent : json) (w : World) :
  (forall n p, weather_agent env n p <> Raise CancelledError) ->
  exists text status w',
    processToolUse env (tool_handlers env) (JStr name) toolUseContent w
      = (Ret (result_dict text status), w')
    /\ (status = "success" \/ status = "error")
    /\ session_view w' = session_view w.
Proof.
  intros Hw.
  destruct (processToolUse_builtin env name toolUseContent w Hw)
    as (result & w' & E & (text & status & -> & Hs) & Hv).
  by exists text, status, w'.
Qed.

(** ** The end of a tool use *)

(** The branch for the end of a tool use: the dispatcher's answer goes
    upstream as a start, a result and an end event under one fresh
    content name. *)
Lemma process_tool_content_end_sends_three
    (env : Env) (name : string) (w : World) :
  (forall n p, weather_agent env n p <> Raise CancelledError) ->
  (forall n, upstream_send env n <> Raise CancelledError) ->
  stream_response (mgr w) = true ->
  is_active (mgr w) = true ->
  toolName (mgr w) = JStr name ->
  exists text status w1 w',
    processToolUse env (tool_handlers env) (toolName (mgr w)) (toolUseContent (mgr w))
      (with_trace w [ELog INFO "Processing tool use and sending result"])
      = (Ret (result_dict text status), w1)
    /\ (status = "success" \/ status = "error")
    /\ process_tool_content_end env (tool_handlers env) w = (Ret (), w')
    /\ output_queue (mgr w') = output_queue (mgr w)
    /\ sent_upstream (trace w') =
         (sent_upstream (trace w)
          ++ [json_dumps env
                (tool_start_event (prompt_name (mgr w)) (uuid4 env (uuid_calls w1))
                   (toolUseId (mgr w)));
              json_dumps env
                (tool_result_event (prompt_name (mgr w)) (uuid4 env (uuid_calls w1))
                   (json_dumps env (result_dict text status)) status);
              json_dumps env
                (tool_content_end_event (prompt_name (mgr w))
                   (uuid4 env (uuid_calls w1)))])%list.
Proof.
  intros Hw Hsend Hs Ha Hname.
  set (w0 := with_trace w [ELog INFO "Processing tool use and sending result"]).
  rewrite Hname.
  destruct (processToolUse_builtin env name (toolUseContent (mgr w)) w0 Hw)
    as (result & w1 & E1 & (text & status & -> & Hst) & Hv1).
  exists text, status, w1.
  injection Hv1 as Hs1 Ha1 Hp1 _ _ Hid1 _ _ Hq1 Hu1 _.
  cbn [w0 with_trace mgr trace rev_append] in Hs1, Ha1, Hp1, Hid1, Hq1, Hu1.
  assert (Hu0 : sent_upstream (trace w1) = sent_upstream (trace w)) by exact Hu1.
  clear Hu1.
  cut (exists w',
         process_tool_content_end env (tool_handlers env) w = (Ret (), w')
         /\ output_queue (mgr w') = output_queue (mgr w)
         /\ sent_upstream (trace w') =
              (sent_upstream (trace w)
               ++ [json_dumps env
                     (tool_start_event (prompt_name (mgr w)) (uuid4 env (uuid_calls w1))
                        (toolUseId (mgr w)));
                   json_dumps env
                     (tool_result_event (prompt_name (mgr w)) (uuid4 env (uuid_calls w1))
                        (json_dumps env (result_dict text status)) status);
                   json_dumps env
                     (tool_content_end_event (prompt_name (mgr w))
                        (uuid4 env (uuid_calls w1)))])%list).
  { intros (w' & Hrun & Hq & Hh). exists w'.
    split; [exact E1|]. split; [exact Hst|]. split; [exact Hrun|].
    split; [exact Hq|exact Hh]. }
  unfold process_tool_content_end, mbind, M_bind, get_mgr.
  cbn [log emit fst snd mgr]. rewrite Hname.
  change {| mgr := mgr w;
            trace := ELog INFO "Processing tool use and sending result" :: trace w;
            uuid_calls := uuid_calls w |} with w0.
  rewrite E1. unfold fresh_uuid. cbn [fst snd mgr trace uuid_calls].
  match goal with
  | |- context [send_raw_event env ?ev ?wx] =>
      destruct (send_raw_event_sends env ev _ wx eq_refl Hsend)
        as (w2 & E2 & Hm2 & Hc2 & Hh2);
        [cbn [mgr]; congruence..|rewrite E2];
        cbn [mgr trace uuid_calls] in Hm2, Hc2, Hh2
  end.
  cbn [result_dict log emit fst snd mgr trace uuid_calls].
  assert (Hstatus : tool_result_status (result_dict text status) = Ret status).
  { by destruct Hst as [-> | ->]. }
  unfold lift. rewrite Hstatus.
  match goal with
  | |- context [send_raw_event env ?ev ?wx] =>
      destruct (send_raw_event_sends env ev _ wx eq_refl Hsend)
        as (w3 & E3 & Hm3 & Hc3 & Hh3);
        [cbn [mgr]; congruence..|rewrite E3];
        cbn [mgr trace uuid_calls] in Hm3, Hc3, Hh3
  end.
  cbn [log emit fst snd mgr trace uuid_calls].
  match goal with
  | |- context [send_raw_event env ?ev ?wx] =>
      destruct (send_raw_event_sends env ev _ wx eq_refl Hsend)
        as (w4 & E4 & Hm4 & Hc4 & Hh4);
        [cbn [mgr]; congruence..|rewrite E4];
        cbn [mgr trace uuid_calls] in Hm4, Hc4, Hh4
  end.
  exists w4. split; [reflexivity|].
  cbn [mgr trace] in *.
  split; [congruence|].
  rewrite Hh4. hist. rewrite Hh3. hist. rewrite Hh2. hist. rewrite Hu0.
  rewrite Hm3, Hm2, Hp1, Hid1. cbn [content_json_string result_dict].
  by rewrite <- !app_assoc.
Qed.

(** ** The status of a tool result sent upstream *)

(** The same branch for any table of handlers: whatever dict the
    dispatcher returns, it goes upstream between a start and an end
    event with the status the loop works out. *)
Lemma process_tool_content_end_sends
    (env : Env) (handlers : gmap string handler)
    (payload : list (string * json)) (status : string) (w w1 : World) :
  (forall n, upstream_send env n <> Raise CancelledError) ->
  processToolUse env handlers (toolName (mgr w)) (toolUseContent (mgr w))
    (with_trace w [ELog INFO "Processing tool use and sending result"])
    = (Ret (JObj payload), w1) ->
  stream_response (mgr w1) = true ->
  is_active (mgr w1) = true ->
  tool_result_status (JObj payload) = Ret status ->
  exists w',
    process_tool_content_end env handlers w = (Ret (), w')
    /\ output_queue (mgr w') = output_queue (mgr w1)
    /\ sent_upstream (trace w') =
         (sent_upstream (trace w1)
          ++ [json_dumps env
                (tool_start_event (prompt_name (mgr w1)) (uuid4 env (uuid_calls w1))
                   (toolUseId (mgr w1)));
              json_dumps env
                (tool_result_event (prompt_name (mgr w1)) (uuid4 env (uuid_calls w1))
                   (json_dumps env (JObj payload)) status);
              json_dumps env
                (tool_content_end_event (prompt_name (mgr w1))
                   (uuid4 env (uuid_calls w1)))])%list.
Proof.
  intros Hsend E1 Hs1 Ha1 Hstatus.
  unfold process_tool_content_end, mbind, M_bind, get_mgr.
  cbn [log emit fst snd mgr].
  change {| mgr := mgr w;
            trace := ELog INFO "Processing tool use and sending result" :: trace w;
            uuid_calls := uuid_calls w |}
    with (with_trace w [ELog INFO "Processing tool use and sending result"]).
  rewrite E1. unfold fresh_uuid. cbn [fst snd mgr trace uuid_calls].
  match goal with
  | |- context [send_raw_event env ?ev ?wx] =>
      destruct (send_raw_event_sends env ev _ wx eq_refl Hsend)
        as (w2 & E2 & Hm2 & Hc2 & Hh2);
        [cbn [mgr]; congruence..|rewrite E2];
        cbn [mgr trace uuid_calls] in Hm2, Hc2, Hh2
  end.
  cbn [log emit fst snd mgr trace uuid_calls].
  unfold lift. rewrite Hstatus.
  match goal with
  | |- context [send_raw_event env ?ev ?wx] =>
      destruct (send_raw_event_sends env ev _ wx eq_refl Hsend)
        as (w3 & E3 & Hm3 & Hc3 & Hh3);
        [cbn [mgr]; congruence..|rewrite E3];
        cbn [mgr trace uuid_calls] in Hm3, Hc3, Hh3
  end.
  cbn [log emit fst snd mgr trace uuid_calls].
  match goal with
  | |- context [send_raw_event env ?ev ?wx] =>
      destruct (send_raw_event_sends env ev _ wx eq_refl Hsend)
        as (w4 & E4 & Hm4 & Hc4 & Hh4);
        [cbn [mgr]; congruence..|rewrite E4];
        cbn [mgr trace uuid_calls] in Hm4, Hc4, Hh4
  end.
  exists w4. split; [reflexivity|].
  cbn [mgr trace] in *.
  split; [congruence|].
  rewrite Hh4. hist. rewrite Hh3. hist. rewrite Hh2. hist.
  rewrite Hm3, Hm2. cbn [content_json_string].
  by rewrite <- !app_assoc.
Qed.

(** C9: when the response loop builds the upstream [toolResult] event
    from a dispatch payload, the event's status is [error] exactly when
    the payload's [status] field is the text [error]; any other value,
    or no [status] field, gives [success].  On a [contentEnd] message
    of type [TOOL], whatever handlers are registered: if the dispatcher
    returns the dict [payload] and the stream is open, the turn goes on
    and has handed to the stream a start event, the [toolResult] event
    with the serialized payload and this status, and an end event. *)
Theorem tool_result_status_normalized
    (env : Env) (handlers : gmap string handler) (response_data : string)
    (fields event : list (string * json)) (content_end : json)
    (payload : list (string * json)) (w w1 : World) :
  (forall n, upstream_send env n <> Raise CancelledError) ->
  py_json_loads env (JStr response_data) = Ret (JObj fields) ->
  assoc "event" fields = Some (JObj event) ->
  assoc "contentStart" event = None ->
  assoc "textOutput" event = None ->
  assoc "toolUse" event = None ->
  assoc "contentEnd" event = Some content_end ->
  py_get content_end "type" JNull = Ret (JStr "TOOL") ->
  processToolUse env handlers (toolName (mgr w)) (toolUseContent (mgr w))
    (with_trace w [ELog INFO "Processing tool use and sending result"])
    = (Ret (JObj payload), w1) ->
  stream_response (mgr w1) = true ->
  is_active (mgr w1) = true ->
  exists status w',
    (assoc "status" payload = Some (JStr "error") -> status = "error")
    /\ (assoc "status" payload <> Some (JStr "error") -> status = "success")
    /\ loop_turn env handlers (Received response_data) w = (Ret true, w')
    /\ field_path ["event"; "toolResult"; "status"]
         (tool_result_event (prompt_name (mgr w1)) (uuid4 env (uuid_calls w1))
            (json_dumps env (JObj payload)) status)
       = Some (JStr status)
    /\ sent_upstream (trace w') =
         (sent_upstream (trace w1)
          ++ [json_dumps env
                (tool_start_event (prompt_name (mgr w1)) (uuid4 env (uuid_calls w1))
                   (toolUseId (mgr w1)));
              json_dumps env
                (tool_result_event (prompt_name (mgr w1)) (uuid4 env (uuid_calls w1))
                   (json_dumps env (JObj payload)) status);
              json_dumps env
                (tool_content_end_event (prompt_name (mgr w1))
                   (uuid4 env (uuid_calls w1)))])%list.
Proof.
  intros Hsend Hparse Hev H1 H2 H3 H4 Htype E1 Hs1 Ha1.
  assert (Hstatus : exists status,
            tool_result_status (JObj payload) = Ret status
            /\ (assoc "status" payload = Some (JStr "error") -> status = "error")
            /\ (assoc "status" payload <> Some (JStr "error") -> status = "success")).
  { unfold tool_result_status, py_get.
    destruct (assoc "status" payload) as [v|] eqn:Hv; cbn [default from_option id].
    - destruct (json_is_str v "error") eqn:Herr.
      + exists "error". repeat split; try reflexivity.
        intros Hne. exfalso. apply Hne.
        destruct v; try discriminate. cbn in Herr.
        apply String.eqb_eq in Herr. by subst.
      + exists "success". repeat split; try reflexivity.
        intros [= ->]. discriminate.
    - exists "success". repeat split; try reflexivity. discriminate. }
  destruct Hstatus as (status & Hstatus & Herr & Hok).
  destruct (process_tool_content_end_sends env handlers payload status w w1
              Hsend E1 Hs1 Ha1 Hstatus) as (w' & Hrun & Hq & Hh).
  exists status. eexists.
  split; [exact Herr|]. split; [exact Hok|].
  unfold loop_turn, process_response_data, process_event.
  unfold try_catch, mbind, M_bind, lift.
  rewrite Hparse. cbn [py_in py_getitem]. rewrite Hev.
  cbn -[process_tool_content_end]. rewrite H1, H2, H3, H4.
  cbn -[process_tool_content_end]. rewrite Htype.
  cbn -[process_tool_content_end]. rewrite Hrun.
  split; [reflexivity|]. split; [reflexivity|].
  cbn [mgr trace output_queue set_output_queue]. exact Hh.
Qed.

(** ** What the response loop does with a message *)

(** X12: a text from upstream that [json.loads] rejects with a
    [JSONDecodeError] does not stop the response loop: the turn logs an
    error, puts [{raw_data: text, error: JSONDecodeError}] on the
    outbound queue, changes nothing else and goes on.  When the decoder
    raises another exception (a [RecursionError] on deep nesting, a
    [ValueError] on an integer of too many digits), the clause for
    [JSONDecodeError] does not apply: the turn ends like a receive
    error, it deactivates the session, queues the fatal notification
    if the message asks for one, and leaves the loop. *)
Theorem loop_forwards_undecodable_text
    (env : Env) (handlers : gmap string handler) (response_data : string)
    (w : World) :
  (forall msg,
      py_json_loads env (JStr response_data) = Raise (Exn JSONDecodeError msg) ->
      loop_turn env handlers (Received response_data) w =
        (Ret true,
         with_trace
           (with_mgr w
              (set_output_queue
                 (output_queue (mgr w) ++ [json_decode_error_payload response_data])
                 (mgr w)))
           [ELog ERROR "Failed to parse JSON from Bedrock"]))
  /\ (forall cls msg,
        py_json_loads env (JStr response_data) = Raise (Exn cls msg) ->
        cls <> JSONDecodeError -> cls <> StopAsyncIteration ->
        loop_turn env handlers (Received response_data) w =
          (Ret false, after_receive_error msg w)).
Proof.
  split.
  - intros msg Hparse.
    unfold loop_turn, process_response_data, try_catch, mbind, M_bind, lift.
    rewrite Hparse. reflexivity.
  - intros cls msg Hparse Hjson Hstop.
    rewrite <- (loop_turn_receive_error env handlers
                  (ReceiveRaises (Exn cls msg)) cls msg w); [|by right|done].
    unfold loop_turn, process_response_data, try_catch, mbind, M_bind, lift.
    rewrite Hparse. by destruct cls.
Qed.

(** X13: a message from upstream whose event is none of [contentStart],
    [textOutput], [toolUse] and [contentEnd] (an [audioOutput], say) is
    put on the outbound queue as it was decoded; the turn changes
    nothing else, logs nothing and goes on. *)
Theorem loop_forwards_other_events_verbatim
    (env : Env) (handlers : gmap string handler) (response_data : string)
    (fields event : list (string * json)) (w : World) :
  py_json_loads env (JStr response_data) = Ret (JObj fields) ->
  assoc "event" fields = Some (JObj event) ->
  assoc "contentStart" event = None ->
  assoc "textOutput" event = None ->
  assoc "toolUse" event = None ->
  assoc "contentEnd" event = None ->
  loop_turn env handlers (Received response_data) w =
    (Ret true,
     with_mgr w (set_output_queue (output_queue (mgr w) ++ [JObj fields]) (mgr w))).
Proof.
  intros Hparse Hev H1 H2 H3 H4.
  unfold loop_turn, process_response_data, process_event.
  unfold try_catch, mbind, M_bind, lift.
  rewrite Hparse. cbn [py_in py_getitem]. rewrite Hev.
  cbn. rewrite H1, H2, H3, H4. cbn. reflexivity.
Qed.

(** X14: on a [toolUse] event with a tool name and a tool use id, the
    turn stores the content, the name and the id of the tool use in
    the manager, puts the message on the outbound queue and goes on. *)
Theorem loop_records_the_tool_use
    (env : Env) (handlers : gmap string handler) (response_data : string)
    (fields event : list (string * json)) (tool_use name id : json) (w : World) :
  py_json_loads env (JStr response_data) = Ret (JObj fields) ->
  assoc "event" fields = Some (JObj event) ->
  assoc "contentStart" event = None ->
  assoc "textOutput" event = None ->
  assoc "toolUse" event = Some tool_use ->
  py_getitem tool_use "toolName" = Ret name ->
  py_getitem tool_use "toolUseId" = Ret id ->
  loop_turn env handlers (Received response_data) w =
    (Ret true,
     with_trace
       (with_mgr w
          (set_output_queue (output_queue (mgr w) ++ [JObj fields])
             (set_toolUseId id
                (set_toolName name (set_toolUseContent tool_use (mgr w))))))
       [ELog INFO "Tool use detected"]).
Proof.
  intros Hparse Hev H1 H2 H3 Hn Hi.
  unfold loop_turn, process_response_data, process_event.
  unfold try_catch, mbind, M_bind, lift.
  rewrite Hparse. cbn [py_in py_getitem]. rewrite Hev.
  cbn. rewrite H1, H2, H3. cbn. rewrite Hn. cbn. rewrite Hi. reflexivity.
Qed.

(** X15: on a [contentEnd] event of type [TOOL], on an open stream and
    with a text as the stored tool name, the turn runs
    [processToolUse] on the stored tool use and hands three events to
    the stream, in this order and under one fresh content name: the
    [contentStart] with the stored tool use id, the [toolResult] with
    the serialized result dict and its status, and the [contentEnd].
    The message itself goes on the outbound queue and the loop goes
    on. *)
Theorem tool_use_end_sends_the_result_upstream
    (env : Env) (response_data name : string)
    (fields event : list (string * json)) (content_end : json) (w : World) :
  (forall n p, weather_agent env n p <> Raise CancelledError) ->
  (forall n, upstream_send env n <> Raise CancelledError) ->
  stream_response (mgr w) = true ->
  is_active (mgr w) = true ->
  toolName (mgr w) = JStr name ->
  py_json_loads env (JStr response_data) = Ret (JObj fields) ->
  assoc "event" fields = Some (JObj event) ->
  assoc "contentStart" event = None ->
  assoc "textOutput" event = None ->
  assoc "toolUse" event = None ->
  assoc "contentEnd" event = Some content_end ->
  py_get content_end "type" JNull = Ret (JStr "TOOL") ->
  exists text status w1 w',
    processToolUse env (tool_handlers env) (toolName (mgr w)) (toolUseContent (mgr w))
      (with_trace w [ELog INFO "Processing tool use and sending result"])
      = (Ret (result_dict text status), w1)
    /\ (status = "success" \/ status = "error")
    /\ loop_turn env (tool_handlers env) (Received response_data) w = (Ret true, w')
    /\ output_queue (mgr w') = (output_queue (mgr w) ++ [JObj fields])%list
    /\ sent_upstream (trace w') =
         (sent_upstream (trace w)
          ++ [json_dumps env
                (tool_start_event (prompt_name (mgr w)) (uuid4 env (uuid_calls w1))
                   (toolUseId (mgr w)));
              json_dumps env
                (tool_result_event (prompt_name (mgr w)) (uuid4 env (uuid_calls w1))
                   (json_dumps env (result_dict text status)) status);
              json_dumps env
                (tool_content_end_event (prompt_name (mgr w))
                   (uuid4 env (uuid_calls w1)))])%list.
Proof.
  intros Hw Hsend Hs Ha Hname Hparse Hev H1 H2 H3 H4 Htype.
  destruct (process_tool_content_end_sends_three env name w Hw Hsend Hs Ha Hname)
    as (text & status & w1 & w' & E1 & Hst & Hrun & Hq & Hh).
  exists text, status, w1.
  eexists. split; [exact E1|]. split; [exact Hst|].
  unfold loop_turn, process_response_data, process_event.
  unfold try_catch, mbind, M_bind, lift.
  rewrite Hparse. cbn [py_in py_getitem]. rewrite Hev.
  cbn -[process_tool_content_end]. rewrite H1, H2, H3, H4.
  cbn -[process_tool_content_end]. rewrite Htype.
  cbn -[process_tool_content_end]. rewrite Hrun.
  split; [reflexivity|].
  cbn [mgr trace output_queue set_output_queue]. by rewrite Hq, Hh.
Qed.

(** ** Every message is relayed once *)

Lemma preserves_weaken {A B C} (view : World -> B) (view' : World -> C) (c : M A) :
  (forall w w', view w' = view w -> view' w' = view' w) ->
  preserves view c -> preserves view' c.
Proof. intros H Hc w. apply H, Hc. Qed.

Lemma preserves_session_invoke_handler env key h content :
  tool_handlers env !! key = Some h ->
  preserves session_view (invoke_handler key h content).
Proof.
  intros H. unfold invoke_handler, call_with_manager, call_plain.
  destruct (tool_handlers_lookup env key h H)
    as [-> | [-> | [[-> ->] | [-> ->]]]]; cbn.
  - destruct (_ || _)%bool;
      [apply preserves_raise|apply preserves_session_handle_get_weather].
  - destruct (_ || _)%bool;
      [apply preserves_raise|apply preserves_session_handle_number_race].
  - apply preserves_session_handle_agent_search.
  - apply preserves_session_handle_imageanalyzer.
Qed.

Lemma preserves_outbound_processToolUse env name content :
  preserves outbound (processToolUse env (tool_handlers env) name content).
Proof.
  unfold processToolUse.
  apply preserves_bind; [by intros ?|intros _].
  apply preserves_bind; [by intros ?|intros _].
  apply preserves_bind; [apply preserves_lift|intros tool_key].
  destruct (tool_handlers env !! tool_key) as [h|] eqn:Hh;
    [|preserves_with fail].
  apply preserves_except_Exception; [|intros; preserves_with fail].
  apply (preserves_weaken session_view);
    [|by apply (preserves_session_invoke_handler env)].
  by intros w w' [= _ _ _ _ _ _ _ _ ? _ _].
Qed.

Lemma preserves_outbound_send_raw_event env event_data :
  preserves outbound (send_raw_event env event_data).
Proof. unfold send_raw_event. preserves_with fail. Qed.

Lemma preserves_outbound_process_tool_content_end env :
  preserves outbound (process_tool_content_end env (tool_handlers env)).
Proof.
  unfold process_tool_content_end.
  preserves_with ltac:(first [apply preserves_outbound_processToolUse
                             | apply preserves_outbound_send_raw_event]).
Qed.

Lemma preserves_outbound_process_event env json_data :
  preserves outbound (process_event env (tool_handlers env) json_data).
Proof.
  unfold process_event.
  preserves_with ltac:(apply preserves_outbound_process_tool_content_end).
Qed.

(** The dynamic operations other than [json.loads] raise no
    [JSONDecodeError]. *)
Lemma py_get_not_json v k d e :
  py_get v k d = Raise e -> is_json_decode_error e = false.
Proof. destruct v; cbn; by intros [= <-]. Qed.

Lemma py_getitem_not_json v k e :
  py_getitem v k = Raise e -> is_json_decode_error e = false.
Proof. destruct v; cbn; try by intros [= <-]. case_match; by intros [= <-]. Qed.

Lemma py_in_not_json k v e :
  py_in k v = Raise e -> is_json_decode_error e = false.
Proof. destruct v; cbn; by intros [= <-]. Qed.

Lemma py_keys_not_json v e :
  py_keys v = Raise e -> is_json_decode_error e = false.
Proof. destruct v; cbn; by intros [= <-]. Qed.

Lemma py_lower_not_json v e :
  py_lower v = Raise e -> is_json_decode_error e = false.
Proof. destruct v; cbn; by intros [= <-]. Qed.

Lemma tool_result_status_not_json v e :
  tool_result_status v = Raise e -> is_json_decode_error e = false.
Proof.
  unfold tool_result_status. destruct (py_get v "status" JNull) eqn:E;
    intros [= <-]. by apply py_get_not_json in E.
Qed.

Ltac pure_no_json_error :=
  let e := fresh "e" in
  let E := fresh "E" in
  intros e E;
  first [ apply py_get_not_json in E | apply py_getitem_not_json in E
        | apply py_in_not_json in E | apply py_keys_not_json in E
        | apply py_lower_not_json in E | apply tool_result_status_not_json in E ];
  exact E.

Ltac no_json_error_step :=
  first
    [ apply raises_only_ret | apply raises_only_raise; by first [reflexivity|assumption]
    | apply raises_only_log | apply raises_only_emit
    | apply raises_only_get_mgr | apply raises_only_modify_mgr
    | apply raises_only_lift; pure_no_json_error
    | apply raises_only_bind; [|intros ?]
    | apply raises_only_except_Exception; [by left|intros ? ?]
    | match goal with
      | |- no_json_error ?c => unfold no_json_error
      | |- raises_only _ (if ?b then _ else _) => destruct b eqn:?
      | |- raises_only _ (match ?x with _ => _ end) => destruct x
      end ].

Ltac no_json_error_with tac := repeat first [tac | no_json_error_step].

Lemma no_json_error_fresh_uuid env : no_json_error (fresh_uuid env).
Proof. by intros w e. Qed.

Lemma no_json_error_processToolUse env handlers name content :
  no_json_error (processToolUse env handlers name content).
Proof. unfold processToolUse. no_json_error_with fail. Qed.

Lemma no_json_error_send_raw_event env event_data :
  no_json_error (send_raw_event env event_data).
Proof. unfold send_raw_event. no_json_error_with fail. Qed.

Lemma no_json_error_process_tool_content_end env handlers :
  no_json_error (process_tool_content_end env handlers).
Proof.
  unfold process_tool_content_end.
  no_json_error_with ltac:(first [apply no_json_error_processToolUse
                                 | apply no_json_error_send_raw_event
                                 | apply no_json_error_fresh_uuid]).
Qed.

Lemma no_json_error_process_event env handlers json_data :
  no_json_error (process_event env handlers json_data).
Proof.
  unfold process_event.
  no_json_error_with ltac:(first
    [ apply no_json_error_process_tool_content_end
    | apply (raises_only_try_catch _ (fun _ => True));
        [by intros ? ? ?|intros ? _] ]).
Qed.

Lemma process_response_data_relays env response_data w w1 :
  process_response_data env (tool_handlers env) response_data w = (Ret (), w1) ->
  outbound w1 = (outbound w ++ [relayed env response_data])%list.
Proof.
  unfold process_response_data, relayed, try_catch, mbind, M_bind, lift.
  destruct (py_json_loads env (JStr response_data)) as [json_data|e] eqn:Hparse.
  - destruct (py_in "event" json_data) as [has_event|e] eqn:Hin.
    + pose proof (preserves_outbound_process_event env json_data w) as Hq.
      pose proof (no_json_error_process_event env (tool_handlers env) json_data w) as Hj.
      assert (Hrun : forall r w2,
                (if has_event then process_event env (tool_handlers env) json_data
                 else mret ()) w = (r, w2) ->
                outbound w2 = outbound w
                /\ forall e, r = Raise e -> is_json_decode_error e = false).
      { intros r w2 E. destruct has_event.
        - rewrite E in Hq, Hj. split; [exact Hq|]. intros e ->. by apply Hj.
        - injection E as <- <-. by split. }
      set (c := (if has_event
                 then process_event env (tool_handlers env) json_data
                 else mret ()) : M unit) in *.
      destruct (c w) as [[[]|e] w2] eqn:E;
        destruct (Hrun _ _ eq_refl) as [Hq2 Hj2].
      * intros [= <-]. unfold outbound in *. cbn. by rewrite Hq2.
      * rewrite (Hj2 e eq_refl). discriminate.
    + apply py_in_not_json in Hin. rewrite Hin. discriminate.
  - destruct (is_json_decode_error e); [|discriminate].
    by intros [= <-].
Qed.

(** X16: a turn of the response loop that goes on after receiving a text
    has put exactly one item at the end of the outbound queue: the
    value the text decodes to, or the text under [raw_data] with the
    error mark when it is not JSON.  Tool handling in between adds
    nothing to the queue and takes nothing from it. *)
Theorem loop_relays_each_message_once
    (env : Env) (response_data : string) (w w' : World) :
  loop_turn env (tool_handlers env) (Received response_data) w = (Ret true, w') ->
  output_queue (mgr w') =
    (output_queue (mgr w) ++ [relayed env response_data])%list.
Proof.
  unfold loop_turn, try_catch, mbind, M_bind.
  destruct (process_response_data env (tool_handlers env) response_data w)
    as [[[]|e] w1] eqn:E.
  - intros [= <-]. by apply process_response_data_relays.
  - destruct e as [c m|]; [|discriminate].
    unfold lift, first_line.
    destruct c; cbn; destruct (is_fatal_bedrock_error m); try discriminate;
      destruct m; discriminate.
Qed.

(** ** The forwarder *)

Lemma describe_response_reads_only response :
  preserves (fun w => w) (describe_response response).
Proof. unfold describe_response. preserves_with fail. Qed.

Lemma forward_one_sends env response w :
  response <> JNull ->
  ((describe_response response w).1 <> Ret ()
   /\ (forall b, (forward_one env response w).1 <> Ret b)
   /\ sent_to_websocket (trace (forward_one env response w).2) =
        sent_to_websocket (trace w))
  \/ (sent_to_websocket (trace (forward_one env response w).2) =
        (sent_to_websocket (trace w) ++ [json_dumps env response])%list
      /\ ((forward_one env response w).1 = Ret true
          <-> websocket_send env (websocket_sends (trace w)) = Ret ())).
Proof.
  intros Hne.
  assert (Hgo : let c := (describe_response response;;
                   log DEBUG "FORWARD_TASK: Dequeued. About to send to WebSocket.";;
                   try_catch
                     (ws_send env (json_dumps env response);;
                      log DEBUG "FORWARD_TASK: Successfully sent to WebSocket.";;
                      mret true)
                     (fun e =>
                        match e with
                        | Exn ConnectionClosed _ =>
                            log WARNING "FORWARD_TASK: WebSocket connection closed while trying to send. Terminating forwarder.";;
                            mret false
                        | Exn _ _ =>
                            log ERROR "FORWARD_TASK: Error sending to WebSocket";;
                            mret false
                        | CancelledError => raise CancelledError
                        end)) in
            ((describe_response response w).1 <> Ret ()
             /\ (forall b, (c w).1 <> Ret b)
             /\ sent_to_websocket (trace (c w).2) = sent_to_websocket (trace w))
            \/ (sent_to_websocket (trace (c w).2) =
                  (sent_to_websocket (trace w) ++ [json_dumps env response])%list
                /\ ((c w).1 = Ret true
                    <-> websocket_send env (websocket_sends (trace w)) = Ret ()))).
  { cbn zeta. unfold try_catch, ws_send, mbind, M_bind.
    pose proof (describe_response_reads_only response w) as Hd.
    destruct (describe_response response w) as [[[]|e] w1]; cbn in Hd; subst w1;
      [|by left].
    right. cbn [log emit fst snd trace].
    change (websocket_sends (ELog DEBUG "FORWARD_TASK: Dequeued. About to send to WebSocket."
                             :: trace w))
      with (websocket_sends (trace w)).
    destruct (websocket_send env (websocket_sends (trace w))) as [[]|[c m|]].
    - split; [by hist|done].
    - destruct c; (split; [by hist|]); split; discriminate.
    - split; [by hist|]. split; discriminate. }
  destruct response; try done; exact Hgo.
Qed.

Lemma json_null_dec (x : json) : x = JNull \/ x <> JNull.
Proof. destruct x; first [by left|by right]. Qed.

Lemma before_sentinel_cons x rest :
  x <> JNull -> before_sentinel (x :: rest) = x :: before_sentinel rest.
Proof. by destruct x. Qed.

Lemma forward_loop_sends_a_prefix env items w :
  exists k,
    sent_to_websocket (trace (forward_loop env items w).2) =
      (sent_to_websocket (trace w)
       ++ (json_dumps env <$> take k (before_sentinel items)))%list.
Proof.
  revert w. induction items as [|x rest IH]; intros w.
  - exists 0%nat. cbn. by rewrite app_nil_r.
  - cbn [forward_loop]. unfold mbind, M_bind, modify_mgr. cbn [fst snd].
    set (w0 := {| mgr := set_output_queue rest (mgr w); trace := trace w;
                  uuid_calls := uuid_calls w |}).
    destruct (json_null_dec x) as [->|Hx].
    { exists 0%nat. cbn. by rewrite app_nil_r. }
    rewrite (before_sentinel_cons x rest Hx).
    destruct (forward_one_sends env x w0 Hx) as [(_ & Hr & Hs)|[Hs Hr]].
    + exists 0%nat. destruct (forward_one env x w0) as [[b|e] w1]; cbn in *.
      * by destruct (Hr b).
      * by rewrite Hs, app_nil_r.
    + destruct (forward_one env x w0) as [[[]|e] w1]; cbn [fst snd] in *.
      * destruct (IH w1) as (k & Hk). exists (S k). cbv beta iota.
        rewrite Hk, Hs. cbn. by rewrite <- app_assoc.
      * exists 1%nat. cbv beta iota. cbn [snd trace mret M_ret]. by rewrite Hs.
      * exists 1%nat. cbn [snd trace]. by rewrite Hs.
Qed.

Lemma forward_loop_sends_all env items w :
  (forall n, websocket_send env n = Ret ()) ->
  (forall x w0, x ∈ before_sentinel items -> (describe_response x w0).1 = Ret ()) ->
  (forward_loop env items w).1 = Ret (has_sentinel items)
  /\ sent_to_websocket (trace (forward_loop env items w).2) =
       (sent_to_websocket (trace w)
        ++ (json_dumps env <$> before_sentinel items))%list.
Proof.
  intros Hsend. revert w. induction items as [|x rest IH]; intros w Hdesc.
  - cbn. by rewrite app_nil_r.
  - cbn [forward_loop]. unfold mbind, M_bind, modify_mgr. cbn [fst snd].
    set (w0 := {| mgr := set_output_queue rest (mgr w); trace := trace w;
                  uuid_calls := uuid_calls w |}).
    destruct (json_null_dec x) as [->|Hx].
    { cbn. rewrite app_nil_r. split; [done|by hist]. }
    rewrite (before_sentinel_cons x rest Hx) in Hdesc |- *.
    destruct (forward_one_sends env x w0 Hx) as [(Hd & _)|[Hs Hr]].
    + destruct Hd. apply Hdesc. by left.
    + destruct Hr as [_ Hr]. specialize (Hr (Hsend _)).
      destruct (forward_one env x w0) as [r w1]; cbn [fst snd] in *. subst r.
      destruct (IH w1) as [Hres Hall].
      { intros y w2 Hy. apply Hdesc. by right. }
      cbv beta iota. rewrite Hres, Hall, Hs. split.
      * by destruct x.
      * cbn. by rewrite <- app_assoc.
Qed.

(** X17: [forward_responses] lets no exception out, and what it hands to
    the websocket is, in the order of the queue, the serialization of a
    prefix of the items in front of the first [None].  When every send
    succeeds and every item can be described for the log, it is all of
    them, and the forwarder has ended exactly when the queue held a
    [None]. *)
Theorem forwarder_sends_in_order_up_to_the_sentinel (env : Env) (w : World) :
  (exists (b : bool) (w' : World) (k : nat),
      forward_responses env w = (Ret b, w')
      /\ sent_to_websocket (trace w') =
           (sent_to_websocket (trace w)
            ++ (json_dumps env <$> take k (before_sentinel (output_queue (mgr w)))))%list)
  /\ ((forall n, websocket_send env n = Ret ()) ->
      (forall x w0, x ∈ before_sentinel (output_queue (mgr w)) ->
                    (describe_response x w0).1 = Ret ()) ->
      exists w',
        forward_responses env w =
          (Ret (has_sentinel (output_queue (mgr w))), w')
        /\ sent_to_websocket (trace w') =
             (sent_to_websocket (trace w)
              ++ (json_dumps env <$> before_sentinel (output_queue (mgr w))))%list).
Proof.
  unfold forward_responses, observe, mbind, M_bind, get_mgr.
  cbn [log emit fst snd mgr].
  set (w0 := {| mgr := mgr w; trace := _; uuid_calls := uuid_calls w |}).
  assert (H0 : sent_to_websocket (trace w0) = sent_to_websocket (trace w)) by by hist.
  split.
  - destruct (forward_loop_sends_a_prefix env (output_queue (mgr w)) w0) as (k & Hk).
    rewrite H0 in Hk.
    destruct (forward_loop env (output_queue (mgr w)) w0) as [[[]|[c m|]] w1];
      cbn [fst snd] in *;
      eexists _, _, k; (split; [reflexivity|]); by hist.
  - intros Hsend Hdesc.
    destruct (forward_loop_sends_all env (output_queue (mgr w)) w0 Hsend Hdesc)
      as [Hres Hall].
    rewrite H0 in Hall.
    destruct (forward_loop env (output_queue (mgr w)) w0) as [r w1];
      cbn [fst snd] in *. subst r.
    destruct (has_sentinel _); eexists; (split; [reflexivity|]); by hist.
Qed.

(** ** The messages of the client *)

Lemma never_cancelled_input_stream_send env text :
  (forall n, upstream_send env n <> Raise CancelledError) ->
  never_cancelled (input_stream_send env text).
Proof. intros H w e E ->. by apply (H _ E). Qed.

Lemma never_cancelled_send_raw_event env event_data :
  (forall n, upstream_send env n <> Raise CancelledError) ->
  never_cancelled (send_raw_event env event_data).
Proof.
  intros H. unfold send_raw_event.
  never_cancelled_with ltac:(by apply never_cancelled_input_stream_send).
Qed.

Lemma never_cancelled_deliver_screenshot_data id url err :
  never_cancelled (deliver_screenshot_data id url err).
Proof.
  unfold deliver_screenshot_data, store_received. never_cancelled_with fail.
Qed.

Lemma websocket_handler_message_returns env message w :
  (forall n, upstream_send env n <> Raise CancelledError) ->
  exists w', websocket_handler_message env message w = (Ret (), w').
Proof.
  intros Hsend. unfold websocket_handler_message.
  match goal with
  | |- context [try_catch ?b _] => set (body := b)
  end.
  assert (Hnc : never_cancelled body).
  { unfold body, add_audio_chunk.
    never_cancelled_with ltac:(first
      [ by apply never_cancelled_send_raw_event
      | apply never_cancelled_deliver_screenshot_data ]). }
  unfold try_catch. specialize (Hnc w CancelledError).
  destruct (body w) as [[[]|[c m|]] w1]; cbn [fst] in Hnc.
  - by eexists.
  - destruct (is_json_decode_error (Exn c m)); by eexists.
  - by destruct Hnc.
Qed.

(** X18: no sequence of text messages from the client ends the message
    loop of [websocket_handler] with an exception: texts that are not
    JSON, and JSON of any other shape than expected, are logged and
    skipped (only a cancellation while sending upstream gets out). *)
Theorem websocket_handler_survives_any_message
    (env : Env) (messages : list string) (w : World) :
  (forall n, upstream_send env n <> Raise CancelledError) ->
  exists w', websocket_handler_messages env messages w = (Ret (), w').
Proof.
  intros Hsend. revert w. induction messages as [|message rest IH]; intros w.
  - by eexists.
  - cbn [websocket_handler_messages]. unfold mbind, M_bind.
    destruct (websocket_handler_message_returns env message w Hsend) as (w1 & ->).
    apply IH.
Qed.

Lemma websocket_handler_message_audio env message x w :
  audio_message env message x ->
  websocket_handler_message env message w =
    (Ret (),
     with_mgr w
       (set_audio_input_queue (audio_input_queue (mgr w) ++ [chunk_item x]) (mgr w))).
Proof.
  intros (fields & ai & rest & Hparse & Hcustom & Hev & Hp & Hc & Ha).
  unfold websocket_handler_message, add_audio_chunk, try_catch, mbind, M_bind, lift.
  rewrite Hparse. cbn [py_get py_in]. rewrite Hcustom.
  cbn [py_getitem bool_decide]. rewrite Hev.
  cbn -[py_getitem]. cbn [py_getitem assoc String.eqb Ascii.eqb Bool.eqb].
  cbn -[py_getitem]. rewrite Hp, Hc, Ha. reflexivity.
Qed.

(** X19: [audioInput] messages of the client go on the audio queue and
    hand nothing to the stream by themselves; [_process_audio_input]
    then hands them to the stream in the order they came in, leaving
    out the chunks with a falsy prompt name, content name or audio,
    and the audio queue is empty again. *)
Theorem client_audio_reaches_the_stream
    (env : Env) (rms_above : json -> option bool) (messages : list string)
    (chunks : list (json * json * json)) (w : World) :
  (forall n, upstream_send env n <> Raise CancelledError) ->
  stream_response (mgr w) = true ->
  is_active (mgr w) = true ->
  audio_input_queue (mgr w) = [] ->
  Forall2 (audio_message env) messages chunks ->
  exists w1 w2,
    websocket_handler_messages env messages w = (Ret (), w1)
    /\ audio_input_queue (mgr w1) = chunk_item <$> chunks
    /\ trace w1 = trace w
    /\ _process_audio_input env rms_above w1 = (Ret false, w2)
    /\ audio_input_queue (mgr w2) = []
    /\ sent_upstream (trace w2) =
         (sent_upstream (trace w)
          ++ (chunk_event_text env
                <$> filter (fun x => chunk_complete x = true) chunks))%list.
Proof.
  intros Hsend Hs Ha Hq Hmsgs.
  assert (Hqueue : forall q w0,
            audio_input_queue (mgr w0) = q ->
            exists w1,
              websocket_handler_messages env messages w0 = (Ret (), w1)
              /\ audio_input_queue (mgr w1) = (q ++ (chunk_item <$> chunks))%list
              /\ trace w1 = trace w0
              /\ stream_response (mgr w1) = stream_response (mgr w0)
              /\ is_active (mgr w1) = is_active (mgr w0)).
  { induction Hmsgs as [|message x messages chunks Hm _ IH]; intros q w0 Hq0.
    - exists w0. cbn. by rewrite app_nil_r.
    - cbn [websocket_handler_messages]. unfold mbind, M_bind.
      rewrite (websocket_handler_message_audio env message x w0 Hm).
      destruct (IH (q ++ [chunk_item x])%list
                  (with_mgr w0
                     (set_audio_input_queue
                        (audio_input_queue (mgr w0) ++ [chunk_item x]) (mgr w0))))
        as (w1 & E & Hq1 & Ht1 & Hs1 & Ha1); [by cbn; rewrite Hq0|].
      exists w1. split; [exact E|]. rewrite Hq1, Ht1, Hs1, Ha1.
      by rewrite <- app_assoc. }
  destruct (Hqueue [] w Hq) as (w1 & E1 & Hq1 & Ht1 & Hs1 & Ha1).
  destruct (audio_input_loop_sends env rms_above chunks w1 Hsend)
    as (w2 & E2 & Hq2 & _ & Hh2); [congruence..|done|].
  exists w1, w2. rewrite Ht1 in Hh2.
  repeat split; try done.
  unfold _process_audio_input, mbind, M_bind, get_mgr. cbn [fst snd].
  by rewrite Hq1.
Qed.

(** X20: for a message of the client that is a JSON object with an
    event and no screenshot delivery, on an open stream.  An event
    other than [promptStart], [contentStart] and [audioInput] is
    handed to the stream as the serialization of the whole message,
    and the manager stays as it was.  A [promptStart] with a
    [promptName] stores the name as the prompt name and is handed on
    in the same way; a [promptStart] without one is not handed on: the
    message is dropped with an error log. *)
Theorem client_events_are_forwarded_upstream
    (env : Env) (message key : string) (fields rest : list (string * json))
    (v : json) (w : World) :
  (forall n, upstream_send env n <> Raise CancelledError) ->
  stream_response (mgr w) = true ->
  is_active (mgr w) = true ->
  py_json_loads env (JStr message) = Ret (JObj fields) ->
  json_is_str (default JNull (assoc "customEvent" fields))
    "capturedScreenshotData" = false ->
  assoc "event" fields = Some (JObj ((key, v) :: rest)) ->
  (key <> "promptStart" -> key <> "contentStart" -> key <> "audioInput" ->
   exists w',
     websocket_handler_message env message w = (Ret (), w')
     /\ mgr w' = mgr w
     /\ sent_upstream (trace w') =
          (sent_upstream (trace w) ++ [json_dumps env (JObj fields)])%list)
  /\ (key = "promptStart" ->
      forall name, py_getitem v "promptName" = Ret name ->
      exists w',
        websocket_handler_message env message w = (Ret (), w')
        /\ mgr w' = set_prompt_name name (mgr w)
        /\ sent_upstream (trace w') =
             (sent_upstream (trace w) ++ [json_dumps env (JObj fields)])%list)
  /\ (key = "promptStart" ->
      forall e, py_getitem v "promptName" = Raise e ->
      websocket_handler_message env message w =
        (Ret (), with_trace w [ELog ERROR "Error processing WebSocket message"])).
Proof.
  intros Hsend Hs Ha Hparse Hcustom Hev.
  assert (Hstart :
            websocket_handler_message env message w =
            try_catch
              ((if String.eqb key "promptStart" then
                  prompt_start ← lift (py_getitem (JObj ((key, v) :: rest)) "promptStart");
                  name ← lift (py_getitem prompt_start "promptName");
                  modify_mgr (set_prompt_name name)
                else if String.eqb key "contentStart" then
                  content_start ← lift (py_getitem (JObj ((key, v) :: rest)) "contentStart");
                  type ← lift (py_get content_start "type" JNull);
                  if json_is_str type "AUDIO" then
                    name ← lift (py_getitem content_start "contentName");
                    modify_mgr (set_audio_content_name name)
                  else mret ()
                else mret ());;
               if String.eqb key "audioInput" then
                 audio_input ← lift (py_getitem (JObj ((key, v) :: rest)) "audioInput");
                 prompt_name ← lift (py_getitem audio_input "promptName");
                 content_name ← lift (py_getitem audio_input "contentName");
                 audio_base64 ← lift (py_getitem audio_input "content");
                 add_audio_chunk prompt_name content_name audio_base64
               else send_raw_event env (JObj fields))
              (fun e =>
                 if is_json_decode_error e then
                   log ERROR "Invalid JSON received from WebSocket"
                 else match e with
                      | Exn _ _ => log ERROR "Error processing WebSocket message"
                      | CancelledError => raise CancelledError
                      end) w).
  { unfold websocket_handler_message, try_catch, mbind, M_bind, lift.
    rewrite Hparse. cbn [py_get py_in]. rewrite Hcustom.
    cbn [py_getitem bool_decide]. rewrite Hev. reflexivity. }
  rewrite Hstart. clear Hstart.
  unfold try_catch, mbind, M_bind, lift.
  split; [|split].
  - intros H1 H2 H3.
    apply String.eqb_neq in H1, H2, H3. rewrite H1, H2, H3. cbn [mret M_ret].
    destruct (send_raw_event_sends env (JObj fields) _ w eq_refl Hsend Hs Ha)
      as (w' & E & Hm & _ & Hh).
    rewrite E. by exists w'.
  - intros -> name Hname.
    cbn [String.eqb Ascii.eqb Bool.eqb py_getitem assoc]. rewrite Hname.
    cbn [modify_mgr fst snd].
    match goal with
    | |- context [send_raw_event env ?ev ?wx] =>
        destruct (send_raw_event_sends env ev _ wx eq_refl Hsend)
          as (w' & E & Hm & _ & Hh); [done..|rewrite E]
    end.
    by exists w'.
  - intros -> e Hname.
    cbn [String.eqb Ascii.eqb Bool.eqb py_getitem assoc]. rewrite Hname.
    apply py_getitem_raises in Hname as Hex. destruct Hex as (c & m & ->).
    apply py_getitem_not_json in Hname. rewrite Hname. reflexivity.
Qed.

(** ** The line sent to the client on a fatal error *)

Lemma up_to_line_break_prefix (s : string) :
  String.prefix (up_to_line_break s) s = true.
Proof.
  induction s as [|c s IH]; [done|].
  cbn [up_to_line_break]. destruct (_ || _)%bool; [done|].
  cbn [String.prefix]. destruct (ascii_dec c c); [exact IH|done].
Qed.

Lemma up_to_line_break_one_line (s : string) :
  Forall (fun c => is_line_break c = false)
    (list_ascii_of_string (up_to_line_break s)).
Proof.
  induction s as [|c s IH]; [by constructor|].
  cbn [up_to_line_break].
  destruct (is_line_break c) eqn:Hc; [by constructor|].
  destruct (at_wide_line_break _); cbn; [by constructor|].
  by constructor.
Qed.

Lemma string_prefix_trans (a b c : string) :
  String.prefix a b = true -> String.prefix b c = true -> String.prefix a c = true.
Proof.
  revert b c. induction a as [|x a IH]; intros b c;
    destruct b as [|y b], c as [|z c]; try by cbn.
  cbn [String.prefix].
  destruct (ascii_dec x y) as [->|]; [|done].
  destruct (ascii_dec y z) as [->|]; [|done].
  apply IH.
Qed.

Lemma at_wide_line_break_mono (s t : string) :
  String.prefix s t = true ->
  at_wide_line_break s = true -> at_wide_line_break t = true.
Proof.
  intros Hp. unfold at_wide_line_break.
  rewrite !orb_true_iff.
  intros [[H|H]|H]; [left; left|left; right|right];
    by apply (string_prefix_trans _ s t).
Qed.

Lemma up_to_line_break_idemp (s : string) :
  up_to_line_break (up_to_line_break s) = up_to_line_break s.
Proof.
  induction s as [|c s IH]; [done|].
  cbn [up_to_line_break].
  destruct (is_line_break c) eqn:Hc; [done|].
  destruct (at_wide_line_break (String c s)) eqn:Hw; [done|].
  cbn [orb up_to_line_break]. rewrite Hc.
  destruct (at_wide_line_break (String c (up_to_line_break s))) eqn:Hw'.
  - apply (at_wide_line_break_mono _ (String c s)) in Hw'; [congruence|].
    cbn [String.prefix]. destruct (ascii_dec c c); [|done].
    apply up_to_line_break_prefix.
  - cbn [orb]. by rewrite IH.
Qed.

(** X21: when waiting for or receiving a message from upstream raises
    an exception, other than the end of the stream, whose message
    marks it as fatal, the turn puts one [BedrockStreamError] payload
    on the outbound queue.  Its message
    is a prefix of the message of the exception and holds no line
    break. *)
Theorem fatal_error_reaches_the_client_as_one_line
    (env : Env) (handlers : gmap string handler) (u : upstream)
    (cls : exn_class) (msg : string) (w : World) :
  u = AwaitOutputRaises (Exn cls msg) \/ u = ReceiveRaises (Exn cls msg) ->
  cls <> StopAsyncIteration ->
  is_fatal_bedrock_error msg = true ->
  exists line,
    output_queue (mgr (loop_turn env handlers u w).2) =
      (output_queue (mgr w) ++ [fatal_error_payload line])%list
    /\ String.prefix line msg = true
    /\ Forall (fun c => is_line_break c = false) (list_ascii_of_string line)
    /\ up_to_line_break line = line.
Proof.
  intros Hu Hcls Hfatal.
  rewrite (loop_turn_receive_error env handlers u cls msg w Hu Hcls).
  unfold after_receive_error. rewrite Hfatal.
  exists (up_to_line_break msg). split; [reflexivity|].
  split; [apply up_to_line_break_prefix|].
  split; [apply up_to_line_break_one_line|apply up_to_line_break_idemp].
Qed.

(** ** The last part of an image analysis *)

(** X22: the last part of an image analysis returns a result -- with the
    description, the context, the analysis id and status [success] --
    only when the screenshot is a text that starts with [data:image]
    and has a comma, the client is there and the description comes
    back.  In every other case that is no cancellation it ends with
    the UnboundLocalError on [results_for_cache]. *)
Theorem image_analysis_describe_outcomes
    (id : string) (context url : json) (client : res unit)
    (description : res string) (w : World) :
  client <> Raise CancelledError ->
  description <> Raise CancelledError ->
  (forall s base64 d,
      url = JStr s -> String.prefix "data:image" s = true ->
      after_comma s = Some base64 -> client = Ret () -> description = Ret d ->
      image_analysis_describe id context url client description w =
        (Ret (JObj [("description", JStr d);
                    ("originalContext", context);
                    ("analysisId", JStr id);
                    ("status", JStr "success")]), w))
  /\ ((forall s base64 d,
          url = JStr s -> String.prefix "data:image" s = true ->
          after_comma s = Some base64 -> client = Ret () -> description = Ret d ->
          False) ->
      (image_analysis_describe id context url client description w).1 =
        Raise unbound_results_for_cache).
Proof.
  intros Hclient Hdesc. split.
  - intros s base64 d -> Hp Hc -> ->.
    unfold image_analysis_describe, try_catch, mbind, M_bind, lift.
    cbn [truthy negb]. destruct s as [|c s]; [done|].
    cbn [String.eqb negb]. rewrite Hp, Hc. reflexivity.
  - intros Hnot.
    unfold image_analysis_describe.
    destruct (truthy url) eqn:Ht; cbn [negb]; [|reflexivity].
    unfold try_catch, mbind, M_bind, lift.
    destruct url; try reflexivity.
    destruct (String.prefix "data:image" s) eqn:Hp; [|reflexivity].
    destruct (after_comma s) as [base64|] eqn:Hc; [|reflexivity].
    cbn [mret M_ret].
    destruct client as [[]|[c m|]]; [|by destruct c|done].
    destruct description as [d|[c m|]]; [|by destruct c|done].
    destruct (Hnot s base64 d); done.
Qed.

(** ** Speech detection and the shared search client *)

(** X23: [detect_speech_in_audio] answers [True] for a loud chunk only
    when the flag [speech_detected] was down, and raises the flag: the
    next loud chunk gets [False].  A quiet chunk in between lowers the
    flag, so the next loud chunk gets [True] again; a chunk that cannot
    be decoded leaves the flag as it is. *)
Theorem speech_is_reported_once_per_burst
    (rms_above : json -> option bool) (first second : json) (w : World) :
  rms_above first = Some true ->
  rms_above second = Some true ->
  let w1 := (detect_speech_in_audio rms_above first w).2 in
  (detect_speech_in_audio rms_above first w).1 = Ret (negb (speech_detected (mgr w)))
  /\ (detect_speech_in_audio rms_above second w1).1 = Ret false
  /\ (forall quiet,
        rms_above quiet = Some false ->
        (detect_speech_in_audio rms_above second
           (detect_speech_in_audio rms_above quiet w1).2).1 = Ret true)
  /\ (forall broken,
        rms_above broken = None ->
        (detect_speech_in_audio rms_above second
           (detect_speech_in_audio rms_above broken w1).2).1 = Ret false).
Proof.
  intros H1 H2 w1.
  assert (Hw1 : speech_detected (mgr w1) = true).
  { unfold w1, detect_speech_in_audio, mbind, M_bind, get_mgr. rewrite H1.
    cbn. by destruct (speech_detected (mgr w)) eqn:E. }
  clearbody w1.
  split.
  { unfold detect_speech_in_audio, mbind, M_bind, get_mgr. rewrite H1.
    cbn. by destruct (speech_detected (mgr w)). }
  split.
  { unfold detect_speech_in_audio, mbind, M_bind, get_mgr. rewrite H2.
    cbn. by rewrite Hw1. }
  split.
  - intros quiet Hq.
    unfold detect_speech_in_audio, mbind, M_bind, get_mgr. rewrite Hq, H2.
    reflexivity.
  - intros broken Hb.
    unfold detect_speech_in_audio, mbind, M_bind, get_mgr. rewrite Hb, H2.
    cbn. by rewrite Hw1.
Qed.

(** X24: [get_initialized_a2a_client] returns a client exactly when the
    shared variable holds one afterwards, and with a client in the
    variable a later call returns it without another discovery.  A
    discovery that fails leaves the mark [ERROR_DURING_INIT] and raises
    a ConnectionError, which [_execute_agent_search_remotely] turns
    into its could-not-connect result; the next call discovers again
    and succeeds when the discovery does. *)
Theorem a2a_client_is_discovered_once_and_retried_after_failure
    (env : Env) (shared : a2a_client_instance) (discovered again : res bool)
    (query id : json) (sent : res string) (w : World) :
  let first_call := get_initialized_a2a_client shared discovered in
  (first_call.1 = A2AClient <-> (first_call.2 w).1 = Ret ())
  /\ (first_call.1 = A2AClient ->
      get_initialized_a2a_client first_call.1 again = (A2AClient, mret ()))
  /\ (shared <> A2AClient ->
      discovered <> Ret true -> discovered <> Raise CancelledError ->
      first_call.1 = ErrorDuringInit
      /\ (first_call.2 w).1 =
           Raise (Exn ConnectionError
                    "AgentClient could not be initialized/discovered. Check A2A server and configurations.")
      /\ (_execute_agent_search_remotely env query id (first_call.2 w).1 sent w).1 =
           Ret (JObj [("error",
                       JStr "Could not connect to or initialize the search agent: AgentClient could not be initialized/discovered. Check A2A server and configurations.");
                      ("originalQuery", query);
                      ("searchId", id);
                      ("details", JNull)])
      /\ (get_initialized_a2a_client first_call.1 (Ret true)).1 = A2AClient
      /\ ((get_initialized_a2a_client first_call.1 (Ret true)).2 w).1 = Ret ()).
Proof.
  cbn zeta. split; [|split].
  - destruct shared, discovered as [[]|[c m|]]; cbn; split; done.
  - by intros ->.
  - intros H1 H2 H3.
    destruct shared, discovered as [[]|[c m|]]; cbn; done.
Qed.

(** ** The weather reply without its thinking block *)

Lemma strip_prefix_mismatch (a b : ascii) (p s : string) :
  Ascii.eqb b a = false -> strip_prefix (String a p) (String b s) = None.
Proof.
  intros H. cbn. rewrite Ascii.eqb_sym in H. by rewrite H.
Qed.

Lemma strip_prefix_app (p s : string) : strip_prefix p (p ++ s) = Some s.
Proof.
  induction p as [|a p IH]; [done|].
  change (String a p ++ s) with (String a (p ++ s)).
  cbn [strip_prefix]. by rewrite Ascii.eqb_refl.
Qed.

Lemma remove_thinking_lacks (fuel : nat) (s : string) :
  lacks "<" s = true -> remove_thinking fuel s = s.
Proof.
  revert fuel. induction s as [|c s IH]; intros fuel Hs.
  - by destruct fuel.
  - destruct fuel as [|fuel]; [done|].
    cbn [lacks] in Hs. apply andb_prop in Hs as [Hc Hs].
    apply negb_true_iff in Hc.
    cbn [remove_thinking].
    rewrite (strip_prefix_mismatch "<" c "thinking>" s Hc).
    cbn [mbind option_bind]. by rewrite IH.
Qed.

Lemma remove_thinking_app (fuel : nat) (pre t : string) :
  lacks "<" pre = true ->
  remove_thinking (String.length pre + fuel) (pre ++ t) = pre ++ remove_thinking fuel t.
Proof.
  induction pre as [|c pre IH]; intros Hp; [done|].
  cbn [lacks] in Hp. apply andb_prop in Hp as [Hc Hp].
  apply negb_true_iff in Hc.
  change (String c pre ++ t) with (String c (pre ++ t)).
  cbn [String.length Nat.add remove_thinking].
  rewrite (strip_prefix_mismatch "<" c "thinking>" (pre ++ t) Hc).
  cbn [mbind option_bind]. rewrite IH by done.
  reflexivity.
Qed.

Lemma after_closing_tag_same_line (mid post : string) :
  lacks "<" mid = true -> lacks "010" mid = true ->
  after_closing_tag (mid ++ "</thinking>" ++ post) = Some post.
Proof.
  induction mid as [|c mid IH]; intros H1 H2.
  - change ("" ++ "</thinking>" ++ post) with ("</thinking>" ++ post).
    destruct post; reflexivity.
  - cbn [lacks] in H1, H2.
    apply andb_prop in H1 as [Hc1 H1]. apply andb_prop in H2 as [Hc2 H2].
    apply negb_true_iff in Hc1, Hc2.
    change (String c mid ++ "</thinking>" ++ post)
      with (String c (mid ++ "</thinking>" ++ post)).
    cbn [after_closing_tag].
    rewrite (strip_prefix_mismatch "<" c "/thinking>" _ Hc1).
    rewrite Hc2. by apply IH.
Qed.

Lemma after_closing_tag_next_line (a t : string) :
  lacks "<" a = true ->
  after_closing_tag (a ++ newline ++ t) = None.
Proof.
  induction a as [|c a IH]; intros H1.
  - reflexivity.
  - cbn [lacks] in H1. apply andb_prop in H1 as [Hc1 H1].
    apply negb_true_iff in Hc1.
    change (String c a ++ newline ++ t) with (String c (a ++ newline ++ t)).
    cbn [after_closing_tag].
    rewrite (strip_prefix_mismatch "<" c "/thinking>" _ Hc1).
    destruct (Ascii.eqb c "010"); [done|by apply IH].
Qed.

Lemma string_length_app (a b : string) :
  String.length (a ++ b) = (String.length a + String.length b)%nat.
Proof.
  induction a as [|c a IH]; [done|].
  change (String c a ++ b) with (String c (a ++ b)). cbn [String.length Nat.add].
  by rewrite IH.
Qed.

(** A block on one line goes, with its tags. *)
Lemma re_sub_thinking_one_line (pre mid post : string) :
  lacks "<" pre = true -> lacks "<" mid = true -> lacks "010" mid = true ->
  lacks "<" post = true ->
  re_sub_thinking (JStr (pre ++ "<thinking>" ++ mid ++ "</thinking>" ++ post))
  = Ret (pre ++ post).
Proof.
  intros Hpre Hmid Hnl Hpost. unfold re_sub_thinking. f_equal.
  rewrite string_length_app.
  rewrite (remove_thinking_app _ pre _ Hpre). f_equal.
  change ("<thinking>" ++ mid ++ "</thinking>" ++ post)
    with (String "<" ("thinking>" ++ mid ++ "</thinking>" ++ post)).
  cbn [String.length remove_thinking].
  change (String "<" ("thinking>" ++ mid ++ "</thinking>" ++ post))
    with ("<thinking>" ++ mid ++ "</thinking>" ++ post).
  rewrite strip_prefix_app. cbn [mbind option_bind].
  rewrite (after_closing_tag_same_line mid post Hmid Hnl).
  by apply remove_thinking_lacks.
Qed.

Lemma lacks_app (c : ascii) (a b : string) :
  lacks c a = true -> lacks c b = true -> lacks c (a ++ b) = true.
Proof.
  induction a as [|x a IH]; intros Ha Hb; [done|].
  cbn [lacks] in Ha. apply andb_prop in Ha as [Hx Ha].
  change (String x a ++ b) with (String x (a ++ b)).
  cbn [lacks]. by rewrite Hx, IH.
Qed.

Lemma remove_thinking_keeps (fuel : nat) (c : ascii) (rest : string) :
  strip_prefix "<thinking>" (String c rest) ≫= after_closing_tag = None ->
  remove_thinking (S fuel) (String c rest) = String c (remove_thinking fuel rest).
Proof. intros H. cbn [remove_thinking]. by rewrite H. Qed.

(** A block that spans two lines stays: the dot of the pattern matches
    no line feed. *)
Lemma re_sub_thinking_two_lines (pre a b post : string) :
  lacks "<" pre = true -> lacks "<" a = true -> lacks "<" b = true ->
  lacks "<" post = true ->
  re_sub_thinking
    (JStr (pre ++ "<thinking>" ++ a ++ newline ++ b ++ "</thinking>" ++ post))
  = Ret (pre ++ "<thinking>" ++ a ++ newline ++ b ++ "</thinking>" ++ post).
Proof.
  intros Hpre Ha Hb Hpost. unfold re_sub_thinking. f_equal.
  set (tail := "</thinking>" ++ post).
  set (R := a ++ newline ++ b ++ tail).
  rewrite string_length_app, (remove_thinking_app _ pre _ Hpre). f_equal.
  change ("<thinking>" ++ R) with (String "<" ("thinking>" ++ R)).
  change (String.length (String "<" ("thinking>" ++ R)))
    with (S (String.length ("thinking>" ++ R))).
  rewrite remove_thinking_keeps.
  2:{ change (String "<" ("thinking>" ++ R)) with ("<thinking>" ++ R).
      rewrite strip_prefix_app. cbn [mbind option_bind].
      by apply after_closing_tag_next_line. }
  f_equal.
  rewrite string_length_app, (remove_thinking_app _ "thinking>" _ eq_refl). f_equal.
  unfold R.
  rewrite string_length_app, (remove_thinking_app _ a _ Ha). f_equal.
  rewrite string_length_app, (remove_thinking_app _ newline _ eq_refl). f_equal.
  rewrite string_length_app, (remove_thinking_app _ b _ Hb). f_equal.
  unfold tail.
  change ("</thinking>" ++ post) with (String "<" ("/thinking>" ++ post)).
  change (String.length (String "<" ("/thinking>" ++ post)))
    with (S (String.length ("/thinking>" ++ post))).
  rewrite remove_thinking_keeps by reflexivity. f_equal.
  apply remove_thinking_lacks. by apply lacks_app.
Qed.

(** X25: the getWeather handler asks the agent once and answers with
    status [success] and the text of the reply with its thinking block
    cut out, when the block is on one line.  A reply without a block is
    passed on as it is, and so is a reply whose block holds a line
    feed: the pattern has no DOTALL flag, so that block stays in the
    answer. *)
Theorem weather_reply_loses_a_one_line_thinking_block
    (env : Env) (content text parsed location message items first : json)
    (reply cleaned : string) (w : World) :
  py_get content "content" (JStr "{}") = Ret text ->
  py_json_loads env text = Ret parsed ->
  py_get parsed "location" (JStr "an unknown place") = Ret location ->
  weather_agent env (weather_calls (trace w))
    ("Get on the current weather for " ++ py_str env location) = Ret message ->
  py_getitem message "content" = Ret items ->
  py_first items = Ret first ->
  py_getitem first "text" = Ret (JStr reply) ->
  cleaned_reply reply cleaned ->
  handle_get_weather env content w =
    (Ret (result_dict cleaned "success"),
     with_trace w
       [ELog INFO "[Tool:getWeather] Called for location";
        EWeatherAgent ("Get on the current weather for " ++ py_str env location);
        ELog INFO "response.message";
        ELog INFO "response.metrics"]).
Proof.
  intros Hc Hp Hl Hagent Hitems Hfirst Htext Hcleaned.
  assert (Hsub : re_sub_thinking (JStr reply) = Ret cleaned).
  { destruct Hcleaned.
    - unfold re_sub_thinking. f_equal. by apply remove_thinking_lacks.
    - by apply re_sub_thinking_one_line.
    - by apply re_sub_thinking_two_lines. }
  unfold handle_get_weather, try_catch, mbind, M_bind, lift, call_weather_agent.
  rewrite Hc, Hp, Hl. cbn [log emit fst snd trace mgr uuid_calls].
  change (weather_calls (ELog INFO "[Tool:getWeather] Called for location" :: trace w))
    with (weather_calls (trace w)).
  rewrite Hagent, Hitems, Hfirst, Htext, Hsub. reflexivity.
Qed.

(** ** The tools the manager advertises *)

(** X26: every tool specification of [tool_specs_definitions] carries
    under [toolSpec.name] the name it is registered under, and a tool
    use with this name in any capitalization finds a handler.
    Conversely every key of [tool_handlers] is the lower-cased name of
    an advertised tool. *)
Theorem advertised_tools_have_handlers (env : Env) :
  (forall key spec,
      (key, spec) ∈ tool_specs_definitions env ->
      field_path ["toolSpec"; "name"] spec = Some (JStr key)
      /\ forall name, lower name = lower key ->
           is_Some (tool_handlers env !! lower name))
  /\ (forall tool_key h,
        tool_handlers env !! tool_key = Some h ->
        exists key spec,
          (key, spec) ∈ tool_specs_definitions env /\ tool_key = lower key).
Proof.
  split.
  - intros key spec Hin. unfold tool_specs_definitions in Hin.
    repeat (apply elem_of_cons in Hin as [[= -> ->]|Hin]);
      [..|by apply elem_of_nil in Hin];
      (split; [reflexivity|]); intros name ->; by eexists.
  - intros tool_key h H.
    assert (Hkey : tool_key = "getweather" \/ tool_key = "numberrace"
                   \/ tool_key = "agentsearch" \/ tool_key = "imageanalyzer").
    { unfold tool_handlers in H.
      apply lookup_insert_Some in H as [[<- _]|[_ H]]; [by left|].
      apply lookup_insert_Some in H as [[<- _]|[_ H]]; [by right; left|].
      apply lookup_insert_Some in H as [[<- _]|[_ H]]; [by right; right; left|].
      apply lookup_insert_Some in H as [[<- _]|[_ H]]; [by right; right; right|].
      by rewrite lookup_empty in H. }
    unfold tool_specs_definitions.
    destruct Hkey as [-> | [-> | [-> | ->]]].
    + exists "getWeather", (get_weather_tool_spec env). split; [|reflexivity].
      apply list_elem_of_here.
    + exists "numberRace", (get_number_race_tool_spec env). split; [|reflexivity].
      apply list_elem_of_further, list_elem_of_here.
    + exists "agentSearch", (get_agent_search_tool_spec env). split; [|reflexivity].
      do 2 apply list_elem_of_further. apply list_elem_of_here.
    + exists "imageAnalyzer", (get_imageanalyzer_tool_spec env). split; [|reflexivity].
      do 3 apply list_elem_of_further. apply list_elem_of_here.
Qed.

(** ** A screenshot sent by the client *)

(** A delivery for an id that is waited for. *)
Lemma deliver_screenshot_data_pending
    (id : string) (image_data_url error_message : json) (b : bool) (w : World) :
  pending_screenshot_events (mgr w) !! KStr id = Some b ->
  exists w',
    deliver_screenshot_data (JStr id) image_data_url error_message w = (Ret (), w')
    /\ pending_screenshot_events (mgr w') =
         <[KStr id := true]> (pending_screenshot_events (mgr w))
    /\ received_screenshot_data (mgr w') =
         <[KStr id :=
             if truthy error_message then JObj [("error", error_message)]
             else if truthy image_data_url
                  then JObj [("imageDataUrl", image_data_url)]
                  else JObj [("error",
                              JStr "No image data and no error message provided.")]]>
           (received_screenshot_data (mgr w))
    /\ sent_upstream (trace w') = sent_upstream (trace w).
Proof.
  intros Hp.
  unfold deliver_screenshot_data, store_received, mbind, M_bind, lift, get_mgr.
  cbn [to_key fst snd]. rewrite Hp.
  destruct (truthy error_message); [|destruct (truthy image_data_url)];
    cbn; (eexists; split; [reflexivity|]); cbn; by hist.
Qed.

(** The wait of an analysis that ends on a delivery. *)
Lemma image_analysis_after_wait_delivered
    (id : string) (image_data_url error_message : json) (w : World) :
  received_screenshot_data (mgr w) !! KStr id =
    Some (if truthy error_message then JObj [("error", error_message)]
          else if truthy image_data_url
               then JObj [("imageDataUrl", image_data_url)]
               else JObj [("error",
                           JStr "No image data and no error message provided.")]) ->
  (image_analysis_after_wait id (Ret ()) w).1 =
    (if (negb (truthy error_message) && truthy image_data_url)%bool
     then Ret image_data_url
     else Raise unbound_results_for_cache).
Proof.
  intros Hr. unfold image_analysis_after_wait.
  unfold mbind, M_bind, lift, get_mgr, modify_mgr, log, emit, raise, mret, M_ret.
  cbn. rewrite Hr. cbn.
  destruct (truthy error_message) eqn:He; cbn.
  - by rewrite He.
  - destruct (truthy image_data_url) eqn:Hu; cbn; by rewrite ?Hu.
Qed.

(** X27: a [capturedScreenshotData] message of the client that names
    the id of an analysis waiting for its screenshot is delivered to
    it: the message loop goes on, the event of the id is set and
    nothing is handed to the stream.  The analysis that wakes up gets
    the image URL when the message has a URL and no error, and ends
    with the UnboundLocalError on [results_for_cache] when it has an
    error or neither of the two. *)
Theorem client_screenshot_wakes_the_analysis
    (env : Env) (message id : string) (fields payload : list (string * json))
    (w : World) :
  py_json_loads env (JStr message) = Ret (JObj fields) ->
  assoc "customEvent" fields = Some (JStr "capturedScreenshotData") ->
  assoc "payload" fields = Some (JObj payload) ->
  assoc "imageAnalysisId" payload = Some (JStr id) ->
  id <> "" ->
  let image_data_url := default JNull (assoc "imageDataUrl" payload) in
  let error := default JNull (assoc "error" payload) in
  let w1 := (image_analysis_request id w).2 in
  exists w2,
    websocket_handler_message env message w1 = (Ret (), w2)
    /\ pending_screenshot_events (mgr w2) !! KStr id = Some true
    /\ sent_upstream (trace w2) = sent_upstream (trace w)
    /\ (image_analysis_after_wait id (Ret ()) w2).1 =
         (if (negb (truthy error) && truthy image_data_url)%bool
          then Ret image_data_url
          else Raise unbound_results_for_cache).
Proof.
  intros Hloads Hcustom Hpayload Hid Hne image_data_url error w1.
  assert (Hp1 : pending_screenshot_events (mgr w1) !! KStr id = Some false).
  { unfold w1, image_analysis_request, queue_put, mbind, M_bind, log, emit,
      modify_mgr. cbn. apply lookup_insert_eq. }
  assert (Hh1 : sent_upstream (trace w1) = sent_upstream (trace w)).
  { unfold w1, image_analysis_request, queue_put, mbind, M_bind, log, emit,
      modify_mgr. cbn. by hist. }
  clearbody w1.
  assert (Ht : truthy (JStr id) = true).
  { cbn. destruct (String.eqb_spec id ""); [done|reflexivity]. }
  assert (Hdeliver : forall url err w0,
            pending_screenshot_events (mgr w0) !! KStr id = Some false ->
            sent_upstream (trace w0) = sent_upstream (trace w) ->
            (if (negb (truthy err) && truthy url)%bool
             then Ret url else Raise unbound_results_for_cache)
            = (if (negb (truthy error) && truthy image_data_url)%bool
               then Ret image_data_url else Raise unbound_results_for_cache) ->
            exists w2,
              (let (r, w') := deliver_screenshot_data (JStr id) url err w0 in
               match r with
               | Ret a => (Ret a, w')
               | Raise e =>
                   (if is_json_decode_error e
                    then log ERROR "Invalid JSON received from WebSocket"
                    else
                      match e with
                      | Exn _ _ => log ERROR "Error processing WebSocket message"
                      | CancelledError => raise CancelledError
                      end) w'
               end) = (Ret (), w2)
              /\ pending_screenshot_events (mgr w2) !! KStr id = Some true
              /\ sent_upstream (trace w2) = sent_upstream (trace w)
              /\ (image_analysis_after_wait id (Ret ()) w2).1 =
                   (if (negb (truthy error) && truthy image_data_url)%bool
                    then Ret image_data_url
                    else Raise unbound_results_for_cache)).
  { intros url err w0 Hp0 Hh0 Hres.
    destruct (deliver_screenshot_data_pending id url err false w0 Hp0)
      as (w2 & E & Hp2 & Hr2 & Hh2).
    rewrite E. exists w2. split; [reflexivity|].
    split; [by rewrite Hp2, lookup_insert_eq|].
    split; [by rewrite Hh2|].
    rewrite <- Hres. apply image_analysis_after_wait_delivered.
    by rewrite Hr2, lookup_insert_eq. }
  unfold websocket_handler_message, try_catch, mbind, M_bind, lift.
  rewrite Hloads. cbn [py_get]. rewrite Hcustom.
  cbn -[deliver_screenshot_data truthy]. rewrite Hpayload.
  cbn -[deliver_screenshot_data truthy]. rewrite Hid.
  cbn -[deliver_screenshot_data truthy]. rewrite Ht.
  fold image_data_url error.
  destruct (truthy error) eqn:He; [|destruct (truthy image_data_url) eqn:Hu];
    (apply Hdeliver; [exact Hp1|by hist|]).
  - by rewrite He.
  - by rewrite Hu.
  - done.
Qed.

(* ===================================================================== *)
(** * Further instances *)
(* ===================================================================== *)

(** A number sent as a text with spaces, and a negative number. *)
Lemma number_race_waits_for_any_integer_witness :
  int_of_str " 42 " = Some 42
  /\ handle_number_race session_env
       (tool_use "numberRace" "id-1" (object_text "number" (quoted " 42 ")))
       initial_world
     = (Ret (result_dict "I am done waiting for 42 seconds." "success"),
        with_trace initial_world
          [ELog INFO "[Tool:numberRace] Called with input";
           ELog INFO "[Tool:numberRace] Starting sleep";
           ESleep 42;
           ELog INFO "[Tool:numberRace] Finished waiting"])
  /\ handle_number_race session_env
       (tool_use "numberRace" "id-1" (object_text "number" "-1")) initial_world
     = (Ret (result_dict "An unexpected error occurred in the numberRace tool."
               "error"),
        with_trace initial_world
          [ELog INFO "[Tool:numberRace] Called with input";
           ELog INFO "[Tool:numberRace] Starting sleep";
           ELog ERROR "[Tool:numberRace] Error processing"]).
Proof.
  split; [reflexivity|]. split.
  - refine (proj1 (number_race_waits_for_any_integer session_env
                     (tool_use "numberRace" "id-1"
                        (object_text "number" (quoted " 42 ")))
                     (JStr (object_text "number" (quoted " 42 ")))
                     (JObj [("number", JStr " 42 ")]) (JStr " 42 ") 42
                     initial_world _ _ _ _ _) _ _);
      first [reflexivity | lia
            | unfold longest_sure_sleep; lia
            | unfold int_max_str_digits; cbn; lia
            | right; exists " 42 "; repeat split; reflexivity].
  - refine (proj1 (proj2 (number_race_waits_for_any_integer session_env
                            (tool_use "numberRace" "id-1"
                               (object_text "number" "-1"))
                            (JStr (object_text "number" "-1"))
                            (JObj [("number", JInt (-1))]) (JInt (-1)) (-1)
                            initial_world _ _ _ _ _)) _);
      first [reflexivity | lia
            | unfold int_max_str_digits; vm_compute; lia
            | by left].
Defined.

(** An invocation with an empty query, on a world with a cached
    result. *)
Lemma handle_agent_search_error_changes_nothing_witness :
  py_get empty_query_invocation "toolName" (JStr "agentSearch_fallback")
    = Ret (JStr "agentSearch")
  /\ exists text status w',
       handle_agent_search example_env empty_query_invocation
         world_with_search_result = (Ret (result_dict text status), w')
       /\ (status = "success"
           \/ (status = "error" /\ mgr w' = mgr world_with_search_result
               /\ created_tasks (trace w')
                  = created_tasks (trace world_with_search_result))).
Proof.
  split; [reflexivity|].
  apply (handle_agent_search_error_changes_nothing example_env
           empty_query_invocation "agentSearch" world_with_search_result).
  reflexivity.
Defined.

(** An invocation whose input is not JSON, on a world with a cached
    result. *)
Lemma handle_imageanalyzer_error_changes_nothing_witness :
  py_get malformed_input_invocation "toolName" (JStr "imageAnalyzer")
    = Ret (JStr "imageAnalyzer")
  /\ exists text status w',
       handle_imageanalyzer example_env malformed_input_invocation
         world_with_image_result = (Ret (result_dict text status), w')
       /\ (status = "success"
           \/ (status = "error" /\ mgr w' = mgr world_with_image_result
               /\ created_tasks (trace w')
                  = created_tasks (trace world_with_image_result)
               /\ uuid_calls w' = uuid_calls world_with_image_result)).
Proof.
  split; [reflexivity|].
  apply (handle_imageanalyzer_error_changes_nothing example_env
           malformed_input_invocation "imageAnalyzer" world_with_image_result).
  reflexivity.
Defined.

(** A search task that is cancelled after its launch. *)
Lemma task_wrapper_resume_without_result_witness :
  to_key (bt_tool_use_id search_X_task) = Ret (KStr "id-1")
  /\ exists w',
       task_wrapper_resume example_env search_X_task (Raise CancelledError)
         launched_once = (Ret (), w')
       /\ completed_async_tool_results (mgr w')
          = completed_async_tool_results (mgr launched_once)
       /\ active_background_tasks (mgr w')
          = delete (KStr "id-1") (active_background_tasks (mgr launched_once))
       /\ output_queue (mgr w') = (output_queue (mgr launched_once) ++ [])%list.
Proof.
  split; [reflexivity|].
  apply (task_wrapper_resume_without_result example_env search_X_task
           (KStr "id-1") CancelledError launched_once).
  reflexivity.
Defined.

(** A search whose agent cannot be reached. *)
Lemma failed_agent_search_is_cached_as_completed_witness :
  to_key (bt_tool_use_id search_X_task) = Ret (KStr "id-1")
  /\ exists w',
       task_wrapper example_env search_X_task
         (_execute_agent_search_remotely example_env (JStr "X") (JStr "id-1")
            (Raise (Exn ConnectionError "no agent")) (Ret "unused"))
         launched_once = (Ret (), w')
       /\ completed_async_tool_results (mgr w') =
            <["agentsearch" :=
                JObj [("error",
                       JStr "Could not connect to or initialize the search agent: no agent");
                      ("originalQuery", JStr "X");
                      ("searchId", JStr "id-1");
                      ("details", JNull)]]>
              (completed_async_tool_results (mgr launched_once))
       /\ active_background_tasks (mgr w')
          = delete (KStr "id-1") (active_background_tasks (mgr launched_once))
       /\ output_queue (mgr w') =
            (output_queue (mgr launched_once)
             ++ [custom_notification_to_frontend "agentSearch" (JStr "id-1")
                   "success"
                   "The agentSearch operation (ID: id-1) has completed. You can now ask for the results."])%list.
Proof.
  split; [reflexivity|].
  apply (failed_agent_search_is_cached_as_completed example_env search_X_task
           (KStr "id-1") (JStr "X") (JStr "id-1")
           (Raise (Exn ConnectionError "no agent")) (Ret "unused")
           ConnectionError "no agent" launched_once);
    [reflexivity|by left].
Defined.

(** An image analysis whose screenshot never comes. *)
Lemma image_analysis_timeout_is_reported_as_unbound_local_witness :
  to_key (bt_tool_use_id analyze_chart_task) = Ret (KStr "id-2")
  /\ exists w',
       task_wrapper example_env analyze_chart_task
         (_execute_image_analysis_remotely "uuid-0" (JStr "the chart")
            (Raise (Exn TimeoutError "")) (Ret ()) (Ret "unused"))
         initial_world = (Ret (), w')
       /\ completed_async_tool_results (mgr w')
          = completed_async_tool_results (mgr initial_world)
       /\ active_background_tasks (mgr w')
          = delete (KStr "id-2") (active_background_tasks (mgr initial_world))
       /\ pending_screenshot_events (mgr w')
          = delete (KStr "uuid-0") (pending_screenshot_events (mgr initial_world))
       /\ received_screenshot_data (mgr w')
          = delete (KStr "uuid-0") (received_screenshot_data (mgr initial_world))
       /\ output_queue (mgr w') =
            (output_queue (mgr initial_world)
             ++ [request_payload_to_frontend "uuid-0";
                 custom_notification_to_frontend "imageAnalyzer" (JStr "id-2")
                   "error"
                   ("An error occurred in the background while processing imageAnalyzer (ID: id-2): "
                    ++ unbound_results_message)])%list.
Proof.
  split; [reflexivity|].
  apply (image_analysis_timeout_is_reported_as_unbound_local example_env
           analyze_chart_task (KStr "id-2") "uuid-0" (JStr "the chart") ""
           (Ret ()) (Ret "unused") initial_world).
  reflexivity.
Defined.

(** Two chunks on the audio queue, one of them empty. *)
Lemma audio_chunks_reach_the_stream_in_order_witness :
  (forall n, upstream_send session_env n <> Raise CancelledError)
  /\ stream_response (mgr world_with_audio) = true
  /\ is_active (mgr world_with_audio) = true
  /\ audio_input_queue (mgr world_with_audio) = chunk_item <$> two_chunks
  /\ exists w',
       _process_audio_input session_env always_loud world_with_audio = (Ret false, w')
       /\ audio_input_queue (mgr w') = []
       /\ output_queue (mgr w') = output_queue (mgr world_with_audio)
       /\ sent_upstream (trace w') =
            (sent_upstream (trace world_with_audio)
             ++ (chunk_event_text session_env
                   <$> filter (fun x => chunk_complete x = true) two_chunks))%list.
Proof.
  split; [done|]. split; [reflexivity|]. split; [reflexivity|].
  split; [reflexivity|].
  apply (audio_chunks_reach_the_stream_in_order session_env always_loud
           two_chunks world_with_audio); done.
Defined.

(** The dispatcher on a numberRace tool use. *)
Lemma processToolUse_always_answers_witness :
  (forall n p, weather_agent example_env n p <> Raise CancelledError)
  /\ exists text status w',
       processToolUse example_env (tool_handlers example_env) (JStr "NumberRace")
         (tool_use "numberRace" "id-1" (object_text "number" "3")) initial_world
         = (Ret (result_dict text status), w')
       /\ (status = "success" \/ status = "error")
       /\ session_view w' = session_view initial_world.
Proof.
  split; [done|].
  apply (processToolUse_always_answers example_env "NumberRace"
           (tool_use "numberRace" "id-1" (object_text "number" "3")) initial_world).
  done.
Defined.

(** A text from upstream that is not JSON, and one that is nested too
    deep. *)
Lemma loop_forwards_undecodable_text_witness :
  loop_turn session_env (tool_handlers session_env) (Received "not json")
    streaming_world =
    (Ret true,
     with_trace
       (with_mgr streaming_world
          (set_output_queue
             (output_queue (mgr streaming_world)
              ++ [json_decode_error_payload "not json"])
             (mgr streaming_world)))
       [ELog ERROR "Failed to parse JSON from Bedrock"])
  /\ loop_turn session_env (tool_handlers session_env) (Received deeply_nested)
       streaming_world =
     (Ret false,
      with_trace
        (with_mgr streaming_world (set_is_active false (mgr streaming_world)))
        [ELog ERROR "Error receiving response from Bedrock"]).
Proof.
  split.
  - apply (proj1 (loop_forwards_undecodable_text session_env
                    (tool_handlers session_env) "not json" streaming_world)
             "Expecting value").
    reflexivity.
  - apply (proj2 (loop_forwards_undecodable_text session_env
                    (tool_handlers session_env) deeply_nested streaming_world)
             OtherException
             "maximum recursion depth exceeded while decoding a JSON array");
      [vm_compute; reflexivity|discriminate|discriminate].
Defined.

(** An audio message from upstream. *)
Lemma loop_forwards_other_events_verbatim_witness :
  py_json_loads session_env (JStr (dumps audio_output_message))
    = Ret audio_output_message
  /\ loop_turn session_env (tool_handlers session_env)
       (Received (dumps audio_output_message)) streaming_world =
     (Ret true,
      with_mgr streaming_world
        (set_output_queue
           (output_queue (mgr streaming_world) ++ [audio_output_message])
           (mgr streaming_world))).
Proof.
  split; [reflexivity|].
  apply (loop_forwards_other_events_verbatim session_env
           (tool_handlers session_env) (dumps audio_output_message)
           [("event", JObj [("audioOutput", JObj [("content", JStr "UklGRg")])])]
           [("audioOutput", JObj [("content", JStr "UklGRg")])]
           streaming_world); reflexivity.
Defined.

(** The announcement of a tool use. *)
Lemma loop_records_the_tool_use_witness :
  py_json_loads session_env (JStr (dumps tool_use_message)) = Ret tool_use_message
  /\ loop_turn session_env (tool_handlers session_env)
       (Received (dumps tool_use_message)) streaming_world =
     (Ret true,
      with_trace
        (with_mgr streaming_world
           (set_output_queue
              (output_queue (mgr streaming_world) ++ [tool_use_message])
              (set_toolUseId (JStr "id-7")
                 (set_toolName (JStr "numberRace")
                    (set_toolUseContent (tool_use "numberRace" "id-7" "{}")
                       (mgr streaming_world))))))
        [ELog INFO "Tool use detected"]).
Proof.
  split; [reflexivity|].
  apply (loop_records_the_tool_use session_env (tool_handlers session_env)
           (dumps tool_use_message)
           [("event", JObj [("toolUse", tool_use "numberRace" "id-7" "{}")])]
           [("toolUse", tool_use "numberRace" "id-7" "{}")]
           (tool_use "numberRace" "id-7" "{}") (JStr "numberRace") (JStr "id-7")
           streaming_world); reflexivity.
Defined.

(** The end of a tool use whose payload has no status, and of one whose
    payload has the status [error]. *)
Lemma tool_result_status_normalized_witness :
  (exists w',
     loop_turn session_env terse_handlers (Received (dumps tool_end_message))
       world_with_tool_use = (Ret true, w')
     /\ sent_upstream (trace w') =
          [dumps (tool_start_event JNull "uuid-0" (JStr "id-7"));
           dumps (tool_result_event JNull "uuid-0"
                    (dumps (JObj [("result", JStr "done")])) "success");
           dumps (tool_content_end_event JNull "uuid-0")])
  /\ (exists w',
        loop_turn session_env (tool_handlers session_env)
          (Received (dumps tool_end_message)) world_with_empty_tool_use
        = (Ret true, w')
        /\ sent_upstream (trace w') =
             [dumps (tool_start_event JNull "uuid-0" (JStr "id-7"));
              dumps (tool_result_event JNull "uuid-0"
                       (dumps (result_dict "No number was provided for the race."
                                 "error")) "error");
              dumps (tool_content_end_event JNull "uuid-0")]).
Proof.
  split.
  - destruct (tool_result_status_normalized session_env terse_handlers
                (dumps tool_end_message)
                [("event", JObj [("contentEnd", JObj [("type", JStr "TOOL")])])]
                [("contentEnd", JObj [("type", JStr "TOOL")])]
                (JObj [("type", JStr "TOOL")])
                [("result", JStr "done")]
                world_with_tool_use
                (processToolUse session_env terse_handlers
                   (toolName (mgr world_with_tool_use))
                   (toolUseContent (mgr world_with_tool_use))
                   (with_trace world_with_tool_use
                      [ELog INFO "Processing tool use and sending result"])).2)
      as (status & w' & _ & Hok & Hturn & _ & Hsent);
      [done|reflexivity..|].
    rewrite (Hok ltac:(discriminate)) in Hsent.
    exists w'. split; [exact Hturn|exact Hsent].
  - destruct (tool_result_status_normalized session_env (tool_handlers session_env)
                (dumps tool_end_message)
                [("event", JObj [("contentEnd", JObj [("type", JStr "TOOL")])])]
                [("contentEnd", JObj [("type", JStr "TOOL")])]
                (JObj [("type", JStr "TOOL")])
                [("result", JStr "No number was provided for the race.");
                 ("status", JStr "error")]
                world_with_empty_tool_use
                (processToolUse session_env (tool_handlers session_env)
                   (toolName (mgr world_with_empty_tool_use))
                   (toolUseContent (mgr world_with_empty_tool_use))
                   (with_trace world_with_empty_tool_use
                      [ELog INFO "Processing tool use and sending result"])).2)
      as (status & w' & Herr & _ & Hturn & _ & Hsent);
      [done|reflexivity..|].
    rewrite (Herr eq_refl) in Hsent.
    exists w'. split; [exact Hturn|exact Hsent].
Defined.

(** The end of a numberRace tool use. *)
Lemma tool_use_end_sends_the_result_upstream_witness :
  toolName (mgr world_with_tool_use) = JStr "numberRace"
  /\ py_json_loads session_env (JStr (dumps tool_end_message)) = Ret tool_end_message
  /\ exists text status w1 w',
       processToolUse session_env (tool_handlers session_env)
         (toolName (mgr world_with_tool_use)) (toolUseContent (mgr world_with_tool_use))
         (with_trace world_with_tool_use
            [ELog INFO "Processing tool use and sending result"])
         = (Ret (result_dict text status), w1)
       /\ (status = "success" \/ status = "error")
       /\ loop_turn session_env (tool_handlers session_env)
            (Received (dumps tool_end_message)) world_with_tool_use = (Ret true, w')
       /\ output_queue (mgr w')
          = (output_queue (mgr world_with_tool_use) ++ [tool_end_message])%list
       /\ sent_upstream (trace w') =
            (sent_upstream (trace world_with_tool_use)
             ++ [json_dumps session_env
                   (tool_start_event (prompt_name (mgr world_with_tool_use))
                      (uuid4 session_env (uuid_calls w1))
                      (toolUseId (mgr world_with_tool_use)));
                 json_dumps session_env
                   (tool_result_event (prompt_name (mgr world_with_tool_use))
                      (uuid4 session_env (uuid_calls w1))
                      (json_dumps session_env (result_dict text status)) status);
                 json_dumps session_env
                   (tool_content_end_event (prompt_name (mgr world_with_tool_use))
                      (uuid4 session_env (uuid_calls w1)))])%list.
Proof.
  split; [reflexivity|]. split; [reflexivity|].
  apply (tool_use_end_sends_the_result_upstream session_env
           (dumps tool_end_message) "numberRace"
           [("event", JObj [("contentEnd", JObj [("type", JStr "TOOL")])])]
           [("contentEnd", JObj [("type", JStr "TOOL")])]
           (JObj [("type", JStr "TOOL")]) world_with_tool_use);
    done.
Defined.

(** The turn on the audio message relays it. *)
Lemma loop_relays_each_message_once_witness :
  audio_output_relayed = (Ret true, audio_output_relayed.2)
  /\ output_queue (mgr audio_output_relayed.2) =
       (output_queue (mgr streaming_world)
        ++ [relayed session_env (dumps audio_output_message)])%list.
Proof.
  split; [reflexivity|].
  apply (loop_relays_each_message_once session_env (dumps audio_output_message)
           streaming_world audio_output_relayed.2).
  reflexivity.
Defined.

(** Three messages of a client, two of them useless. *)
Lemma websocket_handler_survives_any_message_witness :
  (forall n, upstream_send session_env n <> Raise CancelledError)
  /\ exists w',
       websocket_handler_messages session_env
         ["not json"; dumps prompt_start_message; "null"] streaming_world
       = (Ret (), w').
Proof.
  split; [done|].
  apply (websocket_handler_survives_any_message session_env
           ["not json"; dumps prompt_start_message; "null"] streaming_world).
  done.
Defined.

Lemma audio_messages_carry_two_chunks :
  Forall2 (audio_message session_env)
    [dumps (audio_message_of "AAAA"); dumps (audio_message_of "")] two_chunks.
Proof.
  repeat constructor; eexists _, _, _; repeat split; reflexivity.
Defined.

(** Two audio messages of a client, the second one without data. *)
Lemma client_audio_reaches_the_stream_witness :
  (forall n, upstream_send session_env n <> Raise CancelledError)
  /\ Forall2 (audio_message session_env)
       [dumps (audio_message_of "AAAA"); dumps (audio_message_of "")] two_chunks
  /\ exists w1 w2,
       websocket_handler_messages session_env
         [dumps (audio_message_of "AAAA"); dumps (audio_message_of "")]
         streaming_world = (Ret (), w1)
       /\ audio_input_queue (mgr w1) = chunk_item <$> two_chunks
       /\ trace w1 = trace streaming_world
       /\ _process_audio_input session_env always_loud w1 = (Ret false, w2)
       /\ audio_input_queue (mgr w2) = []
       /\ sent_upstream (trace w2) =
            (sent_upstream (trace streaming_world)
             ++ (chunk_event_text session_env
                   <$> filter (fun x => chunk_complete x = true) two_chunks))%list.
Proof.
  split; [done|]. split; [exact audio_messages_carry_two_chunks|].
  apply (client_audio_reaches_the_stream session_env always_loud
           [dumps (audio_message_of "AAAA"); dumps (audio_message_of "")]
           two_chunks streaming_world);
    [done|reflexivity|reflexivity|reflexivity|exact audio_messages_carry_two_chunks].
Defined.

(** The start of a prompt, sent by the client. *)
Lemma client_events_are_forwarded_upstream_witness :
  py_json_loads session_env (JStr (dumps prompt_start_message))
    = Ret prompt_start_message
  /\ exists w',
       websocket_handler_message session_env (dumps prompt_start_message)
         streaming_world = (Ret (), w')
       /\ mgr w' = set_prompt_name (JStr "prompt-1") (mgr streaming_world)
       /\ sent_upstream (trace w') =
            (sent_upstream (trace streaming_world)
             ++ [json_dumps session_env prompt_start_message])%list.
Proof.
  split; [reflexivity|].
  refine (proj1 (proj2 (client_events_are_forwarded_upstream session_env
                          (dumps prompt_start_message) "promptStart"
                          [("event",
                            JObj [("promptStart",
                                   JObj [("promptName", JStr "prompt-1")])])]
                          []
                          (JObj [("promptName", JStr "prompt-1")])
                          streaming_world _ _ _ _ _ _))
            eq_refl (JStr "prompt-1") _);
    done.
Defined.

(** A validation error of two lines. *)
Lemma fatal_error_reaches_the_client_as_one_line_witness :
  is_fatal_bedrock_error validation_error = true
  /\ exists line,
       output_queue
         (mgr (loop_turn example_env (tool_handlers example_env)
                 (ReceiveRaises (Exn OtherException validation_error))
                 streaming_world).2) =
         (output_queue (mgr streaming_world) ++ [fatal_error_payload line])%list
       /\ String.prefix line validation_error = true
       /\ Forall (fun c => is_line_break c = false) (list_ascii_of_string line)
       /\ up_to_line_break line = line.
Proof.
  split; [reflexivity|].
  apply (fatal_error_reaches_the_client_as_one_line example_env
           (tool_handlers example_env)
           (ReceiveRaises (Exn OtherException validation_error))
           OtherException validation_error streaming_world);
    [by right|discriminate|reflexivity].
Defined.

(** A screenshot and its description. *)
Lemma image_analysis_describe_outcomes_witness :
  image_analysis_describe "uuid-0" (JStr "the chart")
    (JStr "data:image/png;base64,AAAA") (Ret ()) (Ret "A bar chart.") initial_world
  = (Ret image_result, initial_world)
  /\ (image_analysis_describe "uuid-0" (JStr "the chart")
        (JStr "AAAA") (Ret ()) (Ret "A bar chart.") initial_world).1
     = Raise unbound_results_for_cache.
Proof.
  split.
  - refine (proj1 (image_analysis_describe_outcomes "uuid-0" (JStr "the chart")
                     (JStr "data:image/png;base64,AAAA") (Ret ()) (Ret "A bar chart.")
                     initial_world _ _)
              "data:image/png;base64,AAAA" "AAAA" "A bar chart." _ _ _ _ _);
      done.
  - refine (proj2 (image_analysis_describe_outcomes "uuid-0" (JStr "the chart")
                     (JStr "AAAA") (Ret ()) (Ret "A bar chart.")
                     initial_world _ _) _); try done.
    intros s base64 d [= <-] Hp. discriminate Hp.
Defined.

(** Loud chunks in a row. *)
Lemma speech_is_reported_once_per_burst_witness :
  (detect_speech_in_audio always_loud (JStr "AAAA") streaming_world).1 = Ret true
  /\ (detect_speech_in_audio always_loud (JStr "BBBB")
        (detect_speech_in_audio always_loud (JStr "AAAA") streaming_world).2).1
     = Ret false.
Proof.
  destruct (speech_is_reported_once_per_burst always_loud (JStr "AAAA")
              (JStr "BBBB") streaming_world eq_refl eq_refl)
    as (H1 & H2 & _).
  split; [exact H1|exact H2].
Defined.

(** The weather in Seattle, by an agent that thinks aloud. *)
Lemma weather_reply_loses_a_one_line_thinking_block_witness :
  cleaned_reply "<thinking>Look it up.</thinking>Sunny." "Sunny."
  /\ handle_get_weather session_env
       (tool_use "getWeather" "id-3" (object_text "location" (quoted "Seattle")))
       initial_world =
     (Ret (result_dict "Sunny." "success"),
      with_trace initial_world
        [ELog INFO "[Tool:getWeather] Called for location";
         EWeatherAgent "Get on the current weather for Seattle";
         ELog INFO "response.message";
         ELog INFO "response.metrics"]).
Proof.
  assert (H : cleaned_reply "<thinking>Look it up.</thinking>Sunny." "Sunny.")
    by exact (reply_with_block_on_one_line "" "Look it up." "Sunny."
                eq_refl eq_refl eq_refl eq_refl).
  split; [exact H|].
  apply (weather_reply_loses_a_one_line_thinking_block session_env
           (tool_use "getWeather" "id-3" (object_text "location" (quoted "Seattle")))
           (JStr (object_text "location" (quoted "Seattle")))
           (JObj [("location", JStr "Seattle")]) (JStr "Seattle")
           (JObj [("content",
                   JArr [JObj [("text",
                                JStr "<thinking>Look it up.</thinking>Sunny.")]])])
           (JArr [JObj [("text", JStr "<thinking>Look it up.</thinking>Sunny.")]])
           (JObj [("text", JStr "<thinking>Look it up.</thinking>Sunny.")])
           "<thinking>Look it up.</thinking>Sunny." "Sunny." initial_world);
    first [reflexivity | exact H].
Defined.

(** The end of a session, sent before and after the stream is open. *)
Lemma send_raw_event_sends_once_or_not_at_all_witness :
  send_raw_event session_env session_end_message initial_world =
    (Ret (),
     with_trace initial_world
       [ELog WARNING "Bedrock stream not initialized or closed. Cannot send event."])
  /\ exists w',
       send_raw_event session_env session_end_message streaming_world = (Ret (), w')
       /\ mgr w' = mgr streaming_world
       /\ sent_upstream (trace w') =
            (sent_upstream (trace streaming_world)
             ++ [dumps session_end_message])%list.
Proof.
  split.
  - apply (proj1 (send_raw_event_sends_once_or_not_at_all session_env
                    session_end_message initial_world)).
    reflexivity.
  - apply (proj2 (send_raw_event_sends_once_or_not_at_all session_env
                    session_end_message streaming_world));
      [reflexivity|done|reflexivity].
Defined.

(** An outbound queue with a message behind the sentinel. *)
Lemma forwarder_sends_in_order_up_to_the_sentinel_witness :
  exists w',
    forward_responses session_env
      (with_mgr streaming_world
         (set_output_queue [audio_output_message; JNull; tool_use_message]
            (mgr streaming_world)))
    = (Ret true, w')
    /\ sent_to_websocket (trace w') = [dumps audio_output_message].
Proof.
  apply (proj2 (forwarder_sends_in_order_up_to_the_sentinel session_env
                  (with_mgr streaming_world
                     (set_output_queue
                        [audio_output_message; JNull; tool_use_message]
                        (mgr streaming_world))))).
  - done.
  - intros x w0 Hx. cbn in Hx.
    apply list_elem_of_singleton in Hx as ->. reflexivity.
Defined.

(** A discovery that is refused, and the next one. *)
Lemma a2a_client_is_discovered_once_and_retried_after_failure_witness :
  (get_initialized_a2a_client NoA2AClient
     (Raise (Exn ConnectionError "refused"))).1 = ErrorDuringInit
  /\ (_execute_agent_search_remotely example_env (JStr "X") (JStr "id-1")
        ((get_initialized_a2a_client NoA2AClient
            (Raise (Exn ConnectionError "refused"))).2 initial_world).1
        (Ret "unused") initial_world).1 =
       Ret (JObj [("error",
                   JStr "Could not connect to or initialize the search agent: AgentClient could not be initialized/discovered. Check A2A server and configurations.");
                  ("originalQuery", JStr "X");
                  ("searchId", JStr "id-1");
                  ("details", JNull)])
  /\ (get_initialized_a2a_client ErrorDuringInit (Ret true)).1 = A2AClient
  /\ get_initialized_a2a_client A2AClient (Ret false) = (A2AClient, mret ()).
Proof.
  destruct (proj2 (proj2 (a2a_client_is_discovered_once_and_retried_after_failure
                            example_env NoA2AClient
                            (Raise (Exn ConnectionError "refused")) (Ret false)
                            (JStr "X") (JStr "id-1") (Ret "unused") initial_world)))
    as (H1 & _ & H3 & H4 & _); [discriminate..|].
  split; [exact H1|]. split; [exact H3|]. split; [exact H4|].
  apply (proj1 (proj2 (a2a_client_is_discovered_once_and_retried_after_failure
                         example_env A2AClient (Ret true) (Ret false)
                         (JStr "X") (JStr "id-1") (Ret "unused") initial_world))).
  reflexivity.
Defined.

(** The weather tool, asked for in capitals. *)
Lemma advertised_tools_have_handlers_witness :
  field_path ["toolSpec"; "name"] (get_weather_tool_spec example_env)
    = Some (JStr "getWeather")
  /\ is_Some (tool_handlers example_env !! lower "GETWEATHER").
Proof.
  destruct (proj1 (advertised_tools_have_handlers example_env)
              "getWeather" (get_weather_tool_spec example_env)) as [H1 H2].
  - apply list_elem_of_here.
  - split; [exact H1|]. apply H2. reflexivity.
Defined.

(** A screenshot for an analysis that is waiting for it. *)
Lemma client_screenshot_wakes_the_analysis_witness :
  py_json_loads session_env (JStr (dumps screenshot_message)) = Ret screenshot_message
  /\ exists w2,
       websocket_handler_message session_env (dumps screenshot_message)
         (image_analysis_request "uuid-0" streaming_world).2 = (Ret (), w2)
       /\ pending_screenshot_events (mgr w2) !! KStr "uuid-0" = Some true
       /\ sent_upstream (trace w2) = sent_upstream (trace streaming_world)
       /\ (image_analysis_after_wait "uuid-0" (Ret ()) w2).1
          = Ret (JStr "data:image/png;base64,AAAA").
Proof.
  split; [reflexivity|].
  apply (client_screenshot_wakes_the_analysis session_env
           (dumps screenshot_message) "uuid-0"
           [("customEvent", JStr "capturedScreenshotData");
            ("payload",
             JObj [("imageAnalysisId", JStr "uuid-0");
                   ("imageDataUrl", JStr "data:image/png;base64,AAAA")])]
           [("imageAnalysisId", JStr "uuid-0");
            ("imageDataUrl", JStr "data:image/png;base64,AAAA")]
           streaming_world);
    first [reflexivity | discriminate].
Defined.
